(** * terraform-provider-netbird: the provider's HTTP client, field
    converters and resource handlers, embedded from the Go sources.

    Go values are modelled as the code has them: a slice keeps the
    difference between [nil] and an empty non-nil slice, a pointer is an
    [option], a [(value, error)] result is a pair whose second component
    is an [option] of the error message, and the framework's tri-state
    attribute values ([types.String], [types.List], ...) are inductive
    types with a null, an unknown and a known case.  Everything that
    talks to the network runs in a small state monad over the remote
    server and the log of requests that went over the wire. *)

From Stdlib Require Import ZArith.
From Stdlib.Strings Require Import String Byte.
From stdpp Require Import base decidable option list gmap strings.

Local Open Scope Z_scope.
Local Open Scope string_scope.
Local Open Scope list_scope.

(** ** Go slices *)

Module slice.

(** A slice is [nil] or points at a (possibly empty) sequence. *)
Inductive t (A : Type) : Type :=
| Nil
| Of (l : list A).
Arguments Nil {A}.
Arguments Of {A} l.

Definition elems {A} (s : t A) : list A :=
  match s with
  | Nil => []
  | Of l => l
  end.

Definition len {A} (s : t A) : nat := length (elems s).

Definition is_nil {A} (s : t A) : bool :=
  match s with
  | Nil => true
  | Of _ => false
  end.

(** [append(s, x)]: the result is never nil. *)
Definition append {A} (s : t A) (x : A) : t A := Of (elems s ++ [x]).

(** [for _, x := range s { acc = append(acc, f x) }] from a nil [acc]:
    the accumulator stays nil when the loop body never runs. *)
Definition collect {A B} (f : A -> B) (s : t A) : t B :=
  fold_left (fun acc x => append acc (f x)) (elems s) Nil.

End slice.

(** A Go [error] value is represented by its message. *)
Definition error := string.

(** [string(b)] for a byte slice [b]. *)
Definition string_of_bytes (b : slice.t byte) : string :=
  string_of_list_byte (slice.elems b).

(** ** terraform-plugin-framework: diagnostics *)

Module diag.

Inductive Severity := SeverityError | SeverityWarning.

(** [attribute] is the path of an attribute diagnostic, and [None] for
    a plain one. *)
Record Diagnostic := {
  severity : Severity;
  summary : string;
  detail : string;
  attribute : option string;
}.

#[global] Instance Severity_eq_dec : EqDecision Severity.
Proof. solve_decision. Defined.

#[global] Instance Diagnostic_eq_dec : EqDecision Diagnostic.
Proof. solve_decision. Defined.

Definition Diagnostics := list Diagnostic.

Definition NewErrorDiagnostic (s d : string) : Diagnostic :=
  {| severity := SeverityError; summary := s; detail := d; attribute := None |}.

Definition NewAttributeErrorDiagnostic (path s d : string) : Diagnostic :=
  {| severity := SeverityError; summary := s; detail := d; attribute := Some path |}.

Definition Contains (diags : Diagnostics) (d : Diagnostic) : bool :=
  bool_decide (d ∈ diags).

(** [diags.Append(in...)] skips a diagnostic that is already there. *)
Definition Append (diags : Diagnostics) (new : Diagnostics) : Diagnostics :=
  fold_left (fun acc d => if Contains acc d then acc else acc ++ [d]) new diags.

Definition AddError (diags : Diagnostics) (s d : string) : Diagnostics :=
  Append diags [NewErrorDiagnostic s d].

Definition AddAttributeError (diags : Diagnostics) (path s d : string) : Diagnostics :=
  Append diags [NewAttributeErrorDiagnostic path s d].

Definition is_error (d : Diagnostic) : bool :=
  match severity d with
  | SeverityError => true
  | SeverityWarning => false
  end.

Definition HasError (diags : Diagnostics) : bool := existsb is_error diags.

End diag.

(** ** terraform-plugin-framework: attribute values *)

Module types.

(** The element types in use, and [MissingType] for the nil element type
    of a zero-valued list. *)
Inductive AttrType := StringType | BoolType | Int32Type | Int64Type | MissingType.

#[global] Instance AttrType_eq_dec : EqDecision AttrType.
Proof. solve_decision. Defined.

Inductive String := StringNull | StringUnknown | StringValue (s : string).
Inductive Bool := BoolNull | BoolUnknown | BoolValue (b : bool).
Inductive Int32 := Int32Null | Int32Unknown | Int32Value (n : Z).
Inductive Int64 := Int64Null | Int64Unknown | Int64Value (n : Z).

(** [s.ValueString()]: the empty string for a null or unknown value. *)
Definition ValueString (s : String) : string :=
  match s with
  | StringValue v => v
  | _ => ""
  end.

(** [s.ValueStringPointer()]: nil for null, else a pointer to the value
    (which is the empty string for an unknown). *)
Definition ValueStringPointer (s : String) : option string :=
  match s with
  | StringNull => None
  | StringUnknown => Some ""
  | StringValue v => Some v
  end.

(** [s.String()], given the quoting of [%q]. *)
Definition String_String (quote : string -> string) (s : String) : string :=
  match s with
  | StringUnknown => "<unknown>"
  | StringNull => "<null>"
  | StringValue v => quote v
  end.

Definition ValueBool (b : Bool) : bool :=
  match b with
  | BoolValue v => v
  | _ => false
  end.

(** [types.BoolPointerValue(p)]. *)
Definition BoolPointerValue (p : option bool) : Bool :=
  match p with
  | None => BoolNull
  | Some b => BoolValue b
  end.

Definition ValueInt32 (n : Int32) : Z :=
  match n with
  | Int32Value v => v
  | _ => 0
  end.

(** [attr.Value]: the element values a list can hold. *)
Inductive Value :=
| VString (v : String)
| VBool (v : Bool)
| VInt32 (v : Int32)
| VInt64 (v : Int64).

Definition TypeOf (v : Value) : AttrType :=
  match v with
  | VString _ => StringType
  | VBool _ => BoolType
  | VInt32 _ => Int32Type
  | VInt64 _ => Int64Type
  end.

Inductive List :=
| ListNull (elementType : AttrType)
| ListUnknown (elementType : AttrType)
| ListKnown (elementType : AttrType) (elements : list Value).

Definition IsNull (l : List) : bool :=
  match l with
  | ListNull _ => true
  | _ => false
  end.

Definition IsUnknown (l : List) : bool :=
  match l with
  | ListUnknown _ => true
  | _ => false
  end.

(** [l.Elements()]: a fresh copy of the elements, empty for null and
    unknown lists. *)
Definition Elements (l : List) : list Value :=
  match l with
  | ListKnown _ es => es
  | _ => []
  end.

(** [types.ListValue(elementType, elements)]: one error diagnostic per
    element of another type; with any such error the result is the
    unknown list. *)
Definition ListValue (elementType : AttrType) (elements : slice.t Value)
  : List * diag.Diagnostics :=
  let diags :=
    fold_left
      (fun acc v =>
         if decide (TypeOf v = elementType) then acc
         else diag.AddError acc "Invalid List Element Type"
                "While creating a List value, an invalid element was detected.")
      (slice.elems elements) [] in
  if diag.HasError diags
  then (ListUnknown elementType, diags)
  else (ListKnown elementType (slice.elems elements), []).

End types.

(** ** net/http: requests, responses, headers *)

Module http.

(** [http.Header]: canonical key to its values.  The only keys this
    provider sets, [Authorization] and [Content-Type], are already in
    canonical form, so [Set] stores them as they are. *)
Definition Header_Set (h : gmap string (list string)) (key value : string)
  : gmap string (list string) :=
  <[key := [value]]> h.

Record Request := {
  Method : string;
  URL : string;
  Header : gmap string (list string);
  Body : slice.t byte;
}.

Definition Request_Header_Set (r : Request) (key value : string) : Request :=
  {| Method := Method r; URL := URL r;
     Header := Header_Set (Header r) key value; Body := Body r |}.

(** A response body is a stream; what matters here is what reading it
    to the end gives: the bytes read and, possibly, a read error. *)
Record ReadCloser := {
  content : list byte;
  readErr : option error;
}.

Record Response := {
  StatusCode : Z;
  RespBody : ReadCloser;
}.

(** [http.Client]: only the timeout is ever configured. [Timeout] is a
    [time.Duration], a count of nanoseconds. *)
Record Client := {
  Timeout : Z;
}.

End http.

Module time.
Definition Nanosecond : Z := 1.
Definition Microsecond : Z := 1000 * Nanosecond.
Definition Millisecond : Z := 1000 * Microsecond.
Definition Second : Z := 1000 * Millisecond.
End time.

(** [int32(n)] for a Go [int]: the low 32 bits, read as a signed
    number. *)
Definition int32 (n : Z) : Z := ((n + 2 ^ 31) mod 2 ^ 32 - 2 ^ 31)%Z.

(** A run-time panic, by its message. *)
Definition panic := string.

(** [io.ReadAll(r)]: the buffer it returns is allocated up front, so the
    slice is non-nil even when nothing was read. *)
Definition io_ReadAll (r : http.ReadCloser) : slice.t byte * option error :=
  (slice.Of (http.content r), http.readErr r).

(** ** netbird management API: the wire records the provider uses *)

Module netbirdApi.

Record Network := {
  Network_Id : string;
  Network_Name : string;
  Network_Description : option string;
  Network_Routers : slice.t string;
  Network_RoutingPeersCount : Z;
  Network_Resources : slice.t string;
  Network_Policies : slice.t string;
}.

Record Resource := {
  Resource_Id : string;
  Resource_Type : string;
}.

Record PeerMinimum := {
  PeerMinimum_Id : string;
  PeerMinimum_Name : string;
}.

Record Group := {
  Group_Id : string;
  Group_Name : string;
  Group_PeersCount : Z;
  Group_ResourcesCount : Z;
  Group_Issued : option string;
  Group_Peers : slice.t PeerMinimum;
  Group_Resources : slice.t Resource;
}.

Record DNSSettings := {
  DisabledManagementGroups : slice.t string;
}.

Record Nameserver := {
  Nameserver_Ip : string;
  Nameserver_NsType : string;
  Nameserver_Port : Z;
}.

Record NameserverGroup := {
  NameserverGroup_Id : string;
  NameserverGroup_Name : string;
  NameserverGroup_Description : string;
  NameserverGroup_Nameservers : slice.t Nameserver;
  NameserverGroup_Groups : slice.t string;
  NameserverGroup_Primary : bool;
  NameserverGroup_Domains : slice.t string;
  NameserverGroup_SearchDomainsEnabled : bool;
  NameserverGroup_Enabled : bool;
}.

Record RulePortRange := {
  Start : Z;
  End_ : Z;
}.

Record PolicyRuleUpdate := {
  Rule_Name : string;
  Rule_Description : option string;
  Rule_Enabled : bool;
  Rule_Action : string;
  Rule_Bidirectional : bool;
  Rule_Protocol : string;
  Rule_Ports : option (slice.t string);
  Rule_PortRanges : option (slice.t RulePortRange);
  Rule_Sources : option (slice.t string);
  Rule_SourceResource : option Resource;
  Rule_Destinations : option (slice.t string);
  Rule_DestinationResource : option Resource;
}.

Record GroupMinimum := {
  GroupMinimum_Id : string;
  GroupMinimum_Name : string;
  GroupMinimum_PeersCount : Z;
  GroupMinimum_ResourcesCount : Z;
  GroupMinimum_Issued : option string;
}.

Record GroupRequest := {
  GroupRequest_Name : string;
  GroupRequest_Peers : option (slice.t string);
  GroupRequest_Resources : option (slice.t Resource);
}.

Record NetworkRouter := {
  NetworkRouter_Id : string;
  NetworkRouter_Peer : option string;
  NetworkRouter_PeerGroups : option (slice.t string);
  NetworkRouter_Metric : Z;
  NetworkRouter_Masquerade : bool;
  NetworkRouter_Enabled : bool;
}.

Record NetworkRouterRequest := {
  NetworkRouterRequest_Peer : option string;
  NetworkRouterRequest_PeerGroups : option (slice.t string);
  NetworkRouterRequest_Metric : Z;
  NetworkRouterRequest_Masquerade : bool;
  NetworkRouterRequest_Enabled : bool;
}.

Record NetworkResource := {
  NetworkResource_Id : string;
  NetworkResource_Name : string;
  NetworkResource_Description : option string;
  NetworkResource_Groups : slice.t GroupMinimum;
  NetworkResource_Address : string;
  NetworkResource_Enabled : bool;
}.

Record NetworkResourceRequest := {
  NetworkResourceRequest_Name : string;
  NetworkResourceRequest_Description : option string;
  NetworkResourceRequest_Groups : slice.t string;
  NetworkResourceRequest_Address : string;
  NetworkResourceRequest_Enabled : bool;
}.

Record NameserverGroupRequest := {
  NameserverGroupRequest_Name : string;
  NameserverGroupRequest_Description : string;
  NameserverGroupRequest_Nameservers : slice.t Nameserver;
  NameserverGroupRequest_Groups : slice.t string;
  NameserverGroupRequest_Primary : bool;
  NameserverGroupRequest_Domains : slice.t string;
  NameserverGroupRequest_SearchDomainsEnabled : bool;
  NameserverGroupRequest_Enabled : bool;
}.

Record PolicyRule := {
  PolicyRule_Id : option string;
  PolicyRule_Name : string;
  PolicyRule_Description : option string;
  PolicyRule_Enabled : bool;
  PolicyRule_Action : string;
  PolicyRule_Bidirectional : bool;
  PolicyRule_Protocol : string;
  PolicyRule_Ports : option (slice.t string);
  PolicyRule_PortRanges : option (slice.t RulePortRange);
  PolicyRule_Sources : option (slice.t GroupMinimum);
  PolicyRule_Destinations : option (slice.t GroupMinimum);
  PolicyRule_SourceResource : option Resource;
  PolicyRule_DestinationResource : option Resource;
}.

Record Policy := {
  Policy_Id : option string;
  Policy_Name : string;
  Policy_Description : option string;
  Policy_Enabled : bool;
  Policy_SourcePostureChecks : slice.t string;
  Policy_Rules : slice.t PolicyRule;
}.

(** [PolicyCreate] and [PolicyUpdate] have the same fields. *)
Record PolicyWrite := {
  PolicyWrite_Name : string;
  PolicyWrite_Description : option string;
  PolicyWrite_Enabled : bool;
  PolicyWrite_SourcePostureChecks : option (slice.t string);
  PolicyWrite_Rules : slice.t PolicyRuleUpdate;
}.

(** [time.Time], as a count of nanoseconds. *)
Definition Time := Z.

Record PeerBatch := {
  PeerBatch_Id : string;
  PeerBatch_Name : string;
  PeerBatch_Ip : string;
  PeerBatch_ConnectionIp : string;
  PeerBatch_Connected : bool;
  PeerBatch_LastSeen : Time;
  PeerBatch_Os : string;
  PeerBatch_KernelVersion : string;
  PeerBatch_GeonameId : Z;
  PeerBatch_Version : string;
  PeerBatch_Groups : slice.t GroupMinimum;
  PeerBatch_SshEnabled : bool;
  PeerBatch_UserId : string;
  PeerBatch_Hostname : string;
  PeerBatch_UiVersion : string;
  PeerBatch_DnsLabel : string;
  PeerBatch_LoginExpirationEnabled : bool;
  PeerBatch_LoginExpired : bool;
  PeerBatch_LastLogin : Time;
  PeerBatch_InactivityExpirationEnabled : bool;
  PeerBatch_ApprovalRequired : bool;
  PeerBatch_CountryCode : string;
  PeerBatch_CityName : string;
  PeerBatch_SerialNumber : string;
  PeerBatch_ExtraDnsLabels : slice.t string;
  PeerBatch_AccessiblePeersCount : Z;
}.

(** A decoded [interface{}]: a string, or a value of another type. *)
Inductive any := AnyString (s : string) | AnyOther.

End netbirdApi.

(** ** The data-source models (src/internal/provider/data_models.go) *)

Record PeerGroupDataSourceModel := {
  PeerGroup_ID : types.String;
  PeerGroup_Name : types.String;
  PeerGroup_PeersCount : types.Int64;
  PeerGroup_ResourcesCount : types.Int64;
  PeerGroup_Issued : types.String;
}.

Record PeerDataSourceModel := {
  Peer_ID : types.String;
  Peer_Name : types.String;
  Peer_IP : types.String;
  Peer_ConnectionIP : types.String;
  Peer_Connected : types.Bool;
  Peer_LastSeen : types.String;
  Peer_OS : types.String;
  Peer_KernelVersion : types.String;
  Peer_GeonameID : types.Int64;
  Peer_Version : types.String;
  Peer_Groups : slice.t PeerGroupDataSourceModel;
  Peer_SSHEnabled : types.Bool;
  Peer_UserID : types.String;
  Peer_Hostname : types.String;
  Peer_UIVersion : types.String;
  Peer_DNSLabel : types.String;
  Peer_LoginExpirationEnabled : types.Bool;
  Peer_LoginExpired : types.Bool;
  Peer_LastLogin : types.String;
  Peer_InactivityExpirationEnabled : types.Bool;
  Peer_ApprovalRequired : types.Bool;
  Peer_CountryCode : types.String;
  Peer_CityName : types.String;
  Peer_SerialNumber : types.String;
  Peer_ExtraDNSLabels : slice.t types.String;
  Peer_AccessiblePeersCount : types.Int64;
}.

Record PeersDataSourceModel := {
  Peers_Name : types.String;
  Peers_IP : types.String;
  Peers_Peers : slice.t PeerDataSourceModel;
}.

(** ** What the provider takes from outside the repository

    The remote API server behind [http.Client.Do], the request
    validation of [http.NewRequest], the JSON codecs of [encoding/json]
    at the types the handlers use, and the framework's reflection-based
    [types.ListValueFrom] at [[]string]. *)

Class Runtime := {
  server : Type;
  (** One [client.Do(req)]: the transport error or the final response,
      and the server afterwards. *)
  roundTrip : server -> http.Client -> http.Request -> (http.Response + error) * server;
  (** The error of [http.NewRequest(method, url, _)], if any. *)
  NewRequest_error : string -> string -> option error;
  Marshal_StringMap : list (string * string) -> list byte + error;
  Marshal_DNSSettings : netbirdApi.DNSSettings -> list byte + error;
  Marshal_GroupRequest : netbirdApi.GroupRequest -> list byte + error;
  Marshal_NetworkRouterRequest : netbirdApi.NetworkRouterRequest -> list byte + error;
  Marshal_NetworkResourceRequest : netbirdApi.NetworkResourceRequest -> list byte + error;
  Marshal_NameserverGroupRequest : netbirdApi.NameserverGroupRequest -> list byte + error;
  Marshal_PolicyCreate : netbirdApi.PolicyWrite -> list byte + error;
  Marshal_PolicyUpdate : netbirdApi.PolicyWrite -> list byte + error;
  Unmarshal_Network : list byte -> netbirdApi.Network + error;
  Unmarshal_Group : list byte -> netbirdApi.Group + error;
  Unmarshal_DNSSettings : list byte -> netbirdApi.DNSSettings + error;
  Unmarshal_NameserverGroup : list byte -> netbirdApi.NameserverGroup + error;
  Unmarshal_NetworkRouter : list byte -> netbirdApi.NetworkRouter + error;
  Unmarshal_NetworkResource : list byte -> netbirdApi.NetworkResource + error;
  Unmarshal_Policy : list byte -> netbirdApi.Policy + error;
  Unmarshal_PeerBatch : list byte -> netbirdApi.PeerBatch + error;
  (** Decoding into a [map[string]interface{}]. *)
  Unmarshal_Object : list byte -> gmap string netbirdApi.any + error;
  Unmarshal_Peers : list byte -> slice.t PeerDataSourceModel + error;
  ListValueFrom_strings : slice.t string -> types.List * diag.Diagnostics;
  (** [list.ElementsAs(ctx, &target, false)] for a [[]string] target. *)
  ElementsAs_strings : types.List -> slice.t string * diag.Diagnostics;
  (** [strconv.Quote], which [%q] prints a string with. *)
  Quote : string -> string;
  (** [t.String()] for a [time.Time]. *)
  Time_String : netbirdApi.Time -> string;
}.

(** ** The state the handlers run in *)

(** One request that went over the wire, with the [http.Client] that
    sent it. *)
Record Exchange := {
  via : http.Client;
  sent : http.Request;
}.

Record World `{Runtime} := {
  remote : server;
  wire : list Exchange;
}.

Definition IO `{Runtime} (A : Type) : Type := World -> A * World.

#[export] Instance IO_ret `{Runtime} : MRet IO :=
  fun A a w => (a, w).

#[export] Instance IO_bind `{Runtime} : MBind IO :=
  fun A B f m w => let '(a, w') := m w in f a w'.

(** [c.Do(req)] *)
Definition http_Client_Do `{Runtime} (c : http.Client) (req : http.Request)
  : IO (http.Response + error) :=
  fun w =>
    let '(r, s') := roundTrip (remote w) c req in
    (r, {| remote := s'; wire := wire w ++ [{| via := c; sent := req |}] |}).

(** [http.NewRequest(method, url, body)] *)
Definition http_NewRequest `{Runtime} (method url : string) (body : slice.t byte)
  : http.Request + error :=
  match NewRequest_error method url with
  | Some e => inr e
  | None => inl {| http.Method := method; http.URL := url;
                   http.Header := ∅; http.Body := body |}
  end.

(** The requests an operation put on the wire, given the worlds before
    and after it. *)
Definition issued `{Runtime} (before after : World) : list Exchange :=
  drop (length (wire before)) (wire after).

(** ** The HTTP client (src/unnamed/part_001) *)

Record Client := {
  BaseUrl : string;
  BearerToken : string;
  AccessToken : string;
  httpClient : http.Client;
}.

Definition NewClient (baseURL bearerToken accessToken : string) : Client :=
  {| BaseUrl := baseURL;
     BearerToken := bearerToken;
     AccessToken := accessToken;
     httpClient := {| http.Timeout := (60 * time.Second)%Z |} |}.

Definition doRequest `{Runtime} (s : Client) (req : http.Request)
  : IO (slice.t byte * option error) :=
  let req :=
    if decide (BearerToken s ≠ "")
    then http.Request_Header_Set req "Authorization" ("Bearer " +:+ BearerToken s)
    else req in
  let req :=
    if decide (AccessToken s ≠ "")
    then http.Request_Header_Set req "Authorization" ("Token " +:+ AccessToken s)
    else req in
  r ← http_Client_Do (httpClient s) req;
  match r with
  | inr err => mret (slice.Nil, Some err)
  | inl resp =>
      let '(body, err) := io_ReadAll (http.RespBody resp) in
      match err with
      | Some e => mret (slice.Nil, Some e)
      | None =>
          if (400 <=? http.StatusCode resp)%Z
          then mret (slice.Nil, Some (string_of_bytes body))
          else mret (body, None)
      end
  end.

(** ** Field converters (src/examples/resources/network_resource/resource.tf,
    the Go helpers that follow the example configuration) *)

Definition derefString (input : option string) : types.String :=
  match input with
  | None => types.StringNull
  | Some s => types.StringValue s
  end.

Definition derefStringSlice (s : option (slice.t string)) : slice.t string :=
  match s with
  | None => slice.Nil
  | Some v => v
  end.

Definition convertStringSliceToListValue (strings : slice.t string)
  : types.List * diag.Diagnostics :=
  let stringValueList :=
    slice.collect (fun val => types.VString (types.StringValue val)) strings in
  if (slice.len stringValueList =? 0)%nat
  then (types.ListNull types.StringType, [])
  else
    let '(listValue, diags) := types.ListValue types.StringType stringValueList in
    if diag.HasError diags
    then (types.ListNull types.StringType, diags)
    else (listValue, diags).

Definition nullStringToEmptyString (input : types.String) : types.String :=
  if decide (types.ValueString input = "")
  then types.StringNull
  else input.

Definition convertGroupMinimumToIdList
  (groupList : option (slice.t netbirdApi.GroupMinimum))
  : types.List * diag.Diagnostics :=
  match groupList with
  | None => (types.ListNull types.StringType, [])
  | Some groups =>
      convertStringSliceToListValue (slice.collect netbirdApi.GroupMinimum_Id groups)
  end.

Definition convertPeerGroups (groups : slice.t netbirdApi.GroupMinimum)
  : slice.t PeerGroupDataSourceModel :=
  slice.collect
    (fun group =>
       let issued :=
         match netbirdApi.GroupMinimum_Issued group with
         | Some i => i
         | None => ""
         end in
       {| PeerGroup_ID := types.StringValue (netbirdApi.GroupMinimum_Id group);
          PeerGroup_Name := types.StringValue (netbirdApi.GroupMinimum_Name group);
          PeerGroup_PeersCount :=
            types.Int64Value (netbirdApi.GroupMinimum_PeersCount group);
          PeerGroup_ResourcesCount :=
            types.Int64Value (netbirdApi.GroupMinimum_ResourcesCount group);
          PeerGroup_Issued := types.StringValue issued |})
    groups.

Definition convertStrings (input : slice.t string) : slice.t types.String :=
  slice.collect types.StringValue input.

(** ** Policy models and converters (src/unnamed/part_004) *)

Record ResourceModel := {
  ResourceModel_ID : types.String;
  ResourceModel_Type : types.String;
}.

Record PortRangeModel := {
  PortRangeModel_Start : types.Int32;
  PortRangeModel_End : types.Int32;
}.

Record PolicyRuleModel := {
  PolicyRuleModel_ID : types.String;
  PolicyRuleModel_Name : types.String;
  PolicyRuleModel_Description : types.String;
  PolicyRuleModel_Enabled : types.Bool;
  PolicyRuleModel_Action : types.String;
  PolicyRuleModel_Bidirectional : types.Bool;
  PolicyRuleModel_Protocol : types.String;
  PolicyRuleModel_Ports : types.List;
  PolicyRuleModel_PortRanges : slice.t PortRangeModel;
  PolicyRuleModel_Sources : types.List;
  PolicyRuleModel_Destinations : types.List;
  PolicyRuleModel_SourceResource : option ResourceModel;
  PolicyRuleModel_DestinationResource : option ResourceModel;
}.

(** What [%T] prints for an element value. *)
Definition GoTypeName (v : types.Value) : string :=
  match v with
  | types.VString _ => "basetypes.StringValue"
  | types.VBool _ => "basetypes.BoolValue"
  | types.VInt32 _ => "basetypes.Int32Value"
  | types.VInt64 _ => "basetypes.Int64Value"
  end.

(** The element loop of [convertListToStringSlice]: it returns from the
    function at the first element that is not a string value. *)
Fixpoint convertListToStringSlice_elements
  (elements : list types.Value) (result : slice.t string)
  : slice.t string * diag.Diagnostics :=
  match elements with
  | [] => (result, [])
  | elem :: rest =>
      match elem with
      | types.VString strVal =>
          convertListToStringSlice_elements rest
            (slice.append result (types.ValueString strVal))
      | _ =>
          (slice.Nil,
           diag.AddError [] "Unexpected type" ("unexpected type: " +:+ GoTypeName elem))
      end
  end.

Definition convertListToStringSlice (list : types.List)
  : slice.t string * diag.Diagnostics :=
  let result : slice.t string := slice.Of [] in
  if types.IsNull list || types.IsUnknown list
  then (result, [])
  else convertListToStringSlice_elements (types.Elements list) result.

Definition convertToRulesResourcesApiModel (modelResource : option ResourceModel)
  : option netbirdApi.Resource * diag.Diagnostics :=
  match modelResource with
  | None => (None, [])
  | Some m =>
      (Some {| netbirdApi.Resource_Id := types.ValueString (ResourceModel_ID m);
               netbirdApi.Resource_Type := types.ValueString (ResourceModel_Type m) |},
       [])
  end.

Definition convertToRulesPortRangesApiModel (modelRanges : option (slice.t PortRangeModel))
  : slice.t netbirdApi.RulePortRange * diag.Diagnostics :=
  match modelRanges with
  | None => (slice.Nil, [])
  | Some ranges =>
      (slice.collect
         (fun portRange =>
            {| netbirdApi.Start := types.ValueInt32 (PortRangeModel_Start portRange);
               netbirdApi.End_ := types.ValueInt32 (PortRangeModel_End portRange) |})
         ranges,
       [])
  end.

(** The body of the [for _, modelRule := range *modelRules] loop of
    [convertToRulesUpdateApiModel], entered with the rules converted so
    far and the diagnostics so far.  Every path through the body ends in
    a [return]: the error paths, and the [return apiRules, diags] that
    follows the [append].  The [diags] of the last three conversions is
    the loop body's own variable (declared by [:=]), not the
    function's. *)
Definition convertToRulesUpdateApiModel_body
  (apiRules : slice.t netbirdApi.PolicyRuleUpdate) (diags : diag.Diagnostics)
  (modelRule : PolicyRuleModel)
  : slice.t netbirdApi.PolicyRuleUpdate * diag.Diagnostics :=
  let '(ports, newDiags) := convertListToStringSlice (PolicyRuleModel_Ports modelRule) in
  let diags := diag.Append diags newDiags in
  if diag.HasError diags then (apiRules, diags) else
  let '(portRanges, newDiags) :=
    convertToRulesPortRangesApiModel (Some (PolicyRuleModel_PortRanges modelRule)) in
  let diags := diag.Append diags newDiags in
  if diag.HasError diags then (apiRules, diags) else
  let '(sources, newDiags) := convertListToStringSlice (PolicyRuleModel_Sources modelRule) in
  let diags := diag.Append diags newDiags in
  if diag.HasError diags then (apiRules, diags) else
  let '(sourceResource, diags') :=
    convertToRulesResourcesApiModel (PolicyRuleModel_SourceResource modelRule) in
  if diag.HasError diags' then (apiRules, diags') else
  let '(destinations, diags') :=
    convertListToStringSlice (PolicyRuleModel_Destinations modelRule) in
  if diag.HasError diags' then (apiRules, diags') else
  let '(destinationResource, diags') :=
    convertToRulesResourcesApiModel (PolicyRuleModel_SourceResource modelRule) in
  if diag.HasError diags' then (apiRules, diags') else
  let apiRules :=
    slice.append apiRules
      {| netbirdApi.Rule_Name := types.ValueString (PolicyRuleModel_Name modelRule);
         netbirdApi.Rule_Description :=
           types.ValueStringPointer (PolicyRuleModel_Description modelRule);
         netbirdApi.Rule_Enabled := types.ValueBool (PolicyRuleModel_Enabled modelRule);
         netbirdApi.Rule_Action := types.ValueString (PolicyRuleModel_Action modelRule);
         netbirdApi.Rule_Bidirectional :=
           types.ValueBool (PolicyRuleModel_Bidirectional modelRule);
         netbirdApi.Rule_Protocol := types.ValueString (PolicyRuleModel_Protocol modelRule);
         netbirdApi.Rule_Ports := Some ports;
         netbirdApi.Rule_PortRanges := Some portRanges;
         netbirdApi.Rule_Sources := Some sources;
         netbirdApi.Rule_SourceResource := sourceResource;
         netbirdApi.Rule_Destinations := Some destinations;
         netbirdApi.Rule_DestinationResource := destinationResource |} in
  (apiRules, diags').

Definition convertToRulesUpdateApiModel (modelRules : option (slice.t PolicyRuleModel))
  : slice.t netbirdApi.PolicyRuleUpdate * diag.Diagnostics :=
  let apiRules : slice.t netbirdApi.PolicyRuleUpdate := slice.Nil in
  match modelRules with
  | None => (apiRules, [])
  | Some rules =>
      match slice.elems rules with
      | [] => (apiRules, [])
      | modelRule :: _ => convertToRulesUpdateApiModel_body apiRules [] modelRule
      end
  end.

Definition convertResourceModel (resource : option netbirdApi.Resource)
  : option ResourceModel :=
  match resource with
  | None => None
  | Some res =>
      Some {| ResourceModel_ID := types.StringValue (netbirdApi.Resource_Id res);
              ResourceModel_Type := types.StringValue (netbirdApi.Resource_Type res) |}
  end.

Definition convertPortRangesToList (portRanges : option (slice.t netbirdApi.RulePortRange))
  : slice.t PortRangeModel :=
  match portRanges with
  | None => slice.Nil
  | Some ranges =>
      slice.collect
        (fun portRange =>
           {| PortRangeModel_Start :=
                types.Int32Value (int32 (netbirdApi.Start portRange));
              PortRangeModel_End :=
                types.Int32Value (int32 (netbirdApi.End_ portRange)) |})
        ranges
  end.

(** The loop of [convertRulesFromAPI]: the [diags] tested in the body
    are the body's own; the function's [diags], returned after the loop,
    is never assigned. *)
Fixpoint convertRulesFromAPI_rules
  (data : list netbirdApi.PolicyRule) (rules : slice.t PolicyRuleModel)
  : slice.t PolicyRuleModel * diag.Diagnostics :=
  match data with
  | [] => (rules, [])
  | dataRule :: rest =>
      let '(ports, diags) :=
        convertStringSliceToListValue
          (derefStringSlice (netbirdApi.PolicyRule_Ports dataRule)) in
      if diag.HasError diags then (rules, diags) else
      let '(sources, diags) :=
        convertGroupMinimumToIdList (netbirdApi.PolicyRule_Sources dataRule) in
      if diag.HasError diags then (rules, diags) else
      let '(destinations, diags) :=
        convertGroupMinimumToIdList (netbirdApi.PolicyRule_Destinations dataRule) in
      if diag.HasError diags then (rules, diags) else
      convertRulesFromAPI_rules rest
        (slice.append rules
           {| PolicyRuleModel_ID := derefString (netbirdApi.PolicyRule_Id dataRule);
              PolicyRuleModel_Name :=
                types.StringValue (netbirdApi.PolicyRule_Name dataRule);
              PolicyRuleModel_Description :=
                derefString (netbirdApi.PolicyRule_Description dataRule);
              PolicyRuleModel_Enabled :=
                types.BoolValue (netbirdApi.PolicyRule_Enabled dataRule);
              PolicyRuleModel_Action :=
                types.StringValue (netbirdApi.PolicyRule_Action dataRule);
              PolicyRuleModel_Bidirectional :=
                types.BoolValue (netbirdApi.PolicyRule_Bidirectional dataRule);
              PolicyRuleModel_Protocol :=
                types.StringValue (netbirdApi.PolicyRule_Protocol dataRule);
              PolicyRuleModel_Ports := ports;
              PolicyRuleModel_PortRanges :=
                convertPortRangesToList (netbirdApi.PolicyRule_PortRanges dataRule);
              PolicyRuleModel_Sources := sources;
              PolicyRuleModel_Destinations := destinations;
              PolicyRuleModel_SourceResource :=
                convertResourceModel (netbirdApi.PolicyRule_SourceResource dataRule);
              PolicyRuleModel_DestinationResource :=
                convertResourceModel
                  (netbirdApi.PolicyRule_DestinationResource dataRule) |})
  end.

Definition convertRulesFromAPI (data : option (slice.t netbirdApi.PolicyRule))
  : slice.t PolicyRuleModel * diag.Diagnostics :=
  match data with
  | None => (slice.Nil, [])
  | Some rules => convertRulesFromAPI_rules (slice.elems rules) slice.Nil
  end.

(** ** The provider (src/internal/provider/network_resource_resource.go, the
    provider that follows the network resource) *)

Module NetbirdProvider.

Record Model := {
  Endpoint : types.String;
  BearerToken : types.String;
  AccessToken : types.String;
}.

(** [req.Config.Get(ctx, &data)]: the decoded configuration and the
    diagnostics of decoding it. *)
Record ConfigureRequest := {
  Config_Get : Model * diag.Diagnostics;
}.

Record ConfigureResponse := {
  Diagnostics : diag.Diagnostics;
  DataSourceData : option Client;
  ResourceData : option Client;
}.

(** [os.Getenv(key)]: the empty string for a variable that is not set. *)
Definition os_Getenv (environ : gmap string string) (key : string) : string :=
  default "" (environ !! key).

Definition Configure (environ : gmap string string) (req : ConfigureRequest)
  : ConfigureResponse :=
  let '(data, getDiags) := Config_Get req in
  let respDiags := diag.Append [] getDiags in
  if diag.HasError respDiags
  then {| Diagnostics := respDiags; DataSourceData := None; ResourceData := None |}
  else
    let bearerToken := os_Getenv environ "NETBIRD_BEARER_TOKEN" in
    let accessToken := os_Getenv environ "NETBIRD_ACCESS_TOKEN" in
    let endpoint := os_Getenv environ "NETBIRD_ENDPOINT" in
    let endpoint :=
      if decide (types.ValueString (Endpoint data) ≠ "")
      then types.ValueString (Endpoint data)
      else endpoint in
    let endpoint :=
      if decide (endpoint = "") then "https://api.netbird.io" else endpoint in
    let bearerToken :=
      let providerBearerString := types.ValueString (BearerToken data) in
      if decide (providerBearerString ≠ "") then providerBearerString else bearerToken in
    let accessToken :=
      let providerAccessToken := types.ValueString (AccessToken data) in
      if decide (providerAccessToken ≠ "") then providerAccessToken else accessToken in
    let respDiags :=
      if decide (bearerToken = "" ∧ accessToken = "")
      then diag.AddError respDiags "Bearer token and access token missing."
             ("The provider must be configured with either the `bearer_token` or the `access_token` to authenticate to Netbird. "
              +:+ "Set one of these values in the configuration. "
              +:+ "If either is already set, ensure the value is not empty. "
              +:+ "If this was not expected, please check for NETBIRD_* environment variables. "
              +:+ "See the provider documentation for more information")
      else respDiags in
    let respDiags :=
      if decide (bearerToken ≠ "" ∧ accessToken ≠ "")
      then diag.AddError respDiags "Conflicting arguments: Bearer token and access token."
             ("The provider must be configured with either the `bearer_token` or the `access_token` to authenticate to Netbird. "
              +:+ "Only set one of these values in the configuration. "
              +:+ "If this was not expected, please check for NETBIRD_* environment variables. "
              +:+ "See the provider documentation for more information")
      else respDiags in
    let client := NewClient endpoint bearerToken accessToken in
    {| Diagnostics := respDiags;
       DataSourceData := Some client;
       ResourceData := Some client |}.

(** The resolution rule in the specification's words: the
    configuration field when it is non-empty, otherwise the environment
    variable. *)
Definition resolve_spec (field : types.String) (fromEnv : string) : string :=
  if decide (types.ValueString field = "") then fromEnv else types.ValueString field.

End NetbirdProvider.

(** ** The framework's request and response of a resource operation *)

Module tfsdk.

(** [req.State], [req.Plan] or [req.Config]: what [Get(ctx, &data)]
    decodes into the model, with the diagnostics of decoding. *)
Record Source (M : Type) := {
  Get : M * diag.Diagnostics;
}.
Arguments Get {M} _.

(** [resp.State]: left as the framework passed it in, written by
    [Set(ctx, &data)], or emptied by [RemoveResource(ctx)]. *)
Inductive State (M : Type) :=
| Untouched
| Written (data : M)
| Removed.
Arguments Untouched {M}.
Arguments Written {M} data.
Arguments Removed {M}.

Record Response (M : Type) := {
  Diagnostics : diag.Diagnostics;
  State_ : State M;
}.
Arguments Diagnostics {M} _.
Arguments State_ {M} _.

(** A handler's [return] before it has touched [resp.State]. *)
Definition stop {M} (diags : diag.Diagnostics) : Response M :=
  {| Diagnostics := diags; State_ := Untouched |}.

End tfsdk.

(** ** The network resource (src/unnamed/part_002) *)

Module NetworkResource.

Record Model := {
  ID : types.String;
  Name : types.String;
  Description : types.String;
  Routers : types.List;
  RoutingPeersCount : types.Int64;
  Resources : types.List;
  Policies : types.List;
}.

Record t := { client : Client }.

Definition set_ID (v : types.String) (d : Model) : Model :=
  {| ID := v; Name := Name d; Description := Description d; Routers := Routers d;
     RoutingPeersCount := RoutingPeersCount d; Resources := Resources d;
     Policies := Policies d |}.

Definition readIntoModel `{Runtime} (r : t) (data : Model)
  : IO (Model * diag.Diagnostics) :=
  let diags : diag.Diagnostics := [] in
  let reqURL := BaseUrl (client r) +:+ "/api/networks/" +:+ types.ValueString (ID data) in
  match http_NewRequest "GET" reqURL slice.Nil with
  | inr err => mret (data, diag.AddError diags "Error creating request" err)
  | inl httpReq =>
      res ← doRequest (client r) httpReq;
      match res with
      | (_, Some err) => mret (data, diag.AddError diags "Error fetching network" err)
      | (responseBody, None) =>
          (* Handle when resource does not exist *)
          if slice.is_nil responseBody
          then mret (set_ID types.StringNull data, diags)
          else
            match Unmarshal_Network (slice.elems responseBody) with
            | inr err => mret (data, diag.AddError diags "Error parsing response" err)
            | inl responseData =>
                let description :=
                  (* Only update if either (or both) data and response data
                     have a non-empty description value; with no
                     description in the response the inner branch only
                     resets the local [responseData]. *)
                  if match netbirdApi.Network_Description responseData with
                     | Some d => bool_decide (d ≠ "")
                     | None => false
                     end
                     || bool_decide (types.ValueString (Description data) ≠ "")
                  then
                    match netbirdApi.Network_Description responseData with
                    | Some d => types.StringValue d
                    | None => Description data
                    end
                  else Description data in
                let '(routersModel, newDiags) :=
                  ListValueFrom_strings (netbirdApi.Network_Routers responseData) in
                let diags := diag.Append diags newDiags in
                let '(resources, newDiags) :=
                  ListValueFrom_strings (netbirdApi.Network_Resources responseData) in
                let diags := diag.Append diags newDiags in
                let '(policies, newDiags) :=
                  ListValueFrom_strings (netbirdApi.Network_Policies responseData) in
                let diags := diag.Append diags newDiags in
                mret ({| ID := ID data;
                         Name := types.StringValue (netbirdApi.Network_Name responseData);
                         Description := description;
                         Routers := routersModel;
                         RoutingPeersCount :=
                           types.Int64Value
                             (netbirdApi.Network_RoutingPeersCount responseData);
                         Resources := resources;
                         Policies := policies |},
                      diags)
            end
      end
  end.

(** The type assertion [responseData["id"].(string)] panics when the
    decoded object has no string under [id]: the handler then ends in
    [inr]. *)
Definition Create `{Runtime} (r : t) (req : tfsdk.Source Model)
  : IO (tfsdk.Response Model + panic) :=
  let '(data, getDiags) := tfsdk.Get req in
  let respDiags := diag.Append [] getDiags in
  if diag.HasError respDiags then mret (inl (tfsdk.stop respDiags)) else
  match Marshal_StringMap
          [("name", types.ValueString (Name data));
           ("description", types.ValueString (Description data))] with
  | inr err =>
      mret (inl (tfsdk.stop (diag.AddError respDiags "Error marshaling request body" err)))
  | inl requestBody =>
      let reqURL := BaseUrl (client r) +:+ "/api/networks" in
      match http_NewRequest "POST" reqURL (slice.Of requestBody) with
      | inr err =>
          mret (inl (tfsdk.stop (diag.AddError respDiags "Error creating request" err)))
      | inl httpReq =>
          let httpReq :=
            http.Request_Header_Set httpReq "Content-Type" "application/json" in
          res ← doRequest (client r) httpReq;
          match res with
          | (_, Some err) =>
              mret (inl (tfsdk.stop
                           (diag.AddError respDiags "Error making API request" err)))
          | (responseBody, None) =>
              match Unmarshal_Object (slice.elems responseBody) with
              | inr err =>
                  mret (inl (tfsdk.stop
                               (diag.AddError respDiags "Error parsing response" err)))
              | inl responseData =>
                  match responseData !! "id" with
                  | Some (netbirdApi.AnyString id) =>
                      let data := set_ID (types.StringValue id) data in
                      res ← readIntoModel r data;
                      let '(data, diags) := res in
                      let respDiags := diag.Append respDiags diags in
                      if diag.HasError respDiags
                      then mret (inl (tfsdk.stop respDiags))
                      else mret (inl {| tfsdk.Diagnostics := respDiags;
                                        tfsdk.State_ := tfsdk.Written data |})
                  | _ => mret (inr "interface conversion: interface {} is not string")
                  end
              end
          end
      end
  end.

Definition Read `{Runtime} (r : t) (req : tfsdk.Source Model)
  : IO (tfsdk.Response Model) :=
  let '(data, getDiags) := tfsdk.Get req in
  let respDiags := diag.Append [] getDiags in
  if diag.HasError respDiags then mret (tfsdk.stop respDiags) else
  res ← readIntoModel r data;
  let '(data, diags) := res in
  let respDiags := diag.Append respDiags diags in
  if diag.HasError respDiags then mret (tfsdk.stop respDiags) else
  mret {| tfsdk.Diagnostics := respDiags; tfsdk.State_ := tfsdk.Written data |}.

Definition Update `{Runtime} (r : t) (req : tfsdk.Source Model)
  : IO (tfsdk.Response Model) :=
  let '(data, getDiags) := tfsdk.Get req in
  let respDiags := diag.Append [] getDiags in
  if diag.HasError respDiags then mret (tfsdk.stop respDiags) else
  match Marshal_StringMap
          [("name", types.ValueString (Name data));
           ("description", types.ValueString (Description data))] with
  | inr err =>
      mret (tfsdk.stop (diag.AddError respDiags "Error marshaling request body" err))
  | inl requestBody =>
      let reqURL :=
        BaseUrl (client r) +:+ "/api/networks/" +:+ types.ValueString (ID data) in
      match http_NewRequest "PUT" reqURL (slice.Of requestBody) with
      | inr err => mret (tfsdk.stop (diag.AddError respDiags "Error creating request" err))
      | inl httpReq =>
          let httpReq :=
            http.Request_Header_Set httpReq "Content-Type" "application/json" in
          res ← doRequest (client r) httpReq;
          match res with
          | (_, Some err) =>
              mret (tfsdk.stop (diag.AddError respDiags "Error updating network" err))
          | (_, None) =>
              res ← readIntoModel r data;
              let '(data, diags) := res in
              let respDiags := diag.Append respDiags diags in
              if diag.HasError respDiags then mret (tfsdk.stop respDiags) else
              mret {| tfsdk.Diagnostics := respDiags;
                      tfsdk.State_ := tfsdk.Written data |}
          end
      end
  end.

Definition Delete `{Runtime} (r : t) (req : tfsdk.Source Model)
  : IO (tfsdk.Response Model) :=
  let '(data, getDiags) := tfsdk.Get req in
  let respDiags := diag.Append [] getDiags in
  if diag.HasError respDiags then mret (tfsdk.stop respDiags) else
  let reqURL := BaseUrl (client r) +:+ "/api/networks/" +:+ types.ValueString (ID data) in
  match http_NewRequest "DELETE" reqURL slice.Nil with
  | inr err => mret (tfsdk.stop (diag.AddError respDiags "Error creating request" err))
  | inl httpReq =>
      res ← doRequest (client r) httpReq;
      match res with
      | (_, Some err) =>
          mret (tfsdk.stop (diag.AddError respDiags "Error deleting network" err))
      | (_, None) =>
          mret {| tfsdk.Diagnostics := respDiags; tfsdk.State_ := tfsdk.Removed |}
      end
  end.

End NetworkResource.

(** ** The group resource (src/internal/provider/group_resource.go) *)

Module GroupResource.

Record ResourceModel := {
  Resource_ID : types.String;
  Resource_Type : types.String;
}.

Record Model := {
  ID : types.String;
  Name : types.String;
  Peers : types.List;
  Resources : slice.t ResourceModel;
  PeersCount : types.Int64;
  ResourcesCount : types.Int64;
  Issued : types.String;
}.

Record t := { client : Client }.

Definition Read `{Runtime} (r : t) (req : tfsdk.Source Model)
  : IO (tfsdk.Response Model) :=
  let '(data, getDiags) := tfsdk.Get req in
  let respDiags := diag.Append [] getDiags in
  if diag.HasError respDiags then mret (tfsdk.stop respDiags) else
  let reqURL := BaseUrl (client r) +:+ "/api/groups/" +:+ types.ValueString (ID data) in
  match http_NewRequest "GET" reqURL slice.Nil with
  | inr err => mret (tfsdk.stop (diag.AddError respDiags "Error creating request" err))
  | inl httpReq =>
      res ← doRequest (client r) httpReq;
      match res with
      | (_, Some err) =>
          mret (tfsdk.stop (diag.AddError respDiags "Error fetching group" err))
      | (responseBody, None) =>
          (* Handle when resource does not exist: the local [data] gets a
             null ID and the handler returns without writing the state. *)
          if slice.is_nil responseBody then mret (tfsdk.stop respDiags) else
          match Unmarshal_Group (slice.elems responseBody) with
          | inr err =>
              mret (tfsdk.stop (diag.AddError respDiags "Error parsing response" err))
          | inl responseData =>
              let peersList :=
                slice.collect netbirdApi.PeerMinimum_Id
                  (netbirdApi.Group_Peers responseData) in
              let '(peers, diags) := ListValueFrom_strings peersList in
              let respDiags := diag.Append respDiags diags in
              let resourcesList :=
                slice.collect
                  (fun res =>
                     {| Resource_ID := types.StringValue (netbirdApi.Resource_Id res);
                        Resource_Type :=
                          types.StringValue (netbirdApi.Resource_Type res) |})
                  (netbirdApi.Group_Resources responseData) in
              let data :=
                {| ID := ID data;
                   Name := types.StringValue (netbirdApi.Group_Name responseData);
                   Peers := peers;
                   Resources := resourcesList;
                   PeersCount :=
                     types.Int64Value (netbirdApi.Group_PeersCount responseData);
                   ResourcesCount :=
                     types.Int64Value (netbirdApi.Group_ResourcesCount responseData);
                   Issued :=
                     match netbirdApi.Group_Issued responseData with
                     | Some i => types.StringValue i
                     | None => Issued data
                     end |} in
              mret {| tfsdk.Diagnostics := respDiags;
                      tfsdk.State_ := tfsdk.Written data |}
          end
      end
  end.

Definition Create `{Runtime} (r : t) (req : tfsdk.Source Model)
  : IO (tfsdk.Response Model) :=
  let '(data, getDiags) := tfsdk.Get req in
  let respDiags := diag.Append [] getDiags in
  if diag.HasError respDiags then mret (tfsdk.stop respDiags) else
  let '(peersList, diags) := ElementsAs_strings (Peers data) in
  let respDiags := diag.Append respDiags diags in
  if diag.HasError respDiags then mret (tfsdk.stop respDiags) else
  let resourcesList :=
    slice.collect
      (fun res =>
         {| netbirdApi.Resource_Id := types.ValueString (Resource_ID res);
            netbirdApi.Resource_Type := types.ValueString (Resource_Type res) |})
      (Resources data) in
  match Marshal_GroupRequest
          {| netbirdApi.GroupRequest_Name := types.ValueString (Name data);
             netbirdApi.GroupRequest_Peers := Some peersList;
             netbirdApi.GroupRequest_Resources := Some resourcesList |} with
  | inr err =>
      mret (tfsdk.stop (diag.AddError respDiags "Error marshaling request body" err))
  | inl requestBody =>
      let reqURL := BaseUrl (client r) +:+ "/api/groups" in
      match http_NewRequest "POST" reqURL (slice.Of requestBody) with
      | inr err => mret (tfsdk.stop (diag.AddError respDiags "Error creating request" err))
      | inl httpReq =>
          let httpReq :=
            http.Request_Header_Set httpReq "Content-Type" "application/json" in
          res ← doRequest (client r) httpReq;
          match res with
          | (_, Some err) =>
              mret (tfsdk.stop (diag.AddError respDiags "Error creating group" err))
          | (responseBody, None) =>
              match Unmarshal_Group (slice.elems responseBody) with
              | inr err =>
                  mret (tfsdk.stop (diag.AddError respDiags "Error parsing response" err))
              | inl responseData =>
                  let updatedPeersList :=
                    slice.collect netbirdApi.PeerMinimum_Id
                      (netbirdApi.Group_Peers responseData) in
                  let '(peers, diags) := ListValueFrom_strings updatedPeersList in
                  let respDiags := diag.Append respDiags diags in
                  let updatedResourcesList :=
                    slice.collect
                      (fun res =>
                         {| Resource_ID := types.StringValue (netbirdApi.Resource_Id res);
                            Resource_Type :=
                              types.StringValue (netbirdApi.Resource_Type res) |})
                      (netbirdApi.Group_Resources responseData) in
                  let data :=
                    {| ID := types.StringValue (netbirdApi.Group_Id responseData);
                       Name := Name data;
                       Peers := peers;
                       Resources := updatedResourcesList;
                       PeersCount :=
                         types.Int64Value (netbirdApi.Group_PeersCount responseData);
                       ResourcesCount :=
                         types.Int64Value (netbirdApi.Group_ResourcesCount responseData);
                       Issued :=
                         match netbirdApi.Group_Issued responseData with
                         | Some i => types.StringValue i
                         | None => Issued data
                         end |} in
                  mret {| tfsdk.Diagnostics := respDiags;
                          tfsdk.State_ := tfsdk.Written data |}
              end
          end
      end
  end.

Definition Update `{Runtime} (r : t) (req : tfsdk.Source Model)
  : IO (tfsdk.Response Model) :=
  let '(data, getDiags) := tfsdk.Get req in
  let respDiags := diag.Append [] getDiags in
  if diag.HasError respDiags then mret (tfsdk.stop respDiags) else
  let '(peersList, diags) := ElementsAs_strings (Peers data) in
  let respDiags := diag.Append respDiags diags in
  if diag.HasError respDiags then mret (tfsdk.stop respDiags) else
  let resourcesList :=
    slice.collect
      (fun res =>
         {| netbirdApi.Resource_Id := types.ValueString (Resource_ID res);
            netbirdApi.Resource_Type := types.ValueString (Resource_Type res) |})
      (Resources data) in
  match Marshal_GroupRequest
          {| netbirdApi.GroupRequest_Name := types.ValueString (Name data);
             netbirdApi.GroupRequest_Peers := Some peersList;
             netbirdApi.GroupRequest_Resources := Some resourcesList |} with
  | inr err =>
      mret (tfsdk.stop (diag.AddError respDiags "Error marshaling request body" err))
  | inl requestBody =>
      let reqURL :=
        BaseUrl (client r) +:+ "/api/groups/" +:+ types.ValueString (ID data) in
      match http_NewRequest "PUT" reqURL (slice.Of requestBody) with
      | inr err => mret (tfsdk.stop (diag.AddError respDiags "Error creating request" err))
      | inl httpReq =>
          let httpReq :=
            http.Request_Header_Set httpReq "Content-Type" "application/json" in
          res ← doRequest (client r) httpReq;
          match res with
          | (_, Some err) =>
              mret (tfsdk.stop (diag.AddError respDiags "Error updating group" err))
          | (responseBody, None) =>
              match Unmarshal_Group (slice.elems responseBody) with
              | inr err =>
                  mret (tfsdk.stop (diag.AddError respDiags "Error parsing response" err))
              | inl responseData =>
                  let updatedPeersList :=
                    slice.collect netbirdApi.PeerMinimum_Id
                      (netbirdApi.Group_Peers responseData) in
                  let '(peers, diags) := ListValueFrom_strings updatedPeersList in
                  let respDiags := diag.Append respDiags diags in
                  let updatedResourcesList :=
                    slice.collect
                      (fun res =>
                         {| Resource_ID := types.StringValue (netbirdApi.Resource_Id res);
                            Resource_Type :=
                              types.StringValue (netbirdApi.Resource_Type res) |})
                      (netbirdApi.Group_Resources responseData) in
                  let data :=
                    {| ID := types.StringValue (netbirdApi.Group_Id responseData);
                       Name := Name data;
                       Peers := peers;
                       Resources := updatedResourcesList;
                       PeersCount :=
                         types.Int64Value (netbirdApi.Group_PeersCount responseData);
                       ResourcesCount :=
                         types.Int64Value (netbirdApi.Group_ResourcesCount responseData);
                       Issued :=
                         match netbirdApi.Group_Issued responseData with
                         | Some i => types.StringValue i
                         | None => Issued data
                         end |} in
                  mret {| tfsdk.Diagnostics := respDiags;
                          tfsdk.State_ := tfsdk.Written data |}
              end
          end
      end
  end.

Definition Delete `{Runtime} (r : t) (req : tfsdk.Source Model)
  : IO (tfsdk.Response Model) :=
  let '(data, getDiags) := tfsdk.Get req in
  let respDiags := diag.Append [] getDiags in
  if diag.HasError respDiags then mret (tfsdk.stop respDiags) else
  let reqURL := BaseUrl (client r) +:+ "/api/groups/" +:+ types.ValueString (ID data) in
  match http_NewRequest "DELETE" reqURL slice.Nil with
  | inr err => mret (tfsdk.stop (diag.AddError respDiags "Error creating request" err))
  | inl httpReq =>
      res ← doRequest (client r) httpReq;
      match res with
      | (_, Some err) =>
          mret (tfsdk.stop (diag.AddError respDiags "Error deleting network" err))
      | (_, None) =>
          mret {| tfsdk.Diagnostics := respDiags; tfsdk.State_ := tfsdk.Removed |}
      end
  end.

End GroupResource.

(** ** The policy resource (src/unnamed/part_004) *)

Module PolicyResource.

Record Model := {
  ID : types.String;
  Name : types.String;
  Description : types.String;
  Enabled : types.Bool;
  SourcePostureChecks : types.List;
  Rules : slice.t PolicyRuleModel;
}.

Record t := { client : Client }.

(** [policyModel] starts as the zero value: a null list without element
    type and nil rules, filled in as the conversion goes. *)
Definition convertPolicyFromApiModel (data : netbirdApi.Policy)
  : Model * diag.Diagnostics :=
  let sourcePostureChecks :=
    slice.collect (fun val => types.VString (types.StringValue val))
      (netbirdApi.Policy_SourcePostureChecks data) in
  let '(sourcePostureChecksListValue, diags) :=
    types.ListValue types.StringType sourcePostureChecks in
  if diag.HasError diags
  then ({| ID := derefString (netbirdApi.Policy_Id data);
           Name := types.StringValue (netbirdApi.Policy_Name data);
           Description := derefString (netbirdApi.Policy_Description data);
           Enabled := types.BoolValue (netbirdApi.Policy_Enabled data);
           SourcePostureChecks := types.ListNull types.MissingType;
           Rules := slice.Nil |},
        diags)
  else
    let '(rules, diags) := convertRulesFromAPI (Some (netbirdApi.Policy_Rules data)) in
    if diag.HasError diags
    then ({| ID := derefString (netbirdApi.Policy_Id data);
             Name := types.StringValue (netbirdApi.Policy_Name data);
             Description := derefString (netbirdApi.Policy_Description data);
             Enabled := types.BoolValue (netbirdApi.Policy_Enabled data);
             SourcePostureChecks := sourcePostureChecksListValue;
             Rules := slice.Nil |},
          diags)
    else ({| ID := derefString (netbirdApi.Policy_Id data);
             Name := types.StringValue (netbirdApi.Policy_Name data);
             Description := derefString (netbirdApi.Policy_Description data);
             Enabled := types.BoolValue (netbirdApi.Policy_Enabled data);
             SourcePostureChecks := sourcePostureChecksListValue;
             Rules := rules |},
          diags).

Definition Create `{Runtime} (r : t) (req : tfsdk.Source Model)
  : IO (tfsdk.Response Model) :=
  let '(data, getDiags) := tfsdk.Get req in
  let respDiags := diag.Append [] getDiags in
  if diag.HasError respDiags then mret (tfsdk.stop respDiags) else
  let '(sourcePostureChecks, diags) :=
    convertListToStringSlice (SourcePostureChecks data) in
  let respDiags := diag.Append respDiags diags in
  if diag.HasError respDiags then mret (tfsdk.stop respDiags) else
  let '(rules, diags) := convertToRulesUpdateApiModel (Some (Rules data)) in
  let respDiags := diag.Append respDiags diags in
  if diag.HasError respDiags then mret (tfsdk.stop respDiags) else
  let policy :=
    {| netbirdApi.PolicyWrite_Name := types.ValueString (Name data);
       netbirdApi.PolicyWrite_Description := types.ValueStringPointer (Description data);
       netbirdApi.PolicyWrite_Enabled := types.ValueBool (Enabled data);
       netbirdApi.PolicyWrite_SourcePostureChecks := Some sourcePostureChecks;
       netbirdApi.PolicyWrite_Rules := rules |} in
  match Marshal_PolicyCreate policy with
  | inr err => mret (tfsdk.stop (diag.AddError respDiags "JSON Encoding Error" err))
  | inl jsonData =>
      match http_NewRequest "POST" (BaseUrl (client r) +:+ "/api/policies")
              (slice.Of jsonData) with
      | inr err => mret (tfsdk.stop (diag.AddError respDiags "Request Creation Error" err))
      | inl request =>
          let request :=
            http.Request_Header_Set request "Content-Type" "application/json" in
          res ← doRequest (client r) request;
          match res with
          | (_, Some err) => mret (tfsdk.stop (diag.AddError respDiags "API Error" err))
          | (body, None) =>
              match Unmarshal_Policy (slice.elems body) with
              | inr err =>
                  mret (tfsdk.stop (diag.AddError respDiags "JSON Decoding Error" err))
              | inl createdPolicy =>
                  let '(data, diags) := convertPolicyFromApiModel createdPolicy in
                  let respDiags := diag.Append respDiags diags in
                  if diag.HasError diags then mret (tfsdk.stop respDiags) else
                  mret {| tfsdk.Diagnostics := respDiags;
                          tfsdk.State_ := tfsdk.Written data |}
              end
          end
      end
  end.

Definition Read `{Runtime} (r : t) (req : tfsdk.Source Model)
  : IO (tfsdk.Response Model) :=
  let '(data, getDiags) := tfsdk.Get req in
  let respDiags := diag.Append [] getDiags in
  if diag.HasError respDiags then mret (tfsdk.stop respDiags) else
  let reqURL := BaseUrl (client r) +:+ "/api/policies/" +:+ types.ValueString (ID data) in
  match http_NewRequest "GET" reqURL slice.Nil with
  | inr err => mret (tfsdk.stop (diag.AddError respDiags "Error creating request" err))
  | inl httpReq =>
      res ← doRequest (client r) httpReq;
      match res with
      | (_, Some err) =>
          mret (tfsdk.stop (diag.AddError respDiags "Error fetching policy" err))
      | (responseBody, None) =>
          (* Handle when resource does not exist: the local [data] gets a
             null ID and the handler returns without writing the state. *)
          if slice.is_nil responseBody then mret (tfsdk.stop respDiags) else
          match Unmarshal_Policy (slice.elems responseBody) with
          | inr err =>
              mret (tfsdk.stop (diag.AddError respDiags "Error parsing response" err))
          | inl responseData =>
              let '(data, diags) := convertPolicyFromApiModel responseData in
              let respDiags := diag.Append respDiags diags in
              if diag.HasError diags then mret (tfsdk.stop respDiags) else
              mret {| tfsdk.Diagnostics := respDiags;
                      tfsdk.State_ := tfsdk.Written data |}
          end
      end
  end.

Definition Update `{Runtime} (r : t) (req : tfsdk.Source Model)
  : IO (tfsdk.Response Model) :=
  let '(data, getDiags) := tfsdk.Get req in
  let respDiags := diag.Append [] getDiags in
  if diag.HasError respDiags then mret (tfsdk.stop respDiags) else
  let '(sourcePostureChecks, diags) :=
    convertListToStringSlice (SourcePostureChecks data) in
  let respDiags := diag.Append respDiags diags in
  if diag.HasError respDiags then mret (tfsdk.stop respDiags) else
  let '(rules, diags) := convertToRulesUpdateApiModel (Some (Rules data)) in
  let respDiags := diag.Append respDiags diags in
  if diag.HasError respDiags then mret (tfsdk.stop respDiags) else
  let policy :=
    {| netbirdApi.PolicyWrite_Name := types.ValueString (Name data);
       netbirdApi.PolicyWrite_Description := types.ValueStringPointer (Description data);
       netbirdApi.PolicyWrite_Enabled := types.ValueBool (Enabled data);
       netbirdApi.PolicyWrite_SourcePostureChecks := Some sourcePostureChecks;
       netbirdApi.PolicyWrite_Rules := rules |} in
  match Marshal_PolicyUpdate policy with
  | inr err => mret (tfsdk.stop (diag.AddError respDiags "JSON Encoding Error" err))
  | inl jsonData =>
      let url := BaseUrl (client r) +:+ "/api/policies/" +:+ types.ValueString (ID data) in
      match http_NewRequest "PUT" url (slice.Of jsonData) with
      | inr err => mret (tfsdk.stop (diag.AddError respDiags "Request Creation Error" err))
      | inl request =>
          let request :=
            http.Request_Header_Set request "Content-Type" "application/json" in
          res ← doRequest (client r) request;
          match res with
          | (_, Some err) => mret (tfsdk.stop (diag.AddError respDiags "API Error" err))
          | (body, None) =>
              match Unmarshal_Policy (slice.elems body) with
              | inr err =>
                  mret (tfsdk.stop (diag.AddError respDiags "JSON Decoding Error" err))
              | inl createdPolicy =>
                  let '(data, diags) := convertPolicyFromApiModel createdPolicy in
                  let respDiags := diag.Append respDiags diags in
                  if diag.HasError diags then mret (tfsdk.stop respDiags) else
                  mret {| tfsdk.Diagnostics := respDiags;
                          tfsdk.State_ := tfsdk.Written data |}
              end
          end
      end
  end.

Definition Delete `{Runtime} (r : t) (req : tfsdk.Source Model)
  : IO (tfsdk.Response Model) :=
  let '(data, getDiags) := tfsdk.Get req in
  let respDiags := diag.Append [] getDiags in
  if diag.HasError respDiags then mret (tfsdk.stop respDiags) else
  let reqURL := BaseUrl (client r) +:+ "/api/policies/" +:+ types.ValueString (ID data) in
  match http_NewRequest "DELETE" reqURL slice.Nil with
  | inr err => mret (tfsdk.stop (diag.AddError respDiags "Error creating request" err))
  | inl httpReq =>
      res ← doRequest (client r) httpReq;
      match res with
      | (_, Some err) =>
          mret (tfsdk.stop (diag.AddError respDiags "Error deleting network" err))
      | (_, None) =>
          mret {| tfsdk.Diagnostics := respDiags; tfsdk.State_ := tfsdk.Removed |}
      end
  end.

End PolicyResource.

(** ** The network router resource (src/unnamed/part_003) *)

Module NetworkRouterResource.

Record Model := {
  ID : types.String;
  NetworkId : types.String;
  Peer : types.String;
  PeerGroups : types.List;
  Metric : types.Int32;
  Masquerade : types.Bool;
  Enabled : types.Bool;
}.

Record t := { client : Client }.

Definition set_ID (v : types.String) (d : Model) : Model :=
  {| ID := v; NetworkId := NetworkId d; Peer := Peer d; PeerGroups := PeerGroups d;
     Metric := Metric d; Masquerade := Masquerade d; Enabled := Enabled d |}.

(** The model is passed by pointer: [None] is the nil pointer, and the
    result holds the model as the function leaves it. *)
Definition readIntoModel `{Runtime} (r : t) (data : option Model)
  : IO (option Model * diag.Diagnostics) :=
  let diags : diag.Diagnostics := [] in
  match data with
  | None => mret (None, diags)
  | Some data =>
      let reqURL :=
        BaseUrl (client r) +:+ "/api/networks/" +:+ types.ValueString (NetworkId data)
        +:+ "/routers/" +:+ types.ValueString (ID data) in
      match http_NewRequest "GET" reqURL slice.Nil with
      | inr err => mret (Some data, diag.AddError diags "Error creating request" err)
      | inl httpReq =>
          res ← doRequest (client r) httpReq;
          match res with
          | (_, Some err) =>
              mret (Some data, diag.AddError diags "Error fetching network" err)
          | (responseBody, None) =>
              (* If not found *)
              if slice.is_nil responseBody
              then mret (Some (set_ID types.StringNull data), diags)
              else
                match Unmarshal_NetworkRouter (slice.elems responseBody) with
                | inr err =>
                    mret (Some data, diag.AddError diags "Error parsing response" err)
                | inl responseData =>
                    let peer := derefString (netbirdApi.NetworkRouter_Peer responseData) in
                    let '(peerGroups, diags) :=
                      convertStringSliceToListValue
                        (derefStringSlice
                           (netbirdApi.NetworkRouter_PeerGroups responseData)) in
                    if diag.HasError diags
                    then mret (Some {| ID := ID data; NetworkId := NetworkId data;
                                       Peer := peer; PeerGroups := PeerGroups data;
                                       Metric := Metric data;
                                       Masquerade := Masquerade data;
                                       Enabled := Enabled data |},
                               diags)
                    else
                      mret (Some {| ID := ID data; NetworkId := NetworkId data;
                                    Peer := peer; PeerGroups := peerGroups;
                                    Metric :=
                                      types.Int32Value
                                        (int32
                                           (netbirdApi.NetworkRouter_Metric responseData));
                                    Masquerade :=
                                      types.BoolValue
                                        (netbirdApi.NetworkRouter_Masquerade responseData);
                                    Enabled :=
                                      types.BoolValue
                                        (netbirdApi.NetworkRouter_Enabled responseData) |},
                            diags)
                end
          end
      end
  end.

Definition modelToApiRequest (data : Model)
  : option netbirdApi.NetworkRouterRequest * diag.Diagnostics :=
  let '(peerGroups, diags) := convertListToStringSlice (PeerGroups data) in
  if diag.HasError diags then (None, diags) else
  (Some {| netbirdApi.NetworkRouterRequest_Peer := types.ValueStringPointer (Peer data);
           netbirdApi.NetworkRouterRequest_PeerGroups := Some peerGroups;
           netbirdApi.NetworkRouterRequest_Metric := types.ValueInt32 (Metric data);
           netbirdApi.NetworkRouterRequest_Masquerade :=
             types.ValueBool (Masquerade data);
           netbirdApi.NetworkRouterRequest_Enabled := types.ValueBool (Enabled data) |},
   diags).

Definition Create `{Runtime} (r : t) (req : tfsdk.Source Model)
  : IO (tfsdk.Response Model) :=
  let '(data, getDiags) := tfsdk.Get req in
  let respDiags := diag.Append [] getDiags in
  if diag.HasError respDiags then mret (tfsdk.stop respDiags) else
  let '(apiData, diags) := modelToApiRequest data in
  let respDiags := diag.Append respDiags diags in
  if diag.HasError respDiags then mret (tfsdk.stop respDiags) else
  match apiData with
  | None =>
      mret (tfsdk.stop
              (diag.AddError respDiags "nul pointer error"
                 "Got nil pointer to NetworkRouterResourceModel"))
  | Some apiData =>
      match Marshal_NetworkRouterRequest apiData with
      | inr err =>
          mret (tfsdk.stop (diag.AddError respDiags "Error marshaling request body" err))
      | inl requestBody =>
          let reqURL :=
            BaseUrl (client r) +:+ "/api/networks/"
            +:+ types.ValueString (NetworkId data) +:+ "/routers" in
          match http_NewRequest "POST" reqURL (slice.Of requestBody) with
          | inr err =>
              mret (tfsdk.stop (diag.AddError respDiags "Error creating request" err))
          | inl httpReq =>
              let httpReq :=
                http.Request_Header_Set httpReq "Content-Type" "application/json" in
              res ← doRequest (client r) httpReq;
              match res with
              | (_, Some err) =>
                  mret (tfsdk.stop (diag.AddError respDiags "Error making API request" err))
              | (responseBody, None) =>
                  match Unmarshal_NetworkRouter (slice.elems responseBody) with
                  | inr err =>
                      mret (tfsdk.stop
                              (diag.AddError respDiags "Error parsing response" err))
                  | inl responseData =>
                      let data :=
                        set_ID (types.StringValue
                                  (netbirdApi.NetworkRouter_Id responseData)) data in
                      res ← readIntoModel r (Some data);
                      let '(data', diags) := res in
                      let respDiags := diag.Append respDiags diags in
                      if diag.HasError respDiags then mret (tfsdk.stop respDiags) else
                      mret {| tfsdk.Diagnostics := respDiags;
                              tfsdk.State_ := tfsdk.Written (default data data') |}
                  end
              end
          end
      end
  end.

Definition Read `{Runtime} (r : t) (req : tfsdk.Source Model)
  : IO (tfsdk.Response Model) :=
  let '(data, getDiags) := tfsdk.Get req in
  let respDiags := diag.Append [] getDiags in
  if diag.HasError respDiags then mret (tfsdk.stop respDiags) else
  res ← readIntoModel r (Some data);
  let '(data', diags) := res in
  let respDiags := diag.Append respDiags diags in
  if diag.HasError respDiags then mret (tfsdk.stop respDiags) else
  mret {| tfsdk.Diagnostics := respDiags;
          tfsdk.State_ := tfsdk.Written (default data data') |}.

Definition Update `{Runtime} (r : t) (req : tfsdk.Source Model)
  : IO (tfsdk.Response Model) :=
  let '(data, getDiags) := tfsdk.Get req in
  let respDiags := diag.Append [] getDiags in
  if diag.HasError respDiags then mret (tfsdk.stop respDiags) else
  let '(apiData, diags) := modelToApiRequest data in
  let respDiags := diag.Append respDiags diags in
  if diag.HasError respDiags then mret (tfsdk.stop respDiags) else
  match apiData with
  | None =>
      mret (tfsdk.stop
              (diag.AddError respDiags "nul pointer error"
                 "Got nil pointer to NetworkRouterResourceModel"))
  | Some apiData =>
      match Marshal_NetworkRouterRequest apiData with
      | inr err =>
          mret (tfsdk.stop (diag.AddError respDiags "Error marshaling request body" err))
      | inl requestBody =>
          let reqURL :=
            BaseUrl (client r) +:+ "/api/networks/"
            +:+ types.ValueString (NetworkId data)
            +:+ "/routers/" +:+ types.ValueString (ID data) in
          match http_NewRequest "PUT" reqURL (slice.Of requestBody) with
          | inr err =>
              mret (tfsdk.stop (diag.AddError respDiags "Error creating request" err))
          | inl httpReq =>
              let httpReq :=
                http.Request_Header_Set httpReq "Content-Type" "application/json" in
              res ← doRequest (client r) httpReq;
              match res with
              | (_, Some err) =>
                  mret (tfsdk.stop (diag.AddError respDiags "Error updating network" err))
              | (_, None) =>
                  res ← readIntoModel r (Some data);
                  let '(data', diags) := res in
                  let respDiags := diag.Append respDiags diags in
                  if diag.HasError respDiags then mret (tfsdk.stop respDiags) else
                  mret {| tfsdk.Diagnostics := respDiags;
                          tfsdk.State_ := tfsdk.Written (default data data') |}
              end
          end
      end
  end.

Definition Delete `{Runtime} (r : t) (req : tfsdk.Source Model)
  : IO (tfsdk.Response Model) :=
  let '(data, getDiags) := tfsdk.Get req in
  let respDiags := diag.Append [] getDiags in
  if diag.HasError respDiags then mret (tfsdk.stop respDiags) else
  let reqURL :=
    BaseUrl (client r) +:+ "/api/networks/" +:+ types.ValueString (NetworkId data)
    +:+ "/routers/" +:+ types.ValueString (ID data) in
  match http_NewRequest "DELETE" reqURL slice.Nil with
  | inr err => mret (tfsdk.stop (diag.AddError respDiags "Error creating request" err))
  | inl httpReq =>
      res ← doRequest (client r) httpReq;
      match res with
      | (_, Some err) =>
          mret (tfsdk.stop (diag.AddError respDiags "Error deleting network" err))
      | (_, None) =>
          mret {| tfsdk.Diagnostics := respDiags; tfsdk.State_ := tfsdk.Removed |}
      end
  end.

End NetworkRouterResource.

(** ** The network resource resource
    (src/internal/provider/network_resource_resource.go) *)

Module NetworkResourceResource.

Record Model := {
  ID : types.String;
  NetworkId : types.String;
  Name : types.String;
  Description : types.String;
  Address : types.String;
  PeerGroups : types.List;
  Enabled : types.Bool;
}.

Record t := { client : Client }.

Definition set_ID (v : types.String) (d : Model) : Model :=
  {| ID := v; NetworkId := NetworkId d; Name := Name d; Description := Description d;
     Address := Address d; PeerGroups := PeerGroups d; Enabled := Enabled d |}.

(** The model is passed by pointer: [None] is the nil pointer, and the
    result holds the model as the function leaves it. *)
Definition readIntoModel `{Runtime} (r : t) (data : option Model)
  : IO (option Model * diag.Diagnostics) :=
  let diags : diag.Diagnostics := [] in
  match data with
  | None => mret (None, diags)
  | Some data =>
      let reqURL :=
        BaseUrl (client r) +:+ "/api/networks/" +:+ types.ValueString (NetworkId data)
        +:+ "/resources/" +:+ types.ValueString (ID data) in
      match http_NewRequest "GET" reqURL slice.Nil with
      | inr err => mret (Some data, diag.AddError diags "Error creating request" err)
      | inl httpReq =>
          res ← doRequest (client r) httpReq;
          match res with
          | (_, Some err) =>
              mret (Some data, diag.AddError diags "Error fetching network" err)
          | (responseBody, None) =>
              (* If not found *)
              if slice.is_nil responseBody
              then mret (Some (set_ID types.StringNull data), diags)
              else
                match Unmarshal_NetworkResource (slice.elems responseBody) with
                | inr err =>
                    mret (Some data, diag.AddError diags "Error parsing response" err)
                | inl responseData =>
                    let name :=
                      types.StringValue (netbirdApi.NetworkResource_Name responseData) in
                    let description :=
                      derefString (netbirdApi.NetworkResource_Description responseData) in
                    let '(peerGroups, diags) :=
                      convertGroupMinimumToIdList
                        (Some (netbirdApi.NetworkResource_Groups responseData)) in
                    if diag.HasError diags
                    then mret (Some {| ID := ID data; NetworkId := NetworkId data;
                                       Name := name; Description := description;
                                       Address := Address data;
                                       PeerGroups := PeerGroups data;
                                       Enabled := Enabled data |},
                               diags)
                    else
                      mret (Some {| ID := ID data; NetworkId := NetworkId data;
                                    Name := name; Description := description;
                                    Address :=
                                      types.StringValue
                                        (netbirdApi.NetworkResource_Address responseData);
                                    PeerGroups := peerGroups;
                                    Enabled :=
                                      types.BoolValue
                                        (netbirdApi.NetworkResource_Enabled responseData) |},
                            diags)
                end
          end
      end
  end.

Definition resourceModelToApiRequest (data : Model)
  : option netbirdApi.NetworkResourceRequest * diag.Diagnostics :=
  let '(peerGroups, diags) := convertListToStringSlice (PeerGroups data) in
  if diag.HasError diags then (None, diags) else
  (Some {| netbirdApi.NetworkResourceRequest_Name := types.ValueString (Name data);
           netbirdApi.NetworkResourceRequest_Description :=
             types.ValueStringPointer (Description data);
           netbirdApi.NetworkResourceRequest_Groups := peerGroups;
           netbirdApi.NetworkResourceRequest_Address := types.ValueString (Address data);
           netbirdApi.NetworkResourceRequest_Enabled := types.ValueBool (Enabled data) |},
   diags).

Definition Create `{Runtime} (r : t) (req : tfsdk.Source Model)
  : IO (tfsdk.Response Model) :=
  let '(data, getDiags) := tfsdk.Get req in
  let respDiags := diag.Append [] getDiags in
  if diag.HasError respDiags then mret (tfsdk.stop respDiags) else
  let '(apiData, diags) := resourceModelToApiRequest data in
  let respDiags := diag.Append respDiags diags in
  if diag.HasError respDiags then mret (tfsdk.stop respDiags) else
  match apiData with
  | None =>
      mret (tfsdk.stop
              (diag.AddError respDiags "nul pointer error"
                 "Got nil pointer to NetworkResourceResourceModel"))
  | Some apiData =>
      match Marshal_NetworkResourceRequest apiData with
      | inr err =>
          mret (tfsdk.stop (diag.AddError respDiags "Error marshaling request body" err))
      | inl requestBody =>
          let reqURL :=
            BaseUrl (client r) +:+ "/api/networks/"
            +:+ types.ValueString (NetworkId data) +:+ "/resources" in
          match http_NewRequest "POST" reqURL (slice.Of requestBody) with
          | inr err =>
              mret (tfsdk.stop (diag.AddError respDiags "Error creating request" err))
          | inl httpReq =>
              let httpReq :=
                http.Request_Header_Set httpReq "Content-Type" "application/json" in
              res ← doRequest (client r) httpReq;
              match res with
              | (_, Some err) =>
                  mret (tfsdk.stop (diag.AddError respDiags "Error making API request" err))
              | (responseBody, None) =>
                  match Unmarshal_NetworkResource (slice.elems responseBody) with
                  | inr err =>
                      mret (tfsdk.stop
                              (diag.AddError respDiags "Error parsing response" err))
                  | inl responseData =>
                      let data :=
                        set_ID (types.StringValue
                                  (netbirdApi.NetworkResource_Id responseData)) data in
                      res ← readIntoModel r (Some data);
                      let '(data', diags) := res in
                      let respDiags := diag.Append respDiags diags in
                      if diag.HasError respDiags then mret (tfsdk.stop respDiags) else
                      mret {| tfsdk.Diagnostics := respDiags;
                              tfsdk.State_ := tfsdk.Written (default data data') |}
                  end
              end
          end
      end
  end.

Definition Read `{Runtime} (r : t) (req : tfsdk.Source Model)
  : IO (tfsdk.Response Model) :=
  let '(data, getDiags) := tfsdk.Get req in
  let respDiags := diag.Append [] getDiags in
  if diag.HasError respDiags then mret (tfsdk.stop respDiags) else
  res ← readIntoModel r (Some data);
  let '(data', diags) := res in
  let respDiags := diag.Append respDiags diags in
  if diag.HasError respDiags then mret (tfsdk.stop respDiags) else
  mret {| tfsdk.Diagnostics := respDiags;
          tfsdk.State_ := tfsdk.Written (default data data') |}.

Definition Update `{Runtime} (r : t) (req : tfsdk.Source Model)
  : IO (tfsdk.Response Model) :=
  let '(data, getDiags) := tfsdk.Get req in
  let respDiags := diag.Append [] getDiags in
  if diag.HasError respDiags then mret (tfsdk.stop respDiags) else
  let '(apiData, diags) := resourceModelToApiRequest data in
  let respDiags := diag.Append respDiags diags in
  if diag.HasError respDiags then mret (tfsdk.stop respDiags) else
  match apiData with
  | None =>
      mret (tfsdk.stop
              (diag.AddError respDiags "nul pointer error"
                 "Got nil pointer to NetworkResourceResourceModel"))
  | Some apiData =>
      match Marshal_NetworkResourceRequest apiData with
      | inr err =>
          mret (tfsdk.stop (diag.AddError respDiags "Error marshaling request body" err))
      | inl requestBody =>
          let reqURL :=
            BaseUrl (client r) +:+ "/api/networks/"
            +:+ types.ValueString (NetworkId data)
            +:+ "/resources/" +:+ types.ValueString (ID data) in
          match http_NewRequest "PUT" reqURL (slice.Of requestBody) with
          | inr err =>
              mret (tfsdk.stop (diag.AddError respDiags "Error creating request" err))
          | inl httpReq =>
              let httpReq :=
                http.Request_Header_Set httpReq "Content-Type" "application/json" in
              res ← doRequest (client r) httpReq;
              match res with
              | (_, Some err) =>
                  mret (tfsdk.stop (diag.AddError respDiags "Error updating network" err))
              | (_, None) =>
                  res ← readIntoModel r (Some data);
                  let '(data', diags) := res in
                  let respDiags := diag.Append respDiags diags in
                  if diag.HasError respDiags then mret (tfsdk.stop respDiags) else
                  mret {| tfsdk.Diagnostics := respDiags;
                          tfsdk.State_ := tfsdk.Written (default data data') |}
              end
          end
      end
  end.

Definition Delete `{Runtime} (r : t) (req : tfsdk.Source Model)
  : IO (tfsdk.Response Model) :=
  let '(data, getDiags) := tfsdk.Get req in
  let respDiags := diag.Append [] getDiags in
  if diag.HasError respDiags then mret (tfsdk.stop respDiags) else
  let reqURL :=
    BaseUrl (client r) +:+ "/api/networks/" +:+ types.ValueString (NetworkId data)
    +:+ "/resources/" +:+ types.ValueString (ID data) in
  match http_NewRequest "DELETE" reqURL slice.Nil with
  | inr err => mret (tfsdk.stop (diag.AddError respDiags "Error creating request" err))
  | inl httpReq =>
      res ← doRequest (client r) httpReq;
      match res with
      | (_, Some err) =>
          mret (tfsdk.stop (diag.AddError respDiags "Error deleting network" err))
      | (_, None) =>
          mret {| tfsdk.Diagnostics := respDiags; tfsdk.State_ := tfsdk.Removed |}
      end
  end.

End NetworkResourceResource.

(** ** The setup key resource (src/internal/provider/setup_key_resource.go)

    Only Delete is embedded: the other handlers of this file use fields
    that the model does not have. *)

Module SetupKeyResource.

Record Model := {
  ID : types.String;
  Name : types.String;
  Type_ : types.String;
  AutoGroups : types.List;
  ExpiresIn : types.Int64;
  UsageLimit : types.Int64;
  AllowExtraDnsLabels : types.Bool;
  Ephemeral : types.Bool;
}.

Record t := { client : Client }.

Definition Delete `{Runtime} (r : t) (req : tfsdk.Source Model)
  : IO (tfsdk.Response Model) :=
  let '(data, getDiags) := tfsdk.Get req in
  let respDiags := diag.Append [] getDiags in
  if diag.HasError respDiags then mret (tfsdk.stop respDiags) else
  let reqURL := BaseUrl (client r) +:+ "/api/networks/" +:+ types.ValueString (ID data) in
  match http_NewRequest "DELETE" reqURL slice.Nil with
  | inr err => mret (tfsdk.stop (diag.AddError respDiags "Error creating request" err))
  | inl httpReq =>
      res ← doRequest (client r) httpReq;
      match res with
      | (_, Some err) =>
          mret (tfsdk.stop (diag.AddError respDiags "Error deleting network" err))
      | (_, None) =>
          mret {| tfsdk.Diagnostics := respDiags; tfsdk.State_ := tfsdk.Removed |}
      end
  end.

End SetupKeyResource.

(** ** The nameserver group resource
    (src/internal/provider/setup_key_resource.go, after the setup key) *)

Module NameserverGroupResource.

Record NameserverResourceModel := {
  Ip : types.String;
  NsType : types.String;
  Port : types.Int32;
}.

Record Model := {
  ID : types.String;
  Name : types.String;
  Description : types.String;
  Nameservers : slice.t NameserverResourceModel;
  PeerGroups : types.List;
  Domains : types.List;
  Primary : types.Bool;
  SearchDomainsEnabled : types.Bool;
  Enabled : types.Bool;
}.

Record t := { client : Client }.

Definition set_ID (v : types.String) (d : Model) : Model :=
  {| ID := v; Name := Name d; Description := Description d;
     Nameservers := Nameservers d; PeerGroups := PeerGroups d; Domains := Domains d;
     Primary := Primary d; SearchDomainsEnabled := SearchDomainsEnabled d;
     Enabled := Enabled d |}.

(** The model is passed by pointer: [None] is the nil pointer, and the
    result holds the model as the function leaves it. *)
Definition readNameserverGroupIntoModel `{Runtime} (r : t) (data : option Model)
  : IO (option Model * diag.Diagnostics) :=
  let diags : diag.Diagnostics := [] in
  match data with
  | None => mret (None, diags)
  | Some data =>
      let reqURL :=
        BaseUrl (client r) +:+ "/api/dns/nameservers/"
        +:+ types.ValueString (ID data) in
      match http_NewRequest "GET" reqURL slice.Nil with
      | inr err => mret (Some data, diag.AddError diags "Error creating request" err)
      | inl httpReq =>
          res ← doRequest (client r) httpReq;
          match res with
          | (_, Some err) =>
              mret (Some data, diag.AddError diags "Error fetching network" err)
          | (responseBody, None) =>
              (* If not found *)
              if slice.is_nil responseBody
              then mret (Some (set_ID types.StringNull data), diags)
              else
                match Unmarshal_NameserverGroup (slice.elems responseBody) with
                | inr err =>
                    mret (Some data, diag.AddError diags "Error parsing response" err)
                | inl responseData =>
                    let name :=
                      types.StringValue (netbirdApi.NameserverGroup_Name responseData) in
                    let description :=
                      nullStringToEmptyString
                        (derefString
                           (Some (netbirdApi.NameserverGroup_Description responseData))) in
                    let nameservers :=
                      slice.collect
                        (fun nameserver =>
                           {| Ip := types.StringValue (netbirdApi.Nameserver_Ip nameserver);
                              NsType :=
                                types.StringValue
                                  (netbirdApi.Nameserver_NsType nameserver);
                              Port :=
                                types.Int32Value
                                  (int32 (netbirdApi.Nameserver_Port nameserver)) |})
                        (netbirdApi.NameserverGroup_Nameservers responseData) in
                    let '(peerGroups, diags) :=
                      convertStringSliceToListValue
                        (netbirdApi.NameserverGroup_Groups responseData) in
                    let data1 :=
                      {| ID := ID data; Name := name; Description := description;
                         Nameservers := nameservers; PeerGroups := peerGroups;
                         Domains := Domains data; Primary := Primary data;
                         SearchDomainsEnabled := SearchDomainsEnabled data;
                         Enabled := Enabled data |} in
                    if diag.HasError diags then mret (Some data1, diags) else
                    let primary :=
                      types.BoolPointerValue
                        (Some (netbirdApi.NameserverGroup_Primary responseData)) in
                    let '(domains, diags) :=
                      convertStringSliceToListValue
                        (netbirdApi.NameserverGroup_Domains responseData) in
                    let data2 :=
                      {| ID := ID data; Name := name; Description := description;
                         Nameservers := nameservers; PeerGroups := peerGroups;
                         Domains := domains; Primary := primary;
                         SearchDomainsEnabled := SearchDomainsEnabled data;
                         Enabled := Enabled data |} in
                    if diag.HasError diags then mret (Some data2, diags) else
                    mret
                      (Some
                         {| ID := ID data; Name := name; Description := description;
                            Nameservers := nameservers; PeerGroups := peerGroups;
                            Domains := domains; Primary := primary;
                            SearchDomainsEnabled :=
                              types.BoolPointerValue
                                (Some
                                   (netbirdApi.NameserverGroup_SearchDomainsEnabled
                                      responseData));
                            Enabled :=
                              types.BoolPointerValue
                                (Some (netbirdApi.NameserverGroup_Enabled responseData)) |},
                       diags)
                end
          end
      end
  end.

Definition nameserverGroupModelToApiRequest (data : Model)
  : option netbirdApi.NameserverGroupRequest * diag.Diagnostics :=
  let '(peerGroups, diags) := convertListToStringSlice (PeerGroups data) in
  if diag.HasError diags then (None, diags) else
  let '(domains, diags) := convertListToStringSlice (Domains data) in
  if diag.HasError diags then (None, diags) else
  let nameservers :=
    slice.collect
      (fun nameserverConfig =>
         {| netbirdApi.Nameserver_Ip := types.ValueString (Ip nameserverConfig);
            netbirdApi.Nameserver_NsType := types.ValueString (NsType nameserverConfig);
            netbirdApi.Nameserver_Port := types.ValueInt32 (Port nameserverConfig) |})
      (Nameservers data) in
  (Some {| netbirdApi.NameserverGroupRequest_Name := types.ValueString (Name data);
           netbirdApi.NameserverGroupRequest_Description :=
             types.ValueString (Description data);
           netbirdApi.NameserverGroupRequest_Nameservers := nameservers;
           netbirdApi.NameserverGroupRequest_Groups := peerGroups;
           netbirdApi.NameserverGroupRequest_Primary := types.ValueBool (Primary data);
           netbirdApi.NameserverGroupRequest_Domains := domains;
           netbirdApi.NameserverGroupRequest_SearchDomainsEnabled :=
             types.ValueBool (SearchDomainsEnabled data);
           netbirdApi.NameserverGroupRequest_Enabled := types.ValueBool (Enabled data) |},
   diags).

Definition Create `{Runtime} (r : t) (req : tfsdk.Source Model)
  : IO (tfsdk.Response Model) :=
  let '(data, getDiags) := tfsdk.Get req in
  let respDiags := diag.Append [] getDiags in
  if diag.HasError respDiags then mret (tfsdk.stop respDiags) else
  let '(apiData, diags) := nameserverGroupModelToApiRequest data in
  let respDiags := diag.Append respDiags diags in
  if diag.HasError respDiags then mret (tfsdk.stop respDiags) else
  match apiData with
  | None =>
      mret (tfsdk.stop
              (diag.AddError respDiags "nul pointer error"
                 "Got nil pointer to NameserverGroupResourceModel"))
  | Some apiData =>
      match Marshal_NameserverGroupRequest apiData with
      | inr err =>
          mret (tfsdk.stop (diag.AddError respDiags "Error marshaling request body" err))
      | inl requestBody =>
          let reqURL := BaseUrl (client r) +:+ "/api/dns/nameservers" in
          match http_NewRequest "POST" reqURL (slice.Of requestBody) with
          | inr err =>
              mret (tfsdk.stop (diag.AddError respDiags "Error creating request" err))
          | inl httpReq =>
              let httpReq :=
                http.Request_Header_Set httpReq "Content-Type" "application/json" in
              res ← doRequest (client r) httpReq;
              match res with
              | (_, Some err) =>
                  mret (tfsdk.stop (diag.AddError respDiags "Error making API request" err))
              | (responseBody, None) =>
                  match Unmarshal_NameserverGroup (slice.elems responseBody) with
                  | inr err =>
                      mret (tfsdk.stop
                              (diag.AddError respDiags "Error parsing response" err))
                  | inl responseData =>
                      let data :=
                        set_ID (types.StringValue
                                  (netbirdApi.NameserverGroup_Id responseData)) data in
                      res ← readNameserverGroupIntoModel r (Some data);
                      let '(data', diags) := res in
                      let respDiags := diag.Append respDiags diags in
                      if diag.HasError respDiags then mret (tfsdk.stop respDiags) else
                      mret {| tfsdk.Diagnostics := respDiags;
                              tfsdk.State_ := tfsdk.Written (default data data') |}
                  end
              end
          end
      end
  end.

Definition Update `{Runtime} (r : t) (req : tfsdk.Source Model)
  : IO (tfsdk.Response Model) :=
  let '(data, getDiags) := tfsdk.Get req in
  let respDiags := diag.Append [] getDiags in
  if diag.HasError respDiags then mret (tfsdk.stop respDiags) else
  let '(apiData, diags) := nameserverGroupModelToApiRequest data in
  let respDiags := diag.Append respDiags diags in
  if diag.HasError respDiags then mret (tfsdk.stop respDiags) else
  match apiData with
  | None =>
      mret (tfsdk.stop
              (diag.AddError respDiags "nul pointer error"
                 "Got nil pointer to NameserverGroupResourceModel"))
  | Some apiData =>
      match Marshal_NameserverGroupRequest apiData with
      | inr err =>
          mret (tfsdk.stop (diag.AddError respDiags "Error marshaling request body" err))
      | inl requestBody =>
          let reqURL :=
            BaseUrl (client r) +:+ "/api/dns/nameservers/"
            +:+ types.ValueString (ID data) in
          match http_NewRequest "PUT" reqURL (slice.Of requestBody) with
          | inr err =>
              mret (tfsdk.stop (diag.AddError respDiags "Error creating request" err))
          | inl httpReq =>
              let httpReq :=
                http.Request_Header_Set httpReq "Content-Type" "application/json" in
              res ← doRequest (client r) httpReq;
              match res with
              | (_, Some err) =>
                  mret (tfsdk.stop (diag.AddError respDiags "Error updating network" err))
              | (_, None) =>
                  res ← readNameserverGroupIntoModel r (Some data);
                  let '(data', diags) := res in
                  let respDiags := diag.Append respDiags diags in
                  if diag.HasError respDiags then mret (tfsdk.stop respDiags) else
                  mret {| tfsdk.Diagnostics := respDiags;
                          tfsdk.State_ := tfsdk.Written (default data data') |}
              end
          end
      end
  end.

Definition Read `{Runtime} (r : t) (req : tfsdk.Source Model)
  : IO (tfsdk.Response Model) :=
  let '(data, getDiags) := tfsdk.Get req in
  let respDiags := diag.Append [] getDiags in
  if diag.HasError respDiags then mret (tfsdk.stop respDiags) else
  res ← readNameserverGroupIntoModel r (Some data);
  let '(data', diags) := res in
  let respDiags := diag.Append respDiags diags in
  if diag.HasError respDiags then mret (tfsdk.stop respDiags) else
  mret {| tfsdk.Diagnostics := respDiags;
          tfsdk.State_ := tfsdk.Written (default data data') |}.

Definition Delete `{Runtime} (r : t) (req : tfsdk.Source Model)
  : IO (tfsdk.Response Model) :=
  let '(data, getDiags) := tfsdk.Get req in
  let respDiags := diag.Append [] getDiags in
  if diag.HasError respDiags then mret (tfsdk.stop respDiags) else
  let reqURL :=
    BaseUrl (client r) +:+ "/api/dns/nameservers/" +:+ types.ValueString (ID data) in
  match http_NewRequest "DELETE" reqURL slice.Nil with
  | inr err => mret (tfsdk.stop (diag.AddError respDiags "Error creating request" err))
  | inl httpReq =>
      res ← doRequest (client r) httpReq;
      match res with
      | (_, Some err) =>
          mret (tfsdk.stop (diag.AddError respDiags "Error deleting network" err))
      | (_, None) =>
          mret {| tfsdk.Diagnostics := respDiags; tfsdk.State_ := tfsdk.Removed |}
      end
  end.

End NameserverGroupResource.

(** ** The DNS settings resource
    (src/internal/provider/dns_settings_resource.go) *)

Module DnsSettingsResource.

Record Model := {
  ID : types.String;
  DisabledManagementGroups : types.List;
}.

Record t := { client : Client }.

Definition dnsSettingsModelToApi (data : Model)
  : netbirdApi.DNSSettings * diag.Diagnostics :=
  let '(groups, diags) := convertListToStringSlice (DisabledManagementGroups data) in
  ({| netbirdApi.DisabledManagementGroups := groups |}, diags).

Definition updateDnsSettings `{Runtime} (r : t) (data : Model)
  : IO (slice.t byte * diag.Diagnostics) :=
  let '(apiModel, diags) := dnsSettingsModelToApi data in
  if diag.HasError diags then mret (slice.Nil, diags) else
  match Marshal_DNSSettings apiModel with
  | inr err => mret (slice.Nil, diag.AddError diags "Error marshaling request body" err)
  | inl requestBody =>
      let reqURL := BaseUrl (client r) +:+ "/api/dns/settings" in
      match http_NewRequest "PUT" reqURL (slice.Of requestBody) with
      | inr err => mret (slice.Nil, diag.AddError diags "Error creating request" err)
      | inl httpReq =>
          let httpReq :=
            http.Request_Header_Set httpReq "Content-Type" "application/json" in
          res ← doRequest (client r) httpReq;
          match res with
          | (_, Some err) =>
              mret (slice.Nil, diag.AddError diags "Error making API request" err)
          | (responseBody, None) => mret (responseBody, diags)
          end
      end
  end.

Definition readDnsSettingsIntoModel `{Runtime} (r : t) (data : Model)
  : IO (Model * diag.Diagnostics) :=
  let diags : diag.Diagnostics := [] in
  let reqURL := BaseUrl (client r) +:+ "/api/dns/settings" in
  match http_NewRequest "GET" reqURL slice.Nil with
  | inr err => mret (data, diag.AddError diags "Error creating request" err)
  | inl httpReq =>
      res ← doRequest (client r) httpReq;
      match res with
      | (_, Some err) => mret (data, diag.AddError diags "Error fetching network" err)
      | (responseBody, None) =>
          (* Handle when resource does not exist *)
          if slice.is_nil responseBody
          then mret ({| ID := types.StringNull;
                        DisabledManagementGroups := DisabledManagementGroups data |},
                     diags)
          else
            match Unmarshal_DNSSettings (slice.elems responseBody) with
            | inr err => mret (data, diag.AddError diags "Error parsing response" err)
            | inl responseData =>
                let '(disabledManagementGroups, newDiags) :=
                  ListValueFrom_strings
                    (netbirdApi.DisabledManagementGroups responseData) in
                let diags := diag.Append diags newDiags in
                mret ({| ID := ID data;
                         DisabledManagementGroups := disabledManagementGroups |},
                      diags)
            end
      end
  end.

Definition Create `{Runtime} (r : t) (req : tfsdk.Source Model)
  : IO (tfsdk.Response Model) :=
  let '(data, getDiags) := tfsdk.Get req in
  let respDiags := diag.Append [] getDiags in
  if diag.HasError respDiags then mret (tfsdk.stop respDiags) else
  res ← updateDnsSettings r data;
  let '(responseBody, diags) := res in
  let respDiags := diag.Append respDiags diags in
  if diag.HasError respDiags then mret (tfsdk.stop respDiags) else
  match Unmarshal_Object (slice.elems responseBody) with
  | inr err => mret (tfsdk.stop (diag.AddError respDiags "Error parsing response" err))
  | inl _ =>
      (* Assign hard coded value *)
      let data :=
        {| ID := types.StringValue "dns-settings";
           DisabledManagementGroups := DisabledManagementGroups data |} in
      res ← readDnsSettingsIntoModel r data;
      let '(data, diags) := res in
      let respDiags := diag.Append respDiags diags in
      if diag.HasError respDiags then mret (tfsdk.stop respDiags) else
      mret {| tfsdk.Diagnostics := respDiags; tfsdk.State_ := tfsdk.Written data |}
  end.

Definition Read `{Runtime} (r : t) (req : tfsdk.Source Model)
  : IO (tfsdk.Response Model) :=
  let '(data, getDiags) := tfsdk.Get req in
  let respDiags := diag.Append [] getDiags in
  if diag.HasError respDiags then mret (tfsdk.stop respDiags) else
  res ← readDnsSettingsIntoModel r data;
  let '(data, diags) := res in
  let respDiags := diag.Append respDiags diags in
  if diag.HasError respDiags then mret (tfsdk.stop respDiags) else
  mret {| tfsdk.Diagnostics := respDiags; tfsdk.State_ := tfsdk.Written data |}.

Definition Update `{Runtime} (r : t) (req : tfsdk.Source Model)
  : IO (tfsdk.Response Model) :=
  let '(data, getDiags) := tfsdk.Get req in
  let respDiags := diag.Append [] getDiags in
  if diag.HasError respDiags then mret (tfsdk.stop respDiags) else
  res ← updateDnsSettings r data;
  let '(_, diags) := res in
  let respDiags := diag.Append respDiags diags in
  if diag.HasError respDiags then mret (tfsdk.stop respDiags) else
  res ← readDnsSettingsIntoModel r data;
  let '(data, diags) := res in
  let respDiags := diag.Append respDiags diags in
  if diag.HasError respDiags then mret (tfsdk.stop respDiags) else
  mret {| tfsdk.Diagnostics := respDiags; tfsdk.State_ := tfsdk.Written data |}.

Definition Delete `{Runtime} (r : t) (req : tfsdk.Source Model)
  : IO (tfsdk.Response Model) :=
  let '(data, getDiags) := tfsdk.Get req in
  let respDiags := diag.Append [] getDiags in
  if diag.HasError respDiags then mret (tfsdk.stop respDiags) else
  match Marshal_DNSSettings {| netbirdApi.DisabledManagementGroups := slice.Of [] |} with
  | inr err =>
      mret (tfsdk.stop (diag.AddError respDiags "Error marshaling request body" err))
  | inl requestBody =>
      let reqURL := BaseUrl (client r) +:+ "/api/dns/settings" in
      match http_NewRequest "PUT" reqURL (slice.Of requestBody) with
      | inr err => mret (tfsdk.stop (diag.AddError respDiags "Error creating request" err))
      | inl httpReq =>
          let httpReq :=
            http.Request_Header_Set httpReq "Content-Type" "application/json" in
          res ← doRequest (client r) httpReq;
          match res with
          | (_, Some err) =>
              mret (tfsdk.stop (diag.AddError respDiags "Error updating network" err))
          | (_, None) =>
              mret {| tfsdk.Diagnostics := respDiags; tfsdk.State_ := tfsdk.Removed |}
          end
      end
  end.

End DnsSettingsResource.

(** ** The peers data source (src/internal/provider/peers_data_source.go) *)

Module PeersDataSource.

Record t := { client : Client }.

Definition Read `{Runtime} (d : t) (req : tfsdk.Source PeersDataSourceModel)
  : IO (tfsdk.Response PeersDataSourceModel) :=
  let '(data, getDiags) := tfsdk.Get req in
  let respDiags := diag.Append [] getDiags in
  if diag.HasError respDiags then mret (tfsdk.stop respDiags) else
  let endpoint := BaseUrl (client d) +:+ "/api/peers" in
  match http_NewRequest "GET" endpoint slice.Nil with
  | inr err => mret (tfsdk.stop (diag.AddError respDiags "Error Creating Request" err))
  | inl reqHTTP =>
      res ← doRequest (client d) reqHTTP;
      match res with
      | (_, Some err) =>
          mret (tfsdk.stop (diag.AddError respDiags "Error Making API Request" err))
      | (body, None) =>
          (* The decoded peers stay in a local variable. *)
          match Unmarshal_Peers (slice.elems body) with
          | inr err =>
              mret (tfsdk.stop (diag.AddError respDiags "Error Parsing API Response" err))
          | inl _ =>
              mret {| tfsdk.Diagnostics := respDiags; tfsdk.State_ := tfsdk.Written data |}
          end
      end
  end.

End PeersDataSource.

(** ** The peer data source (src/internal/provider/group_resource.go, after
    the group resource) *)

Module PeerDataSource.

Record t := { client : Client }.

Definition Read `{Runtime} (d : t) (req : tfsdk.Source PeerDataSourceModel)
  : IO (tfsdk.Response PeerDataSourceModel) :=
  let '(data, getDiags) := tfsdk.Get req in
  let respDiags := diag.Append [] getDiags in
  if diag.HasError respDiags then mret (tfsdk.stop respDiags) else
  let respDiags :=
    if decide (types.String_String Quote (Peer_ID data) = "")
    then diag.AddAttributeError respDiags "id" "ID is invalid"
           "ID must be set to a valid string"
    else respDiags in
  let endpoint :=
    BaseUrl (client d) +:+ "/api/peers/" +:+ types.ValueString (Peer_ID data) in
  match http_NewRequest "GET" endpoint slice.Nil with
  | inr err => mret (tfsdk.stop (diag.AddError respDiags "Error Creating Request" err))
  | inl reqHTTP =>
      res ← doRequest (client d) reqHTTP;
      match res with
      | (_, Some err) =>
          mret (tfsdk.stop
                  (diag.AddError respDiags ("Error Making API Request: " +:+ endpoint) err))
      | (body, None) =>
          match Unmarshal_PeerBatch (slice.elems body) with
          | inr err =>
              mret (tfsdk.stop (diag.AddError respDiags "Error Parsing API Response" err))
          | inl peerBatch =>
              let data :=
                {| Peer_ID := types.StringValue (netbirdApi.PeerBatch_Id peerBatch);
                   Peer_Name := types.StringValue (netbirdApi.PeerBatch_Name peerBatch);
                   Peer_IP := types.StringValue (netbirdApi.PeerBatch_Ip peerBatch);
                   Peer_ConnectionIP :=
                     types.StringValue (netbirdApi.PeerBatch_ConnectionIp peerBatch);
                   Peer_Connected :=
                     types.BoolValue (netbirdApi.PeerBatch_Connected peerBatch);
                   Peer_LastSeen :=
                     types.StringValue
                       (Time_String (netbirdApi.PeerBatch_LastSeen peerBatch));
                   Peer_OS := types.StringValue (netbirdApi.PeerBatch_Os peerBatch);
                   Peer_KernelVersion :=
                     types.StringValue (netbirdApi.PeerBatch_KernelVersion peerBatch);
                   Peer_GeonameID :=
                     types.Int64Value (netbirdApi.PeerBatch_GeonameId peerBatch);
                   Peer_Version :=
                     types.StringValue (netbirdApi.PeerBatch_Version peerBatch);
                   Peer_Groups := convertPeerGroups (netbirdApi.PeerBatch_Groups peerBatch);
                   Peer_SSHEnabled :=
                     types.BoolValue (netbirdApi.PeerBatch_SshEnabled peerBatch);
                   Peer_UserID := types.StringValue (netbirdApi.PeerBatch_UserId peerBatch);
                   Peer_Hostname :=
                     types.StringValue (netbirdApi.PeerBatch_Hostname peerBatch);
                   Peer_UIVersion :=
                     types.StringValue (netbirdApi.PeerBatch_UiVersion peerBatch);
                   Peer_DNSLabel :=
                     types.StringValue (netbirdApi.PeerBatch_DnsLabel peerBatch);
                   Peer_LoginExpirationEnabled :=
                     types.BoolValue
                       (netbirdApi.PeerBatch_LoginExpirationEnabled peerBatch);
                   Peer_LoginExpired :=
                     types.BoolValue (netbirdApi.PeerBatch_LoginExpired peerBatch);
                   Peer_LastLogin :=
                     types.StringValue
                       (Time_String (netbirdApi.PeerBatch_LastLogin peerBatch));
                   Peer_InactivityExpirationEnabled :=
                     types.BoolValue
                       (netbirdApi.PeerBatch_InactivityExpirationEnabled peerBatch);
                   Peer_ApprovalRequired :=
                     types.BoolValue (netbirdApi.PeerBatch_ApprovalRequired peerBatch);
                   Peer_CountryCode :=
                     types.StringValue (netbirdApi.PeerBatch_CountryCode peerBatch);
                   Peer_CityName :=
                     types.StringValue (netbirdApi.PeerBatch_CityName peerBatch);
                   Peer_SerialNumber :=
                     types.StringValue (netbirdApi.PeerBatch_SerialNumber peerBatch);
                   Peer_ExtraDNSLabels :=
                     convertStrings (netbirdApi.PeerBatch_ExtraDnsLabels peerBatch);
                   Peer_AccessiblePeersCount :=
                     types.Int64Value
                       (netbirdApi.PeerBatch_AccessiblePeersCount peerBatch) |} in
              mret {| tfsdk.Diagnostics := respDiags;
                      tfsdk.State_ := tfsdk.Written data |}
          end
      end
  end.

End PeerDataSource.

(** ** Vocabulary of the statements *)

(** The exchange [e], started in world [w], was answered with a response
    whose body could be read and whose status is below 400. *)
Definition answered_ok `{Runtime} (w : World) (e : Exchange) : Prop :=
  match fst (roundTrip (remote w) (via e) (sent e)) with
  | inl resp => http.readErr (http.RespBody resp) = None ∧ (http.StatusCode resp < 400)%Z
  | inr _ => False
  end.

(** A status that indicates success, as the specification reads it. *)
Definition is_2xx (status : Z) : bool := (200 <=? status)%Z && (status <? 300)%Z.

(** Running [op] from any world puts at most [n] requests on the wire,
    each of them sent by the [http.Client] of [c]. *)
Definition calls_through `{Runtime} {A} (c : Client) (n : nat) (op : IO A) : Prop :=
  ∀ w, ∃ es,
    wire (snd (op w)) = wire w ++ es
    ∧ issued w (snd (op w)) = es
    ∧ (length es ≤ n)%nat
    ∧ Forall (fun e => via e = httpClient c) es.

(** A Delete handler [op] for a model whose prior state decodes without
    error, where [http.NewRequest] accepts the URL: one request with the
    given method and URL goes out through [c]; the resource is removed
    from the state exactly when it was answered below 400, and otherwise
    an error diagnostic is reported and the state is left alone. *)
Definition deletes_by `{Runtime} {M} (c : Client) (method url : string)
  (op : IO (tfsdk.Response M)) : Prop :=
  NewRequest_error method url = None →
  ∀ w, ∃ e,
    issued w (snd (op w)) = [e]
    ∧ via e = httpClient c
    ∧ http.Method (sent e) = method
    ∧ http.URL (sent e) = url
    ∧ (answered_ok w e →
       tfsdk.State_ (fst (op w)) = tfsdk.Removed
       ∧ diag.HasError (tfsdk.Diagnostics (fst (op w))) = false)
    ∧ (¬ answered_ok w e →
       tfsdk.State_ (fst (op w)) = tfsdk.Untouched
       ∧ diag.HasError (tfsdk.Diagnostics (fst (op w))) = true).

(** A handler's answer that reports no error diagnostic. *)
Definition succeeded {M} (resp : tfsdk.Response M) : Prop :=
  diag.HasError (tfsdk.Diagnostics resp) = false.

(** [op] calls the API through [c] by the plan [methods]: from any
    world, every request it sends goes through the [http.Client] of [c];
    the methods of the requests it sends are, in the order sent, the
    first so many of [methods]; and when its result [succeeds], it has
    sent all of them. *)
Definition calls_by_plan `{Runtime} {A} (c : Client) (methods : list string)
  (succeeds : A -> Prop) (op : IO A) : Prop :=
  ∀ w, ∃ es,
    wire (snd (op w)) = wire w ++ es
    ∧ issued w (snd (op w)) = es
    ∧ Forall (fun e => via e = httpClient c) es
    ∧ map (fun e => http.Method (sent e)) es `prefix_of` methods
    ∧ (succeeds (fst (op w)) -> map (fun e => http.Method (sent e)) es = methods).

(** ** A scripted runtime for the worked examples

    The server is the list of answers it will give, one per request; the
    codecs recognise the few bodies the examples use.  Bodies are written
    without quotation marks. *)

Module fixture.

Definition bytes (s : string) : list byte := list_byte_of_string s.

(** The body [b] reads as the text [s]. *)
Definition reads (b : list byte) (s : string) : bool :=
  String.eqb (string_of_list_byte b) s.

Definition answer (status : Z) (body : string) : http.Response + error :=
  inl {| http.StatusCode := status;
         http.RespBody := {| http.content := bytes body; http.readErr := None |} |}.

Definition network_body : string := "{id:net-1,name:office,description:}".

Definition network : netbirdApi.Network :=
  {| netbirdApi.Network_Id := "net-1";
     netbirdApi.Network_Name := "office";
     netbirdApi.Network_Description := Some "";
     netbirdApi.Network_Routers := slice.Nil;
     netbirdApi.Network_RoutingPeersCount := 0;
     netbirdApi.Network_Resources := slice.Nil;
     netbirdApi.Network_Policies := slice.Nil |}.

Definition described_body : string := "{id:net-1,name:office,description:HQ}".

Definition described : netbirdApi.Network :=
  {| netbirdApi.Network_Id := "net-1";
     netbirdApi.Network_Name := "office";
     netbirdApi.Network_Description := Some "HQ";
     netbirdApi.Network_Routers := slice.Nil;
     netbirdApi.Network_RoutingPeersCount := 0;
     netbirdApi.Network_Resources := slice.Nil;
     netbirdApi.Network_Policies := slice.Nil |}.

Definition nsgroup_body : string := "{id:ns-1,name:dns,description:}".

Definition nsgroup : netbirdApi.NameserverGroup :=
  {| netbirdApi.NameserverGroup_Id := "ns-1";
     netbirdApi.NameserverGroup_Name := "dns";
     netbirdApi.NameserverGroup_Description := "";
     netbirdApi.NameserverGroup_Nameservers := slice.Nil;
     netbirdApi.NameserverGroup_Groups := slice.Of ["g-1"];
     netbirdApi.NameserverGroup_Primary := true;
     netbirdApi.NameserverGroup_Domains := slice.Nil;
     netbirdApi.NameserverGroup_SearchDomainsEnabled := false;
     netbirdApi.NameserverGroup_Enabled := true |}.

Definition syntax_error : error := "unexpected end of JSON input".

Definition runtime : Runtime := {|
  server := list (http.Response + error);
  roundTrip srv _ _ :=
    match srv with
    | [] => (inr "connection refused", [])
    | r :: rest => (r, rest)
    end;
  NewRequest_error _ _ := None;
  Marshal_StringMap _ := inl (bytes "{}");
  Marshal_DNSSettings _ := inl (bytes "{disabled_management_groups:[]}");
  Marshal_GroupRequest _ := inl (bytes "{}");
  Marshal_NetworkRouterRequest _ := inl (bytes "{}");
  Marshal_NetworkResourceRequest _ := inl (bytes "{}");
  Marshal_NameserverGroupRequest _ := inl (bytes "{}");
  Marshal_PolicyCreate _ := inl (bytes "{}");
  Marshal_PolicyUpdate _ := inl (bytes "{}");
  Unmarshal_Network b :=
    if reads b network_body then inl network
    else if reads b described_body then inl described
    else inr syntax_error;
  Unmarshal_Group _ := inr syntax_error;
  Unmarshal_DNSSettings b :=
    if reads b "{disabled_management_groups:[]}"
    then inl {| netbirdApi.DisabledManagementGroups := slice.Of [] |}
    else inr syntax_error;
  Unmarshal_NameserverGroup b :=
    if reads b nsgroup_body then inl nsgroup else inr syntax_error;
  Unmarshal_NetworkRouter _ := inr syntax_error;
  Unmarshal_NetworkResource _ := inr syntax_error;
  Unmarshal_Policy _ := inr syntax_error;
  Unmarshal_PeerBatch _ := inr syntax_error;
  Unmarshal_Object b :=
    match b with
    | [] => inr syntax_error
    | _ :: _ => inl {[ "id" := netbirdApi.AnyString "net-1" ]}
    end;
  Unmarshal_Peers _ := inr syntax_error;
  ListValueFrom_strings s :=
    match s with
    | slice.Nil => (types.ListNull types.StringType, [])
    | slice.Of l =>
        (types.ListKnown types.StringType
           (map (fun v => types.VString (types.StringValue v)) l), [])
    end;
  ElementsAs_strings l := convertListToStringSlice l;
  Quote s := s;
  Time_String _ := "0001-01-01 00:00:00 +0000 UTC";
|}.

#[local] Existing Instance runtime.

(** A world whose server will give the answers [script]. *)
Definition world (script : list (http.Response + error)) : World :=
  {| remote := script; wire := [] |}.

Definition client : Client := NewClient "https://api.netbird.io" "" "nbp_token".

Definition get (url : string) : http.Request :=
  {| http.Method := "GET"; http.URL := url; http.Header := ∅; http.Body := slice.Nil |}.

Definition network_data : NetworkResource.Model :=
  {| NetworkResource.ID := types.StringValue "net-1";
     NetworkResource.Name := types.StringValue "office";
     NetworkResource.Description := types.StringNull;
     NetworkResource.Routers := types.ListNull types.StringType;
     NetworkResource.RoutingPeersCount := types.Int64Value 0;
     NetworkResource.Resources := types.ListNull types.StringType;
     NetworkResource.Policies := types.ListNull types.StringType |}.

Definition nsgroup_data : NameserverGroupResource.Model :=
  {| NameserverGroupResource.ID := types.StringValue "ns-1";
     NameserverGroupResource.Name := types.StringValue "dns";
     NameserverGroupResource.Description := types.StringValue "";
     NameserverGroupResource.Nameservers := slice.Nil;
     NameserverGroupResource.PeerGroups := types.ListNull types.StringType;
     NameserverGroupResource.Domains := types.ListNull types.StringType;
     NameserverGroupResource.Primary := types.BoolValue true;
     NameserverGroupResource.SearchDomainsEnabled := types.BoolValue false;
     NameserverGroupResource.Enabled := types.BoolValue true |}.

Definition group_data : GroupResource.Model :=
  {| GroupResource.ID := types.StringValue "g-1";
     GroupResource.Name := types.StringValue "ops";
     GroupResource.Peers := types.ListNull types.StringType;
     GroupResource.Resources := slice.Nil;
     GroupResource.PeersCount := types.Int64Value 0;
     GroupResource.ResourcesCount := types.Int64Value 0;
     GroupResource.Issued := types.StringValue "api" |}.

Definition policy_data : PolicyResource.Model :=
  {| PolicyResource.ID := types.StringValue "pol-1";
     PolicyResource.Name := types.StringValue "default";
     PolicyResource.Description := types.StringNull;
     PolicyResource.Enabled := types.BoolValue true;
     PolicyResource.SourcePostureChecks := types.ListNull types.StringType;
     PolicyResource.Rules := slice.Nil |}.

Definition router_data : NetworkRouterResource.Model :=
  {| NetworkRouterResource.ID := types.StringValue "rt-1";
     NetworkRouterResource.NetworkId := types.StringValue "net-1";
     NetworkRouterResource.Peer := types.StringValue "peer-1";
     NetworkRouterResource.PeerGroups := types.ListNull types.StringType;
     NetworkRouterResource.Metric := types.Int32Value 9999;
     NetworkRouterResource.Masquerade := types.BoolValue true;
     NetworkRouterResource.Enabled := types.BoolValue true |}.

Definition resource_data : NetworkResourceResource.Model :=
  {| NetworkResourceResource.ID := types.StringValue "res-1";
     NetworkResourceResource.NetworkId := types.StringValue "net-1";
     NetworkResourceResource.Name := types.StringValue "wiki";
     NetworkResourceResource.Description := types.StringNull;
     NetworkResourceResource.Address := types.StringValue "wiki.example";
     NetworkResourceResource.PeerGroups := types.ListNull types.StringType;
     NetworkResourceResource.Enabled := types.BoolValue true |}.

Definition dns_data : DnsSettingsResource.Model :=
  {| DnsSettingsResource.ID := types.StringValue "dns-settings";
     DnsSettingsResource.DisabledManagementGroups :=
       types.ListKnown types.StringType [types.VString (types.StringValue "g-1")] |}.

(** A prior state (or plan) that decodes to [data] without
    diagnostics. *)
Definition decoded {M} (data : M) : tfsdk.Source M := {| tfsdk.Get := (data, []) |}.

(** Two policy rules; the first has a destination resource and no
    source resource. *)
Definition rule (name : string) (src dst : option ResourceModel) : PolicyRuleModel :=
  {| PolicyRuleModel_ID := types.StringNull;
     PolicyRuleModel_Name := types.StringValue name;
     PolicyRuleModel_Description := types.StringNull;
     PolicyRuleModel_Enabled := types.BoolValue true;
     PolicyRuleModel_Action := types.StringValue "accept";
     PolicyRuleModel_Bidirectional := types.BoolValue true;
     PolicyRuleModel_Protocol := types.StringValue "tcp";
     PolicyRuleModel_Ports := types.ListNull types.StringType;
     PolicyRuleModel_PortRanges := slice.Nil;
     PolicyRuleModel_Sources :=
       types.ListKnown types.StringType [types.VString (types.StringValue "g-1")];
     PolicyRuleModel_Destinations := types.ListNull types.StringType;
     PolicyRuleModel_SourceResource := src;
     PolicyRuleModel_DestinationResource := dst |}.

Definition host : ResourceModel :=
  {| ResourceModel_ID := types.StringValue "res-1";
     ResourceModel_Type := types.StringValue "host" |}.

Definition two_rules : slice.t PolicyRuleModel :=
  slice.Of [rule "web" None (Some host); rule "ssh" None None].

End fixture.


(** ** A second scripted runtime

    Like the first, but [Quote] puts its argument between quotation
    marks, as [strconv.Quote] does, the body [{}] decodes into the
    empty object, and the bodies of one router and of the empty list of
    peers decode. *)

Module second.

Definition quotation_mark : string := String (Ascii.ascii_of_nat 34) "".

Definition router_body : string := "{id:rt-1,peer:peer-1,metric:9999}".

Definition router : netbirdApi.NetworkRouter :=
  {| netbirdApi.NetworkRouter_Id := "rt-1";
     netbirdApi.NetworkRouter_Peer := Some "peer-1";
     netbirdApi.NetworkRouter_PeerGroups := None;
     netbirdApi.NetworkRouter_Metric := 9999;
     netbirdApi.NetworkRouter_Masquerade := true;
     netbirdApi.NetworkRouter_Enabled := true |}.

(** A peer data source configured with the identifier [id] and nothing
    else. *)
Definition peer_data (id : types.String) : PeerDataSourceModel :=
  {| Peer_ID := id;
     Peer_Name := types.StringNull;
     Peer_IP := types.StringNull;
     Peer_ConnectionIP := types.StringNull;
     Peer_Connected := types.BoolNull;
     Peer_LastSeen := types.StringNull;
     Peer_OS := types.StringNull;
     Peer_KernelVersion := types.StringNull;
     Peer_GeonameID := types.Int64Null;
     Peer_Version := types.StringNull;
     Peer_Groups := slice.Nil;
     Peer_SSHEnabled := types.BoolNull;
     Peer_UserID := types.StringNull;
     Peer_Hostname := types.StringNull;
     Peer_UIVersion := types.StringNull;
     Peer_DNSLabel := types.StringNull;
     Peer_LoginExpirationEnabled := types.BoolNull;
     Peer_LoginExpired := types.BoolNull;
     Peer_LastLogin := types.StringNull;
     Peer_InactivityExpirationEnabled := types.BoolNull;
     Peer_ApprovalRequired := types.BoolNull;
     Peer_CountryCode := types.StringNull;
     Peer_CityName := types.StringNull;
     Peer_SerialNumber := types.StringNull;
     Peer_ExtraDNSLabels := slice.Nil;
     Peer_AccessiblePeersCount := types.Int64Null |}.

Definition peers_body : string := "[]".

Definition runtime : Runtime := {|
  server := @server fixture.runtime;
  roundTrip := @roundTrip fixture.runtime;
  NewRequest_error := @NewRequest_error fixture.runtime;
  Marshal_StringMap := @Marshal_StringMap fixture.runtime;
  Marshal_DNSSettings := @Marshal_DNSSettings fixture.runtime;
  Marshal_GroupRequest := @Marshal_GroupRequest fixture.runtime;
  Marshal_NetworkRouterRequest := @Marshal_NetworkRouterRequest fixture.runtime;
  Marshal_NetworkResourceRequest := @Marshal_NetworkResourceRequest fixture.runtime;
  Marshal_NameserverGroupRequest := @Marshal_NameserverGroupRequest fixture.runtime;
  Marshal_PolicyCreate := @Marshal_PolicyCreate fixture.runtime;
  Marshal_PolicyUpdate := @Marshal_PolicyUpdate fixture.runtime;
  Unmarshal_Network := @Unmarshal_Network fixture.runtime;
  Unmarshal_Group := @Unmarshal_Group fixture.runtime;
  Unmarshal_DNSSettings := @Unmarshal_DNSSettings fixture.runtime;
  Unmarshal_NameserverGroup := @Unmarshal_NameserverGroup fixture.runtime;
  Unmarshal_NetworkRouter b :=
    if fixture.reads b router_body then inl router else inr fixture.syntax_error;
  Unmarshal_NetworkResource := @Unmarshal_NetworkResource fixture.runtime;
  Unmarshal_Policy := @Unmarshal_Policy fixture.runtime;
  Unmarshal_PeerBatch := @Unmarshal_PeerBatch fixture.runtime;
  Unmarshal_Object b :=
    if fixture.reads b "{}" then inl ∅ else @Unmarshal_Object fixture.runtime b;
  Unmarshal_Peers b :=
    if fixture.reads b peers_body then inl (slice.Of []) else inr fixture.syntax_error;
  ListValueFrom_strings := @ListValueFrom_strings fixture.runtime;
  ElementsAs_strings := @ElementsAs_strings fixture.runtime;
  Quote s := quotation_mark +:+ s +:+ quotation_mark;
  Time_String := @Time_String fixture.runtime;
|}.

#[local] Existing Instance runtime.

(** A world whose server will give the answers [script]. *)
Definition world (script : list (http.Response + error)) : World :=
  {| remote := script; wire := [] |}.

End second.

(** ** Further vocabulary *)

(** The string an element value stands for in a list of strings. *)
Definition string_of_value (v : types.Value) : string :=
  match v with
  | types.VString s => types.ValueString s
  | _ => ""
  end.

Definition is_string_value (v : types.Value) : bool :=
  match v with
  | types.VString _ => true
  | _ => false
  end.

(** A Go [int] that an [int32] holds without wrapping. *)
Definition in_int32 (n : Z) : Prop := (- 2 ^ 31 ≤ n < 2 ^ 31)%Z.

(** The model rule [rule] holds what the API rule [dataRule] holds,
    field by field. *)
Definition converted_rule (dataRule : netbirdApi.PolicyRule) (rule : PolicyRuleModel)
  : Prop :=
  PolicyRuleModel_ID rule = derefString (netbirdApi.PolicyRule_Id dataRule)
  ∧ PolicyRuleModel_Name rule = types.StringValue (netbirdApi.PolicyRule_Name dataRule)
  ∧ PolicyRuleModel_Description rule
    = derefString (netbirdApi.PolicyRule_Description dataRule)
  ∧ PolicyRuleModel_Enabled rule = types.BoolValue (netbirdApi.PolicyRule_Enabled dataRule)
  ∧ PolicyRuleModel_Action rule = types.StringValue (netbirdApi.PolicyRule_Action dataRule)
  ∧ PolicyRuleModel_Bidirectional rule
    = types.BoolValue (netbirdApi.PolicyRule_Bidirectional dataRule)
  ∧ PolicyRuleModel_Protocol rule
    = types.StringValue (netbirdApi.PolicyRule_Protocol dataRule)
  ∧ PolicyRuleModel_Ports rule
    = fst (convertStringSliceToListValue
             (derefStringSlice (netbirdApi.PolicyRule_Ports dataRule)))
  ∧ PolicyRuleModel_PortRanges rule
    = convertPortRangesToList (netbirdApi.PolicyRule_PortRanges dataRule)
  ∧ PolicyRuleModel_Sources rule
    = fst (convertGroupMinimumToIdList (netbirdApi.PolicyRule_Sources dataRule))
  ∧ PolicyRuleModel_Destinations rule
    = fst (convertGroupMinimumToIdList (netbirdApi.PolicyRule_Destinations dataRule))
  ∧ PolicyRuleModel_SourceResource rule
    = convertResourceModel (netbirdApi.PolicyRule_SourceResource dataRule)
  ∧ PolicyRuleModel_DestinationResource rule
    = convertResourceModel (netbirdApi.PolicyRule_DestinationResource dataRule).

(** Every request that running [op] puts on the wire, from any world,
    satisfies [P]. *)
Definition sends_only `{Runtime} {A} (P : http.Request -> Prop) (op : IO A) : Prop :=
  ∀ w, ∃ es,
    wire (snd (op w)) = wire w ++ es
    ∧ issued w (snd (op w)) = es
    ∧ Forall (fun e => P (sent e)) es.

(** The values of the Authorization header that the tokens of [c] call
    for: the access token if there is one, else the bearer token if there
    is one, else no header. *)
Definition credentials (c : Client) : option (list string) :=
  if decide (AccessToken c ≠ "") then Some ["Token " +:+ AccessToken c]
  else if decide (BearerToken c ≠ "") then Some ["Bearer " +:+ BearerToken c]
  else None.

(** A request to the API behind [c]: its URL lies under the [/api/] of
    the base URL, it carries the credentials of [c], it declares a JSON
    body exactly when it has a body, and it has no other header. *)
Definition api_request (c : Client) (r : http.Request) : Prop :=
  (∃ path, http.URL r = BaseUrl c +:+ "/api/" +:+ path)
  ∧ http.Header r !! "Authorization" = credentials c
  ∧ http.Header r !! "Content-Type" =
    (if slice.is_nil (http.Body r) then None else Some ["application/json"])
  ∧ ∀ key, is_Some (http.Header r !! key) ->
           key = "Authorization" ∨ key = "Content-Type".

(** A request that only reads: a GET without body. *)
Definition is_get (r : http.Request) : Prop :=
  http.Method r = "GET" ∧ http.Body r = slice.Nil.

(** Every operation of the resources and data sources, run through the
    client [c], has the property [P]. *)
Definition every_operation `{Runtime} (c : Client) (P : ∀ A, IO A -> Prop) : Prop :=
  (∀ req, P _ (NetworkResource.Create {| NetworkResource.client := c |} req))
  ∧ (∀ req, P _ (NetworkResource.Read {| NetworkResource.client := c |} req))
  ∧ (∀ req, P _ (NetworkResource.Update {| NetworkResource.client := c |} req))
  ∧ (∀ req, P _ (NetworkResource.Delete {| NetworkResource.client := c |} req))
  ∧ (∀ req, P _ (GroupResource.Create {| GroupResource.client := c |} req))
  ∧ (∀ req, P _ (GroupResource.Read {| GroupResource.client := c |} req))
  ∧ (∀ req, P _ (GroupResource.Update {| GroupResource.client := c |} req))
  ∧ (∀ req, P _ (GroupResource.Delete {| GroupResource.client := c |} req))
  ∧ (∀ req, P _ (PolicyResource.Create {| PolicyResource.client := c |} req))
  ∧ (∀ req, P _ (PolicyResource.Read {| PolicyResource.client := c |} req))
  ∧ (∀ req, P _ (PolicyResource.Update {| PolicyResource.client := c |} req))
  ∧ (∀ req, P _ (PolicyResource.Delete {| PolicyResource.client := c |} req))
  ∧ (∀ req, P _ (NetworkRouterResource.Create {| NetworkRouterResource.client := c |} req))
  ∧ (∀ req, P _ (NetworkRouterResource.Read {| NetworkRouterResource.client := c |} req))
  ∧ (∀ req, P _ (NetworkRouterResource.Update {| NetworkRouterResource.client := c |} req))
  ∧ (∀ req, P _ (NetworkRouterResource.Delete {| NetworkRouterResource.client := c |} req))
  ∧ (∀ req, P _ (NetworkResourceResource.Create
                   {| NetworkResourceResource.client := c |} req))
  ∧ (∀ req, P _ (NetworkResourceResource.Read
                   {| NetworkResourceResource.client := c |} req))
  ∧ (∀ req, P _ (NetworkResourceResource.Update
                   {| NetworkResourceResource.client := c |} req))
  ∧ (∀ req, P _ (NetworkResourceResource.Delete
                   {| NetworkResourceResource.client := c |} req))
  ∧ (∀ req, P _ (SetupKeyResource.Delete {| SetupKeyResource.client := c |} req))
  ∧ (∀ req, P _ (NameserverGroupResource.Create
                   {| NameserverGroupResource.client := c |} req))
  ∧ (∀ req, P _ (NameserverGroupResource.Read
                   {| NameserverGroupResource.client := c |} req))
  ∧ (∀ req, P _ (NameserverGroupResource.Update
                   {| NameserverGroupResource.client := c |} req))
  ∧ (∀ req, P _ (NameserverGroupResource.Delete
                   {| NameserverGroupResource.client := c |} req))
  ∧ (∀ req, P _ (DnsSettingsResource.Create {| DnsSettingsResource.client := c |} req))
  ∧ (∀ req, P _ (DnsSettingsResource.Read {| DnsSettingsResource.client := c |} req))
  ∧ (∀ req, P _ (DnsSettingsResource.Update {| DnsSettingsResource.client := c |} req))
  ∧ (∀ req, P _ (DnsSettingsResource.Delete {| DnsSettingsResource.client := c |} req))
  ∧ (∀ req, P _ (PeersDataSource.Read {| PeersDataSource.client := c |} req))
  ∧ (∀ req, P _ (PeerDataSource.Read {| PeerDataSource.client := c |} req)).

(** Every operation that refreshes a model or answers a data source:
    the read functions of the resources, their Read handlers, and the
    Read of the data sources. *)
Definition every_read `{Runtime} (c : Client) (P : ∀ A, IO A -> Prop) : Prop :=
  (∀ data, P _ (NetworkResource.readIntoModel {| NetworkResource.client := c |} data))
  ∧ (∀ data, P _ (NetworkRouterResource.readIntoModel
                    {| NetworkRouterResource.client := c |} data))
  ∧ (∀ data, P _ (NetworkResourceResource.readIntoModel
                    {| NetworkResourceResource.client := c |} data))
  ∧ (∀ data, P _ (NameserverGroupResource.readNameserverGroupIntoModel
                    {| NameserverGroupResource.client := c |} data))
  ∧ (∀ data, P _ (DnsSettingsResource.readDnsSettingsIntoModel
                    {| DnsSettingsResource.client := c |} data))
  ∧ (∀ req, P _ (NetworkResource.Read {| NetworkResource.client := c |} req))
  ∧ (∀ req, P _ (GroupResource.Read {| GroupResource.client := c |} req))
  ∧ (∀ req, P _ (PolicyResource.Read {| PolicyResource.client := c |} req))
  ∧ (∀ req, P _ (NetworkRouterResource.Read {| NetworkRouterResource.client := c |} req))
  ∧ (∀ req, P _ (NetworkResourceResource.Read
                   {| NetworkResourceResource.client := c |} req))
  ∧ (∀ req, P _ (NameserverGroupResource.Read
                   {| NameserverGroupResource.client := c |} req))
  ∧ (∀ req, P _ (DnsSettingsResource.Read {| DnsSettingsResource.client := c |} req))
  ∧ (∀ req, P _ (PeersDataSource.Read {| PeersDataSource.client := c |} req))
  ∧ (∀ req, P _ (PeerDataSource.Read {| PeerDataSource.client := c |} req)).

(** [op] never answers with an error diagnostic and a changed state at
    once: with an error, the state is as the framework passed it in. *)
Definition keeps_state_on_error `{Runtime} {M} (op : IO (tfsdk.Response M)) : Prop :=
  ∀ w, diag.HasError (tfsdk.Diagnostics (fst (op w))) = true ->
       tfsdk.State_ (fst (op w)) = tfsdk.Untouched.

(** Whenever [op] writes the state, the model it writes has the
    identifier [id]. *)
Definition writes_id `{Runtime} {M} (ID : M -> types.String) (id : types.String)
  (op : IO (tfsdk.Response M)) : Prop :=
  ∀ w data', tfsdk.State_ (fst (op w)) = tfsdk.Written data' -> ID data' = id.

(** A handler's answer that reports an error and leaves the state as the
    framework passed it in. *)
Definition failed {M} (resp : tfsdk.Response M) : Prop :=
  diag.HasError (tfsdk.Diagnostics resp) = true
  ∧ tfsdk.State_ resp = tfsdk.Untouched.

(** [op] stops at a refusal: from any world, when it sends no request at
    all, or when its first request is not answered below 400 with a body
    that can be read, it sends nothing more and its result is a failure
    in the sense of [fails]. *)
Definition stops_at_refusal `{Runtime} {A} (fails : A -> Prop) (op : IO A) : Prop :=
  ∀ w, ∃ es,
    wire (snd (op w)) = wire w ++ es
    ∧ issued w (snd (op w)) = es
    ∧ match es with
      | [] => fails (fst (op w))
      | e :: rest => ¬ answered_ok w e -> rest = [] ∧ fails (fst (op w))
      end.

(** The answer to the first request that [op] sends from [w], when there
    is such a request and an answer to it arrived. *)
Definition first_answer `{Runtime} {A} (op : IO A) (w : World) : option http.Response :=
  match issued w (snd (op w)) with
  | e :: _ =>
      match fst (roundTrip (remote w) (via e) (sent e)) with
      | inl resp => Some resp
      | inr _ => None
      end
  | [] => None
  end.

(** The model a handler's answer writes to the state, if it writes
    one. *)
Definition written {M} (resp : tfsdk.Response M) : option M :=
  match tfsdk.State_ resp with
  | tfsdk.Written data => Some data
  | _ => None
  end.

(** Whenever the result of [op] writes the state (as [view] tells), the
    first request of [op] was answered with a body that [decode]
    decodes, and the model written has the identifier that [id_of] finds
    in the decoded answer. *)
Definition stores_id `{Runtime} {A M R} (view : A -> option M)
  (ID : M -> types.String) (decode : list byte -> R + error)
  (id_of : R -> option types.String) (op : IO A) : Prop :=
  ∀ w data',
    view (fst (op w)) = Some data' ->
    ∃ resp responseData,
      first_answer op w = Some resp
      ∧ decode (http.content (http.RespBody resp)) = inl responseData
      ∧ id_of responseData = Some (ID data').

(** A request whose method is one of [methods]. *)
Definition uses (methods : list string) (r : http.Request) : Prop :=
  http.Method r ∈ methods.

(** * Properties *)

(** ** Slices and diagnostics *)

Lemma collect_from {A B} (f : A -> B) (l : list A) (acc : slice.t B) :
  fold_left (fun acc x => slice.append acc (f x)) l acc =
  match l with
  | [] => acc
  | _ :: _ => slice.Of (slice.elems acc ++ map f l)
  end.
Proof.
  revert acc. induction l as [|x l IH]; intros acc; [reflexivity|].
  cbn [fold_left]. rewrite IH. destruct l as [|y l]; [reflexivity|].
  cbn. by rewrite <- app_assoc.
Qed.

Lemma collect_empty {A B} (f : A -> B) (x : slice.t A) :
  slice.elems x = [] -> slice.collect f x = slice.Nil.
Proof. unfold slice.collect. by intros ->. Qed.

Lemma collect_cons {A B} (f : A -> B) (x : slice.t A) a l :
  slice.elems x = a :: l -> slice.collect f x = slice.Of (map f (a :: l)).
Proof. unfold slice.collect. intros ->. by rewrite collect_from. Qed.

Lemma HasError_app (ds es : diag.Diagnostics) :
  diag.HasError (ds ++ es) = diag.HasError ds || diag.HasError es.
Proof. unfold diag.HasError. apply existsb_app. Qed.

Lemma HasError_elem (ds : diag.Diagnostics) (d : diag.Diagnostic) :
  d ∈ ds -> diag.is_error d = true -> diag.HasError ds = true.
Proof.
  intros Hin Herr. unfold diag.HasError. apply existsb_exists.
  exists d. split; [by apply list_elem_of_In | done].
Qed.

Lemma HasError_AddError (ds : diag.Diagnostics) (s d : string) :
  diag.HasError (diag.AddError ds s d) = true.
Proof.
  unfold diag.AddError, diag.Append, diag.Contains. cbn [fold_left].
  case_bool_decide as Hin.
  - by apply (HasError_elem _ _ Hin).
  - rewrite HasError_app. cbn. by rewrite orb_true_r.
Qed.

Lemma AddError_fresh (ds : diag.Diagnostics) (s d : string) :
  diag.HasError ds = false ->
  diag.AddError ds s d = ds ++ [diag.NewErrorDiagnostic s d].
Proof.
  intros Hno. unfold diag.AddError, diag.Append, diag.Contains. cbn [fold_left].
  case_bool_decide as Hin; [|done].
  by rewrite (HasError_elem _ _ Hin) in Hno.
Qed.

(** ** Lists of strings *)

Lemma ListValue_strings (l : list string) :
  types.ListValue types.StringType
    (slice.Of (map (fun v => types.VString (types.StringValue v)) l)) =
  (types.ListKnown types.StringType
     (map (fun v => types.VString (types.StringValue v)) l), []).
Proof.
  unfold types.ListValue. cbn [slice.elems].
  assert (Hfold : ∀ acc,
    fold_left
      (fun acc v =>
         if decide (types.TypeOf v = types.StringType) then acc
         else diag.AddError acc "Invalid List Element Type"
                "While creating a List value, an invalid element was detected.")
      (map (fun v => types.VString (types.StringValue v)) l) acc = acc).
  { induction l as [|x l IH]; intros acc; [reflexivity|]. cbn. apply IH. }
  by rewrite Hfold.
Qed.

Lemma convertListToStringSlice_elements_strings (l : list string) (acc : slice.t string) :
  convertListToStringSlice_elements
    (map (fun v => types.VString (types.StringValue v)) l) acc =
  (match l with [] => acc | _ :: _ => slice.Of (slice.elems acc ++ l) end, []).
Proof.
  revert acc. induction l as [|x l IH]; intros acc; [reflexivity|].
  cbn [map convertListToStringSlice_elements types.ValueString]. rewrite IH.
  destruct l as [|y l]; [reflexivity|]. cbn. by rewrite <- app_assoc.
Qed.

Lemma convertStringSliceToListValue_empty (s : slice.t string) :
  slice.elems s = [] ->
  convertStringSliceToListValue s = (types.ListNull types.StringType, []).
Proof.
  intros Hs. unfold convertStringSliceToListValue.
  by rewrite (collect_empty _ _ Hs).
Qed.

Lemma convertStringSliceToListValue_cons (s : slice.t string) a l :
  slice.elems s = a :: l ->
  convertStringSliceToListValue s =
  (types.ListKnown types.StringType
     (map (fun v => types.VString (types.StringValue v)) (a :: l)), []).
Proof.
  intros Hs. unfold convertStringSliceToListValue.
  rewrite (collect_cons _ _ _ _ Hs).
  replace (slice.len _ =? 0)%nat with false by reflexivity.
  by rewrite ListValue_strings.
Qed.

(** C9: converting a slice of strings to a list value and back gives
    the same sequence of strings, with no diagnostics on the way; the
    list value is the null list exactly when the slice has no elements;
    and the known empty list comes back as the null list, not as
    itself. *)
Theorem convertStringSlice_roundtrip (s : slice.t string) :
  slice.elems (fst (convertListToStringSlice (fst (convertStringSliceToListValue s))))
    = slice.elems s
  ∧ snd (convertStringSliceToListValue s) = []
  ∧ snd (convertListToStringSlice (fst (convertStringSliceToListValue s))) = []
  ∧ (fst (convertStringSliceToListValue s) = types.ListNull types.StringType
     ↔ slice.elems s = [])
  ∧ fst (convertStringSliceToListValue
           (fst (convertListToStringSlice (types.ListKnown types.StringType []))))
    = types.ListNull types.StringType
  ∧ types.ListNull types.StringType ≠ types.ListKnown types.StringType [].
Proof.
  destruct (slice.elems s) as [|a l] eqn:Hs.
  - rewrite (convertStringSliceToListValue_empty _ Hs). cbn. by repeat split.
  - rewrite (convertStringSliceToListValue_cons _ _ _ Hs).
    cbn [fst snd]. unfold convertListToStringSlice.
    cbn [types.IsNull types.IsUnknown orb types.Elements].
    rewrite convertListToStringSlice_elements_strings.
    cbn. repeat split; intros; discriminate.
Qed.

Lemma HasError_Append (ds new : diag.Diagnostics) :
  diag.HasError (diag.Append ds new) = diag.HasError ds || diag.HasError new.
Proof.
  unfold diag.Append. revert ds.
  induction new as [|d new IH]; intros ds; cbn [fold_left].
  - cbn. by rewrite orb_false_r.
  - rewrite IH. unfold diag.Contains. cbn [diag.HasError existsb].
    case_bool_decide as Hin.
    + destruct (diag.is_error d) eqn:Hd; [|done].
      by rewrite (HasError_elem _ _ Hin Hd).
    + rewrite HasError_app. cbn. rewrite orb_false_r. by rewrite orb_assoc.
Qed.

(** ** Provider configuration *)

(** C3: with a configuration that decodes without error, Configure
    hands the resources and data sources one client whose endpoint,
    bearer token and access token are each the configuration field when
    that is non-empty and the NETBIRD_* variable otherwise, the endpoint
    falling back to https://api.netbird.io when it resolves empty; and
    it adds one error diagnostic when both tokens resolve non-empty or
    both resolve empty, and none otherwise. *)
Theorem Configure_resolves_credentials
  (environ : gmap string string) (data : NetbirdProvider.Model)
  (getDiags : diag.Diagnostics) :
  diag.HasError getDiags = false ->
  let resp :=
    NetbirdProvider.Configure environ {| NetbirdProvider.Config_Get := (data, getDiags) |} in
  let endpoint :=
    NetbirdProvider.resolve_spec (NetbirdProvider.Endpoint data)
      (NetbirdProvider.os_Getenv environ "NETBIRD_ENDPOINT") in
  let bearer :=
    NetbirdProvider.resolve_spec (NetbirdProvider.BearerToken data)
      (NetbirdProvider.os_Getenv environ "NETBIRD_BEARER_TOKEN") in
  let access :=
    NetbirdProvider.resolve_spec (NetbirdProvider.AccessToken data)
      (NetbirdProvider.os_Getenv environ "NETBIRD_ACCESS_TOKEN") in
  let client :=
    NewClient (if decide (endpoint = "") then "https://api.netbird.io" else endpoint)
      bearer access in
  let conflict := (bearer ≠ "" ∧ access ≠ "") ∨ (bearer = "" ∧ access = "") in
  NetbirdProvider.ResourceData resp = Some client
  ∧ NetbirdProvider.DataSourceData resp = Some client
  ∧ (diag.HasError (NetbirdProvider.Diagnostics resp) = true ↔ conflict)
  ∧ (conflict ->
     ∃ d, diag.is_error d = true
          ∧ NetbirdProvider.Diagnostics resp = diag.Append [] getDiags ++ [d])
  ∧ (¬ conflict -> NetbirdProvider.Diagnostics resp = diag.Append [] getDiags).
Proof.
  intros Hget. cbn zeta.
  assert (Hbase : diag.HasError (diag.Append [] getDiags) = false)
    by (by rewrite HasError_Append, Hget).
  unfold NetbirdProvider.Configure. cbn [NetbirdProvider.Config_Get].
  rewrite Hbase. unfold NetbirdProvider.resolve_spec.
  set (e := NetbirdProvider.os_Getenv environ "NETBIRD_ENDPOINT").
  set (b := NetbirdProvider.os_Getenv environ "NETBIRD_BEARER_TOKEN").
  set (a := NetbirdProvider.os_Getenv environ "NETBIRD_ACCESS_TOKEN").
  set (ce := types.ValueString (NetbirdProvider.Endpoint data)).
  set (cb := types.ValueString (NetbirdProvider.BearerToken data)).
  set (ca := types.ValueString (NetbirdProvider.AccessToken data)).
  assert (He : (if decide (ce ≠ "") then ce else e) = (if decide (ce = "") then e else ce))
    by (by repeat case_decide).
  assert (Hb : (if decide (cb ≠ "") then cb else b) = (if decide (cb = "") then b else cb))
    by (by repeat case_decide).
  assert (Ha : (if decide (ca ≠ "") then ca else a) = (if decide (ca = "") then a else ca))
    by (by repeat case_decide).
  rewrite He, Hb, Ha.
  set (bearer := if decide (cb = "") then b else cb).
  set (access := if decide (ca = "") then a else ca).
  cbn [NetbirdProvider.ResourceData NetbirdProvider.DataSourceData
       NetbirdProvider.Diagnostics].
  split; [done|]. split; [done|].
  destruct (decide (bearer = "" ∧ access = "")) as [[Hb0 Ha0]|Hmissing].
  - destruct (decide (bearer ≠ "" ∧ access ≠ "")) as [[Hb1 _]|_]; [done|].
    rewrite (AddError_fresh _ _ _ Hbase).
    split; [|split].
    + rewrite HasError_app. cbn. rewrite orb_true_r. split; [intros _; by right | done].
    + intros _. eexists. split; [|reflexivity]. reflexivity.
    + intros Hn. destruct Hn. by right.
  - destruct (decide (bearer ≠ "" ∧ access ≠ "")) as [[Hb1 Ha1]|Hconflict].
    + rewrite (AddError_fresh _ _ _ Hbase).
      split; [|split].
      * rewrite HasError_app. cbn. rewrite orb_true_r. split; [intros _; by left | done].
      * intros _. eexists. split; [|reflexivity]. reflexivity.
      * intros Hn. destruct Hn. by left.
    + split; [|split].
      * rewrite Hbase. split; [done|]. by intros [?|?].
      * by intros [?|?].
      * done.
Qed.

(** C3, on an example: the configuration names an endpoint and a bearer
    token, the environment an access token and another endpoint. *)
Lemma Configure_resolves_credentials_example :
  let environ : gmap string string :=
    {[ "NETBIRD_ACCESS_TOKEN" := "nbp_env"; "NETBIRD_ENDPOINT" := "https://env.example" ]} in
  let data :=
    {| NetbirdProvider.Endpoint := types.StringValue "https://nb.example";
       NetbirdProvider.BearerToken := types.StringNull;
       NetbirdProvider.AccessToken := types.StringNull |} in
  let resp :=
    NetbirdProvider.Configure environ {| NetbirdProvider.Config_Get := (data, []) |} in
  NetbirdProvider.ResourceData resp = Some (NewClient "https://nb.example" "" "nbp_env")
  ∧ NetbirdProvider.Diagnostics resp = [].
Proof.
  cbn zeta.
  pose proof (Configure_resolves_credentials
    {[ "NETBIRD_ACCESS_TOKEN" := "nbp_env"; "NETBIRD_ENDPOINT" := "https://env.example" ]}
    {| NetbirdProvider.Endpoint := types.StringValue "https://nb.example";
       NetbirdProvider.BearerToken := types.StringNull;
       NetbirdProvider.AccessToken := types.StringNull |}
    [] eq_refl) as (Hclient & _ & _ & _ & Hquiet).
  split.
  - exact Hclient.
  - apply Hquiet. vm_compute. intros [[H _]|[_ H]]; [by apply H | discriminate H].
Defined.

(** ** Policy rules *)

Lemma convertToRulesUpdateApiModel_at_most_one (modelRules : option (slice.t PolicyRuleModel)) :
  (slice.len (fst (convertToRulesUpdateApiModel modelRules)) ≤ 1)%nat.
Proof.
  unfold convertToRulesUpdateApiModel.
  destruct modelRules as [rules|]; [|cbn; lia].
  destruct (slice.elems rules) as [|modelRule rest]; [cbn; lia|].
  unfold convertToRulesUpdateApiModel_body.
  repeat match goal with
         | |- context [let '(_, _) := ?x in _] => destruct x
         | |- context [if ?b then _ else _] => destruct b
         end; cbn; lia.
Qed.

(** C4, at two rules of which the first has a destination resource and
    no source resource: the conversion returns a single API rule, the one
    for the first model rule, and its destination resource is the
    converted source resource (nil) where the model has the host
    res-1. *)
Lemma convertToRulesUpdateApiModel_two_rules :
  slice.len fixture.two_rules = 2%nat
  ∧ convertToRulesUpdateApiModel (Some fixture.two_rules) =
    (slice.Of
       [{| netbirdApi.Rule_Name := "web";
           netbirdApi.Rule_Description := None;
           netbirdApi.Rule_Enabled := true;
           netbirdApi.Rule_Action := "accept";
           netbirdApi.Rule_Bidirectional := true;
           netbirdApi.Rule_Protocol := "tcp";
           netbirdApi.Rule_Ports := Some (slice.Of []);
           netbirdApi.Rule_PortRanges := Some slice.Nil;
           netbirdApi.Rule_Sources := Some (slice.Of ["g-1"]);
           netbirdApi.Rule_SourceResource := None;
           netbirdApi.Rule_Destinations := Some (slice.Of []);
           netbirdApi.Rule_DestinationResource := None |}],
     [])
  ∧ fst (convertToRulesResourcesApiModel (Some fixture.host)) =
    Some {| netbirdApi.Resource_Id := "res-1"; netbirdApi.Resource_Type := "host" |}.
Proof. by vm_compute. Qed.

(** ** Null and empty strings *)

Lemma nullStringToEmptyString_empty (input : types.String) :
  types.ValueString input = "" -> nullStringToEmptyString input = types.StringNull.
Proof. intros Hempty. unfold nullStringToEmptyString. by case_decide. Qed.

Lemma nullStringToEmptyString_other (input : types.String) :
  types.ValueString input ≠ "" -> nullStringToEmptyString input = input.
Proof. intros Hother. unfold nullStringToEmptyString. by case_decide. Qed.

(** ** The client *)

Section client.
Context `{Runtime}.

Lemma issued_app (w : World) (remote' : server) (es : list Exchange) :
  issued w {| remote := remote'; wire := wire w ++ es |} = es.
Proof. unfold issued. cbn. by rewrite drop_app_length. Qed.

(** What one [doRequest] does: it puts exactly one request on the wire,
    through the client's own [http.Client], and its result is read off
    the answer to that request. *)
Lemma doRequest_run (s : Client) (req : http.Request) (w : World) :
  ∃ e,
    via e = httpClient s
    ∧ http.Method (sent e) = http.Method req
    ∧ http.URL (sent e) = http.URL req
    ∧ http.Body (sent e) = http.Body req
    ∧ http.Header (sent e) =
      (let h :=
         if decide (BearerToken s ≠ "")
         then <["Authorization" := ["Bearer " +:+ BearerToken s]]> (http.Header req)
         else http.Header req in
       if decide (AccessToken s ≠ "")
       then <["Authorization" := ["Token " +:+ AccessToken s]]> h
       else h)
    ∧ snd (doRequest s req w) =
      {| remote := snd (roundTrip (remote w) (via e) (sent e)); wire := wire w ++ [e] |}
    ∧ fst (doRequest s req w) =
      match fst (roundTrip (remote w) (via e) (sent e)) with
      | inr err => (slice.Nil, Some err)
      | inl resp =>
          match http.readErr (http.RespBody resp) with
          | Some err => (slice.Nil, Some err)
          | None =>
              if (400 <=? http.StatusCode resp)%Z
              then (slice.Nil,
                    Some (string_of_list_byte (http.content (http.RespBody resp))))
              else (slice.Of (http.content (http.RespBody resp)), None)
          end
      end.
Proof.
  unfold doRequest.
  set (req1 := if decide (BearerToken s ≠ "") then _ else req).
  set (req2 := if decide (AccessToken s ≠ "") then _ else req1).
  exists {| via := httpClient s; sent := req2 |}.
  cbn [via sent].
  assert (Hshape : http.Method req2 = http.Method req ∧ http.URL req2 = http.URL req
                   ∧ http.Body req2 = http.Body req).
  { subst req2 req1. by repeat case_decide. }
  destruct Hshape as (HM & HU & HB).
  split; [done|]. split; [done|]. split; [done|]. split; [done|].
  split.
  { subst req2 req1. by repeat case_decide. }
  unfold mbind, IO_bind, http_Client_Do.
  destruct (roundTrip (remote w) (httpClient s) req2) as [[resp|err] srv']; cbn.
  - unfold io_ReadAll.
    destruct (http.readErr (http.RespBody resp)); cbn; [done|].
    by destruct (400 <=? http.StatusCode resp)%Z.
  - done.
Qed.

Lemma doRequest_issued (s : Client) (req : http.Request) (w : World) :
  ∃ e, issued w (snd (doRequest s req w)) = [e]
       ∧ wire (snd (doRequest s req w)) = wire w ++ [e]
       ∧ via e = httpClient s
       ∧ http.Method (sent e) = http.Method req
       ∧ http.URL (sent e) = http.URL req
       ∧ http.Body (sent e) = http.Body req
       ∧ (answered_ok w e ↔ snd (fst (doRequest s req w)) = None).
Proof.
  destruct (doRequest_run s req w) as (e & Hvia & HM & HU & HB & _ & Hw & Hres).
  exists e. rewrite Hw, Hres, issued_app. cbn [wire].
  repeat (split; [done|]).
  unfold answered_ok.
  destruct (fst (roundTrip (remote w) (via e) (sent e))) as [resp|err]; [|done].
  destruct (http.readErr (http.RespBody resp)); cbn; [by intuition|].
  destruct (Z.leb_spec 400 (http.StatusCode resp)); cbn; split; try done;
    first [ intros [_ ?]; lia | intros _; split; [done | lia] ].
Qed.

End client.

(** C1: when the request is answered and the body can be read,
    doRequest fails exactly when the status is 400 or more; the error
    message is then the body text and the returned slice is nil; below
    400 (2xx, but also 1xx and 3xx) it returns the body and no error. *)
Theorem doRequest_fails_from_400 `{Runtime}
  (s : Client) (req : http.Request) (w : World) (e : Exchange) (resp : http.Response) :
  issued w (snd (doRequest s req w)) = [e] ->
  fst (roundTrip (remote w) (via e) (sent e)) = inl resp ->
  http.readErr (http.RespBody resp) = None ->
  let body := http.content (http.RespBody resp) in
  let res := fst (doRequest s req w) in
  (is_Some (snd res) ↔ (400 ≤ http.StatusCode resp)%Z)
  ∧ ((400 ≤ http.StatusCode resp)%Z -> res = (slice.Nil, Some (string_of_list_byte body)))
  ∧ ((http.StatusCode resp < 400)%Z -> res = (slice.Of body, None)).
Proof.
  intros Hissued Hresp Hread. cbn zeta.
  destruct (doRequest_run s req w) as (e' & _ & _ & _ & _ & _ & Hw & Hres).
  rewrite Hw, issued_app in Hissued. injection Hissued as ->.
  rewrite Hres, Hresp, Hread.
  destruct (Z.leb_spec 400 (http.StatusCode resp)) as [Hge|Hlt]; cbn.
  - split; [split; [done | by eexists]|]. split; [done | lia].
  - split; [split; [by intros [? ?] | lia]|]. split; [lia | done].
Qed.

(** C1, on an example: an answer 200 with body pong comes back as the
    body, without error. *)
Lemma doRequest_fails_from_400_example :
  fst (doRequest (H := fixture.runtime) fixture.client
         (fixture.get "https://api.netbird.io/api/peers")
         (fixture.world [fixture.answer 200 "pong"]))
  = (slice.Of (fixture.bytes "pong"), None).
Proof.
  refine (proj2 (proj2 (doRequest_fails_from_400 (H := fixture.runtime)
    fixture.client (fixture.get "https://api.netbird.io/api/peers")
    (fixture.world [fixture.answer 200 "pong"])
    {| via := httpClient fixture.client;
       sent := http.Request_Header_Set (fixture.get "https://api.netbird.io/api/peers")
                 "Authorization" "Token nbp_token" |}
    {| http.StatusCode := 200;
       http.RespBody := {| http.content := fixture.bytes "pong"; http.readErr := None |} |}
    _ _ _)) _).
  - by vm_compute.
  - reflexivity.
  - reflexivity.
  - cbn. lia.
Defined.

(** C1 as stated fails at a 304 answer: the status is not 2xx, and
    doRequest returns the body with no error. *)
Lemma doRequest_304_returns_body :
  let res :=
    fst (doRequest (H := fixture.runtime) fixture.client
           (fixture.get "https://api.netbird.io/api/networks/net-1")
           (fixture.world [fixture.answer 304 "not modified"])) in
  res = (slice.Of (fixture.bytes "not modified"), None)
  ∧ ¬ (is_2xx 304 = false -> is_Some (snd res)).
Proof.
  split; [by vm_compute|].
  intros Hfails. destruct (Hfails eq_refl) as [err Herr]. by vm_compute in Herr.
Qed.

(** C8: doRequest sends the request with exactly one Authorization value
    whenever a token is configured: Bearer and the bearer token when only
    that is non-empty, Token and the access token when the access token
    is non-empty (also when both are: the access token replaces the
    bearer header); with no token the headers go out as they came, and
    no other header is ever changed. *)
Theorem doRequest_authorization `{Runtime} (s : Client) (req : http.Request) (w : World) :
  ∃ e, issued w (snd (doRequest s req w)) = [e]
    ∧ (BearerToken s ≠ "" -> AccessToken s = "" ->
       http.Header (sent e) !! "Authorization" = Some ["Bearer " +:+ BearerToken s])
    ∧ (AccessToken s ≠ "" ->
       http.Header (sent e) !! "Authorization" = Some ["Token " +:+ AccessToken s])
    ∧ (BearerToken s = "" -> AccessToken s = "" -> http.Header (sent e) = http.Header req)
    ∧ (BearerToken s ≠ "" ∨ AccessToken s ≠ "" ->
       ∃ v, http.Header (sent e) !! "Authorization" = Some [v])
    ∧ (∀ key, key ≠ "Authorization" ->
       http.Header (sent e) !! key = http.Header req !! key).
Proof.
  destruct (doRequest_run s req w) as (e & _ & _ & _ & _ & Hh & Hw & _).
  exists e. rewrite Hw, issued_app. split; [done|].
  rewrite Hh. cbn zeta.
  destruct (decide (BearerToken s ≠ "")) as [Hb|Hb];
    destruct (decide (AccessToken s ≠ "")) as [Ha|Ha];
    repeat split; intros; simplify_map_eq; try done; try by eexists.
  all: by destruct_or!.
Qed.

(** C8, on an example: with both tokens configured the request goes out
    with the access token alone. *)
Lemma doRequest_authorization_example :
  ∃ e, issued (fixture.world []) 
         (snd (doRequest (H := fixture.runtime) (NewClient "https://nb.example" "jwt" "pat")
                 (fixture.get "https://nb.example/api/groups") (fixture.world []))) = [e]
       ∧ http.Header (sent e) !! "Authorization" = Some ["Token pat"].
Proof.
  destruct (doRequest_authorization (H := fixture.runtime)
              (NewClient "https://nb.example" "jwt" "pat")
              (fixture.get "https://nb.example/api/groups") (fixture.world []))
    as (e & Hissued & _ & Haccess & _).
  exists e. split; [exact Hissued|]. apply Haccess. discriminate.
Defined.

(** ** Reading a network *)

Section network.
Context `{Runtime}.

(** The identifier survives every [readIntoModel]: [doRequest] returns a
    nil body only together with an error, so the branch that clears the
    identifier is never taken. *)
Lemma NetworkResource_readIntoModel_keeps_ID
  (r : NetworkResource.t) (data : NetworkResource.Model) (w : World) :
  NetworkResource.ID (fst (fst (NetworkResource.readIntoModel r data w)))
  = NetworkResource.ID data.
Proof.
  unfold NetworkResource.readIntoModel.
  destruct (http_NewRequest _ _ _) as [httpReq|err]; [|done].
  unfold mbind, IO_bind.
  destruct (doRequest_run (NetworkResource.client r) httpReq w)
    as (e & _ & _ & _ & _ & _ & _ & Hres).
  destruct (doRequest (NetworkResource.client r) httpReq w) as [res w'].
  cbn [fst] in Hres. subst res.
  destruct (fst (roundTrip (remote w) (via e) (sent e))) as [resp|err]; [|done].
  destruct (http.readErr (http.RespBody resp)); [done|].
  destruct (400 <=? http.StatusCode resp)%Z; [done|].
  cbn [slice.is_nil slice.elems].
  destruct (Unmarshal_Network _) as [responseData|err]; [|done].
  by repeat match goal with
            | |- context [let '(_, _) := ?x in _] => destruct x
            end.
Qed.

(** C6: when the network is fetched and decoded, readIntoModel leaves
    the local description as it is if the response has no description,
    or an empty one, and the local value is empty; and it sets the local
    description to the response's description when that is non-empty. *)
Theorem readIntoModel_description
  (r : NetworkResource.t) (data : NetworkResource.Model) (w w' : World)
  (httpReq : http.Request) (body : list byte) (responseData : netbirdApi.Network) :
  http_NewRequest "GET"
    (BaseUrl (NetworkResource.client r) +:+ "/api/networks/"
     +:+ types.ValueString (NetworkResource.ID data)) slice.Nil = inl httpReq ->
  doRequest (NetworkResource.client r) httpReq w = ((slice.Of body, None), w') ->
  Unmarshal_Network body = inl responseData ->
  let data' := fst (fst (NetworkResource.readIntoModel r data w)) in
  ((netbirdApi.Network_Description responseData = None
    ∨ netbirdApi.Network_Description responseData = Some "") ->
   types.ValueString (NetworkResource.Description data) = "" ->
   NetworkResource.Description data' = NetworkResource.Description data)
  ∧ (∀ d, netbirdApi.Network_Description responseData = Some d -> d ≠ "" ->
     NetworkResource.Description data' = types.StringValue d).
Proof.
  intros Hnew Hdo Hjson. cbn zeta.
  unfold NetworkResource.readIntoModel. rewrite Hnew.
  unfold mbind, IO_bind. rewrite Hdo.
  cbn [slice.is_nil slice.elems]. rewrite Hjson.
  repeat match goal with
         | |- context [let '(_, _) := ListValueFrom_strings ?x in _] =>
             destruct (ListValueFrom_strings x)
         end.
  cbn [fst NetworkResource.Description mret IO_ret].
  split.
  - intros [Hd|Hd] Hlocal; rewrite Hd; cbn [orb].
    + by case_bool_decide.
    + rewrite (bool_decide_eq_false_2 ("" ≠ "")) by (by intros []).
      by case_bool_decide.
  - intros desc Hd Hne. rewrite Hd.
    by rewrite (bool_decide_eq_true_2 (desc ≠ "")).
Qed.

End network.

(** C6, on an example: the local description is null and the response
    carries HQ. *)
Lemma readIntoModel_description_example :
  NetworkResource.Description
    (fst (fst (NetworkResource.readIntoModel (H := fixture.runtime)
                 {| NetworkResource.client := fixture.client |} fixture.network_data
                 (fixture.world [fixture.answer 200 fixture.described_body]))))
  = types.StringValue "HQ".
Proof.
  refine (proj2 (readIntoModel_description (H := fixture.runtime)
    {| NetworkResource.client := fixture.client |} fixture.network_data
    (fixture.world [fixture.answer 200 fixture.described_body]) _ _
    (fixture.bytes fixture.described_body) fixture.described _ _ _) "HQ" _ _).
  - reflexivity.
  - by vm_compute.
  - by vm_compute.
  - reflexivity.
  - discriminate.
Defined.

(** C2, at a 404 answer to the GET (the remote record is absent):
    readIntoModel reports the error diagnostic "Error fetching network"
    with the body as its detail and leaves the model, identifier
    included, as it was, and Read returns with that error and does not
    write the state; the Read of a group, policy, router, network
    resource, nameserver group and of the DNS settings end in an error
    diagnostic in the same way. *)
Lemma readIntoModel_404_is_an_error :
  let w := fixture.world [fixture.answer 404 "not found"] in
  let failed summary := [diag.NewErrorDiagnostic summary "not found"] in
  fst (NetworkResource.readIntoModel (H := fixture.runtime)
         {| NetworkResource.client := fixture.client |} fixture.network_data w)
  = (fixture.network_data, failed "Error fetching network")
  ∧ fst (NetworkResource.Read (H := fixture.runtime)
           {| NetworkResource.client := fixture.client |}
           (fixture.decoded fixture.network_data) w)
    = tfsdk.stop (failed "Error fetching network")
  ∧ fst (GroupResource.Read (H := fixture.runtime)
           {| GroupResource.client := fixture.client |}
           (fixture.decoded fixture.group_data) w)
    = tfsdk.stop (failed "Error fetching group")
  ∧ fst (PolicyResource.Read (H := fixture.runtime)
           {| PolicyResource.client := fixture.client |}
           (fixture.decoded fixture.policy_data) w)
    = tfsdk.stop (failed "Error fetching policy")
  ∧ fst (NetworkRouterResource.readIntoModel (H := fixture.runtime)
           {| NetworkRouterResource.client := fixture.client |}
           (Some fixture.router_data) w)
    = (Some fixture.router_data, failed "Error fetching network")
  ∧ fst (NetworkResourceResource.readIntoModel (H := fixture.runtime)
           {| NetworkResourceResource.client := fixture.client |}
           (Some fixture.resource_data) w)
    = (Some fixture.resource_data, failed "Error fetching network")
  ∧ fst (NameserverGroupResource.readNameserverGroupIntoModel (H := fixture.runtime)
           {| NameserverGroupResource.client := fixture.client |}
           (Some fixture.nsgroup_data) w)
    = (Some fixture.nsgroup_data, failed "Error fetching network")
  ∧ fst (DnsSettingsResource.readDnsSettingsIntoModel (H := fixture.runtime)
           {| DnsSettingsResource.client := fixture.client |} fixture.dns_data w)
    = (fixture.dns_data, failed "Error fetching network").
Proof. cbn zeta. repeat split; by vm_compute. Qed.

(** ** Reading a nameserver group *)

Lemma convertStringSliceToListValue_quiet (s : slice.t string) :
  snd (convertStringSliceToListValue s) = [].
Proof.
  destruct (slice.elems s) as [|a l] eqn:Hs.
  - by rewrite (convertStringSliceToListValue_empty _ Hs).
  - by rewrite (convertStringSliceToListValue_cons _ _ _ Hs).
Qed.

(** A nameserver group that is fetched and decoded is read without
    diagnostics, and its description goes through
    [nullStringToEmptyString]. *)
Lemma readNameserverGroupIntoModel_fetched `{Runtime}
  (r : NameserverGroupResource.t) (data : NameserverGroupResource.Model)
  (w w' : World) (httpReq : http.Request) (body : list byte)
  (responseData : netbirdApi.NameserverGroup) :
  http_NewRequest "GET"
    (BaseUrl (NameserverGroupResource.client r) +:+ "/api/dns/nameservers/"
     +:+ types.ValueString (NameserverGroupResource.ID data)) slice.Nil
  = inl httpReq ->
  doRequest (NameserverGroupResource.client r) httpReq w = ((slice.Of body, None), w') ->
  Unmarshal_NameserverGroup body = inl responseData ->
  ∃ data',
    NameserverGroupResource.readNameserverGroupIntoModel r (Some data) w
    = ((Some data', []), w')
    ∧ NameserverGroupResource.Description data'
      = nullStringToEmptyString
          (types.StringValue (netbirdApi.NameserverGroup_Description responseData)).
Proof.
  intros Hnew Hdo Hjson.
  unfold NameserverGroupResource.readNameserverGroupIntoModel. rewrite Hnew.
  unfold mbind, IO_bind. rewrite Hdo.
  cbn [slice.is_nil slice.elems]. rewrite Hjson.
  pose proof (convertStringSliceToListValue_quiet
                (netbirdApi.NameserverGroup_Groups responseData)) as Hgroups.
  destruct (convertStringSliceToListValue
              (netbirdApi.NameserverGroup_Groups responseData)) as [peerGroups dg].
  cbn [snd] in Hgroups. subst dg. cbn [diag.HasError existsb].
  pose proof (convertStringSliceToListValue_quiet
                (netbirdApi.NameserverGroup_Domains responseData)) as Hdomains.
  destruct (convertStringSliceToListValue
              (netbirdApi.NameserverGroup_Domains responseData)) as [domains dd].
  cbn [snd] in Hdomains. subst dd. cbn [diag.HasError existsb].
  eexists. split; reflexivity.
Qed.

(** C10: nullStringToEmptyString sends every value whose string is
    empty (the null and the unknown string, and the known empty string)
    to the null string and returns any other value as it is; so a
    nameserver group that is fetched and decoded with an empty
    description comes out of readNameserverGroupIntoModel with a null
    description, and Read writes that model to the state. *)
Theorem nullStringToEmptyString_nulls_empty :
  (∀ input, types.ValueString input = "" ->
     nullStringToEmptyString input = types.StringNull)
  ∧ (∀ input, types.ValueString input ≠ "" -> nullStringToEmptyString input = input)
  ∧ (∀ (H : Runtime) (r : NameserverGroupResource.t) (data : NameserverGroupResource.Model)
       (ds : diag.Diagnostics) (w w' : World) (httpReq : http.Request) (body : list byte)
       (responseData : netbirdApi.NameserverGroup),
       diag.HasError ds = false ->
       http_NewRequest "GET"
         (BaseUrl (NameserverGroupResource.client r) +:+ "/api/dns/nameservers/"
          +:+ types.ValueString (NameserverGroupResource.ID data)) slice.Nil
       = inl httpReq ->
       doRequest (NameserverGroupResource.client r) httpReq w
       = ((slice.Of body, None), w') ->
       Unmarshal_NameserverGroup body = inl responseData ->
       netbirdApi.NameserverGroup_Description responseData = "" ->
       ∃ data',
         fst (fst (NameserverGroupResource.readNameserverGroupIntoModel r (Some data) w))
         = Some data'
         ∧ NameserverGroupResource.Description data' = types.StringNull
         ∧ tfsdk.State_
             (fst (NameserverGroupResource.Read r {| tfsdk.Get := (data, ds) |} w))
           = tfsdk.Written data').
Proof.
  split; [exact nullStringToEmptyString_empty|].
  split; [exact nullStringToEmptyString_other|].
  intros H r data ds w w' httpReq body responseData Hquiet Hnew Hdo Hjson Hdesc.
  destruct (readNameserverGroupIntoModel_fetched r data w w' httpReq body responseData
              Hnew Hdo Hjson) as (data' & Hread & Hdescription).
  exists data'. rewrite Hread. split; [done|]. split.
  - rewrite Hdescription, Hdesc. reflexivity.
  - unfold NameserverGroupResource.Read. cbn [tfsdk.Get].
    rewrite HasError_Append, Hquiet. cbn [diag.HasError existsb orb].
    unfold mbind, IO_bind. rewrite Hread.
    rewrite HasError_Append, HasError_Append, Hquiet. reflexivity.
Qed.

(** C10, on an example: the stored description was the known empty
    string, the API answers with an empty description, and the model
    that Read writes to the state has a null description. *)
Lemma nullStringToEmptyString_nulls_empty_example :
  let r := {| NameserverGroupResource.client := fixture.client |} in
  let w := fixture.world [fixture.answer 200 fixture.nsgroup_body] in
  ∃ data',
    fst (fst (NameserverGroupResource.readNameserverGroupIntoModel (H := fixture.runtime)
                r (Some fixture.nsgroup_data) w))
    = Some data'
    ∧ NameserverGroupResource.Description data' = types.StringNull
    ∧ tfsdk.State_
        (fst (NameserverGroupResource.Read (H := fixture.runtime) r
                (fixture.decoded fixture.nsgroup_data) w))
      = tfsdk.Written data'.
Proof.
  refine (proj2 (proj2 nullStringToEmptyString_nulls_empty) fixture.runtime
    {| NameserverGroupResource.client := fixture.client |} fixture.nsgroup_data []
    (fixture.world [fixture.answer 200 fixture.nsgroup_body]) _ _
    (fixture.bytes fixture.nsgroup_body) fixture.nsgroup _ _ _ _ _).
  - reflexivity.
  - reflexivity.
  - by vm_compute.
  - by vm_compute.
  - reflexivity.
Defined.

(** ** Counting the requests of an operation *)

Section through.
Context `{Runtime}.

Lemma through_ret {A} (c : Client) (n : nat) (a : A) : calls_through c n (mret a).
Proof.
  intros w. exists []. cbn. unfold issued.
  rewrite app_nil_r, drop_all. repeat split; [lia | constructor].
Qed.

Lemma through_doRequest (c : Client) (n : nat) (req : http.Request) :
  calls_through c (S n) (doRequest c req).
Proof.
  intros w. destruct (doRequest_issued c req w) as (e & Hi & Hw & Hvia & _).
  exists [e]. repeat split; [done | done | cbn; lia | by repeat constructor].
Qed.

Lemma through_bind {A B} (c : Client) (n k : nat) (m : IO A) (f : A -> IO B) :
  calls_through c n m ->
  (∀ a, calls_through c k (f a)) ->
  calls_through c (n + k) (m ≫= f).
Proof.
  intros Hm Hf w. unfold mbind, IO_bind.
  destruct (Hm w) as (es1 & Hw1 & _ & Hn & Hvia1).
  destruct (m w) as [a w1]. cbn [snd] in Hw1.
  destruct (Hf a w1) as (es2 & Hw2 & _ & Hk & Hvia2).
  exists (es1 ++ es2). unfold issued.
  rewrite Hw2, Hw1, <- app_assoc, drop_app_length, length_app.
  repeat split; [lia | by apply Forall_app].
Qed.

End through.

(** Walks a handler: pure branching is split into its cases, a [return]
    issues nothing, a [doRequest] issues one request, and an operation
    named by [sub] is charged what its own lemma says. *)
Ltac through_with sub :=
  repeat first
    [ apply through_ret
    | apply through_doRequest
    | match goal with
      | |- calls_through _ (S ?k) (mbind _ (doRequest _ _)) =>
          apply (through_bind _ 1 k); [apply through_doRequest | intros]
      | |- calls_through _ (S ?k) (mbind _ _) =>
          apply (through_bind _ 1 k); [solve [sub] | intros]
      | |- calls_through _ _ (match ?x with _ => _ end) => destruct x
      end ].

Section operations.
Context `{Runtime}.

Lemma NetworkResource_readIntoModel_through (c : Client) (data : NetworkResource.Model) :
  calls_through c 1
    (NetworkResource.readIntoModel {| NetworkResource.client := c |} data).
Proof.
  unfold NetworkResource.readIntoModel. cbn [NetworkResource.client].
  through_with fail.
Qed.

Lemma readNameserverGroupIntoModel_through
  (c : Client) (data : option NameserverGroupResource.Model) :
  calls_through c 1
    (NameserverGroupResource.readNameserverGroupIntoModel
       {| NameserverGroupResource.client := c |} data).
Proof.
  unfold NameserverGroupResource.readNameserverGroupIntoModel.
  cbn [NameserverGroupResource.client]. through_with fail.
Qed.

Lemma updateDnsSettings_through (c : Client) (data : DnsSettingsResource.Model) :
  calls_through c 1
    (DnsSettingsResource.updateDnsSettings {| DnsSettingsResource.client := c |} data).
Proof.
  unfold DnsSettingsResource.updateDnsSettings. cbn [DnsSettingsResource.client].
  through_with fail.
Qed.

Lemma readDnsSettingsIntoModel_through (c : Client) (data : DnsSettingsResource.Model) :
  calls_through c 1
    (DnsSettingsResource.readDnsSettingsIntoModel
       {| DnsSettingsResource.client := c |} data).
Proof.
  unfold DnsSettingsResource.readDnsSettingsIntoModel.
  cbn [DnsSettingsResource.client]. through_with fail.
Qed.

Lemma NetworkRouterResource_readIntoModel_through
  (c : Client) (data : option NetworkRouterResource.Model) :
  calls_through c 1
    (NetworkRouterResource.readIntoModel {| NetworkRouterResource.client := c |} data).
Proof.
  unfold NetworkRouterResource.readIntoModel. cbn [NetworkRouterResource.client].
  through_with fail.
Qed.

Lemma NetworkResourceResource_readIntoModel_through
  (c : Client) (data : option NetworkResourceResource.Model) :
  calls_through c 1
    (NetworkResourceResource.readIntoModel
       {| NetworkResourceResource.client := c |} data).
Proof.
  unfold NetworkResourceResource.readIntoModel. cbn [NetworkResourceResource.client].
  through_with fail.
Qed.

End operations.

(** ** Delete *)

Section delete.
Context `{Runtime}.

(** The tail every Delete handler ends in: send the request, report the
    error, or remove the resource from the state. *)
Lemma delete_tail {M} (c : Client) (req : http.Request)
  (respDiags : diag.Diagnostics) (summary : string) (w : World) :
  diag.HasError respDiags = false ->
  let op : IO (tfsdk.Response M) :=
    res ← doRequest c req;
    match res with
    | (_, Some err) => mret (tfsdk.stop (diag.AddError respDiags summary err))
    | (_, None) =>
        mret {| tfsdk.Diagnostics := respDiags; tfsdk.State_ := tfsdk.Removed |}
    end in
  ∃ e,
    issued w (snd (op w)) = [e]
    ∧ via e = httpClient c
    ∧ http.Method (sent e) = http.Method req
    ∧ http.URL (sent e) = http.URL req
    ∧ (answered_ok w e ->
       tfsdk.State_ (fst (op w)) = tfsdk.Removed
       ∧ diag.HasError (tfsdk.Diagnostics (fst (op w))) = false)
    ∧ (¬ answered_ok w e ->
       tfsdk.State_ (fst (op w)) = tfsdk.Untouched
       ∧ diag.HasError (tfsdk.Diagnostics (fst (op w))) = true).
Proof.
  intros Hquiet. cbn zeta. unfold mbind, IO_bind.
  destruct (doRequest_issued c req w) as (e & Hi & _ & Hvia & HM & HU & _ & Hok).
  exists e. destruct (doRequest c req w) as [[body [err|]] w'];
    cbn [fst snd mret IO_ret tfsdk.State_ tfsdk.Diagnostics tfsdk.stop] in *.
  - do 4 (split; [done|]). split.
    + intros Hyes. apply Hok in Hyes. discriminate.
    + intros _. split; [done|]. apply HasError_AddError.
  - do 4 (split; [done|]). split; [done|].
    intros Hno. destruct Hno. by apply Hok.
Qed.

End delete.

(** Brings a Delete handler, unfolded, to its tail. *)
Ltac delete_handler Hquiet :=
  let Hnew := fresh "Hnew" in
  let w := fresh "w" in
  intros Hnew w;
  cbn [tfsdk.Get];
  rewrite HasError_Append, Hquiet; cbn [diag.HasError existsb orb];
  unfold http_NewRequest; rewrite Hnew;
  apply delete_tail;
  by rewrite HasError_Append, Hquiet.

(** C5: for a prior state that decodes without error and a URL that
    http.NewRequest accepts, the Delete of a network, group, policy,
    router, network resource and nameserver group issues exactly one
    request, a DELETE to the entity's URL keyed by its identifier; the
    Delete of the DNS settings issues exactly one request too, a PUT to
    /api/dns/settings whose body is the encoding of an empty list of
    disabled management groups.  In each case the
    resource is removed from the state when the request is answered
    below 400, and otherwise an error diagnostic is reported and the
    state is left alone. *)
Theorem Delete_issues_one_request `{Runtime} (c : Client) :
  (∀ data ds, diag.HasError ds = false ->
     deletes_by c "DELETE"
       (BaseUrl c +:+ "/api/networks/" +:+ types.ValueString (NetworkResource.ID data))
       (NetworkResource.Delete {| NetworkResource.client := c |}
          {| tfsdk.Get := (data, ds) |}))
  ∧ (∀ data ds, diag.HasError ds = false ->
     deletes_by c "DELETE"
       (BaseUrl c +:+ "/api/groups/" +:+ types.ValueString (GroupResource.ID data))
       (GroupResource.Delete {| GroupResource.client := c |}
          {| tfsdk.Get := (data, ds) |}))
  ∧ (∀ data ds, diag.HasError ds = false ->
     deletes_by c "DELETE"
       (BaseUrl c +:+ "/api/policies/" +:+ types.ValueString (PolicyResource.ID data))
       (PolicyResource.Delete {| PolicyResource.client := c |}
          {| tfsdk.Get := (data, ds) |}))
  ∧ (∀ data ds, diag.HasError ds = false ->
     deletes_by c "DELETE"
       (BaseUrl c +:+ "/api/networks/"
        +:+ types.ValueString (NetworkRouterResource.NetworkId data)
        +:+ "/routers/" +:+ types.ValueString (NetworkRouterResource.ID data))
       (NetworkRouterResource.Delete {| NetworkRouterResource.client := c |}
          {| tfsdk.Get := (data, ds) |}))
  ∧ (∀ data ds, diag.HasError ds = false ->
     deletes_by c "DELETE"
       (BaseUrl c +:+ "/api/networks/"
        +:+ types.ValueString (NetworkResourceResource.NetworkId data)
        +:+ "/resources/" +:+ types.ValueString (NetworkResourceResource.ID data))
       (NetworkResourceResource.Delete {| NetworkResourceResource.client := c |}
          {| tfsdk.Get := (data, ds) |}))
  ∧ (∀ data ds, diag.HasError ds = false ->
     deletes_by c "DELETE"
       (BaseUrl c +:+ "/api/dns/nameservers/"
        +:+ types.ValueString (NameserverGroupResource.ID data))
       (NameserverGroupResource.Delete {| NameserverGroupResource.client := c |}
          {| tfsdk.Get := (data, ds) |}))
  ∧ (∀ data ds body, diag.HasError ds = false ->
     Marshal_DNSSettings {| netbirdApi.DisabledManagementGroups := slice.Of [] |}
     = inl body ->
     let op :=
       DnsSettingsResource.Delete {| DnsSettingsResource.client := c |}
         {| tfsdk.Get := (data, ds) |} in
     deletes_by c "PUT" (BaseUrl c +:+ "/api/dns/settings") op
     ∧ ∀ w, Forall (fun e => http.Body (sent e) = slice.Of body) (issued w (snd (op w)))).
Proof.
  repeat apply conj.
  1: intros data ds Hquiet; unfold deletes_by, NetworkResource.Delete;
     cbn [NetworkResource.client]; delete_handler Hquiet.
  1: intros data ds Hquiet; unfold deletes_by, GroupResource.Delete;
     cbn [GroupResource.client]; delete_handler Hquiet.
  1: intros data ds Hquiet; unfold deletes_by, PolicyResource.Delete;
     cbn [PolicyResource.client]; delete_handler Hquiet.
  1: intros data ds Hquiet; unfold deletes_by, NetworkRouterResource.Delete;
     cbn [NetworkRouterResource.client]; delete_handler Hquiet.
  1: intros data ds Hquiet; unfold deletes_by, NetworkResourceResource.Delete;
     cbn [NetworkResourceResource.client]; delete_handler Hquiet.
  1: intros data ds Hquiet; unfold deletes_by, NameserverGroupResource.Delete;
     cbn [NameserverGroupResource.client]; delete_handler Hquiet.
  intros data ds body Hquiet Hjson. cbn zeta.
  unfold DnsSettingsResource.Delete.
  cbn [DnsSettingsResource.client tfsdk.Get]. rewrite Hjson.
  rewrite HasError_Append, Hquiet; cbn [diag.HasError existsb orb].
  assert (Hbase : diag.HasError (diag.Append [] ds) = false)
    by (by rewrite HasError_Append, Hquiet).
  unfold http_NewRequest. split.
  - intros Hnew w. rewrite Hnew. by apply delete_tail.
  - intros w.
    destruct (NewRequest_error _ _); [unfold issued; cbn; by rewrite drop_all|].
    unfold mbind, IO_bind.
    match goal with
    | |- context [doRequest c ?req w] =>
        destruct (doRequest_issued c req w) as (e & Hi & _ & _ & _ & _ & HB & _);
        destruct (doRequest c req w) as [[rb [err|]] w']
    end; cbn [fst snd mret IO_ret] in *; rewrite Hi; by repeat constructor.
Qed.

(** C5, on an example: deleting the network net-1 when the API answers
    200. *)
Lemma Delete_issues_one_request_example :
  let op :=
    NetworkResource.Delete (H := fixture.runtime)
      {| NetworkResource.client := fixture.client |}
      (fixture.decoded fixture.network_data) in
  let w := fixture.world [fixture.answer 200 "{}"] in
  ∃ e, issued w (snd (op w)) = [e]
       ∧ http.Method (sent e) = "DELETE"
       ∧ http.URL (sent e) = "https://api.netbird.io/api/networks/net-1"
       ∧ tfsdk.State_ (fst (op w)) = tfsdk.Removed.
Proof.
  cbn zeta.
  destruct (proj1 (Delete_issues_one_request (H := fixture.runtime) fixture.client)
              fixture.network_data [] eq_refl eq_refl
              (fixture.world [fixture.answer 200 "{}"]))
    as (e & Hissued & _ & Hmethod & Hurl & Hyes & _).
  exists e. split; [exact Hissued|]. split; [exact Hmethod|]. split; [exact Hurl|].
  apply Hyes.
  vm_compute in Hissued. injection Hissued as <-. by vm_compute.
Defined.

(** C5 as stated fails for the DNS settings: their Delete issues no
    DELETE request; it sends one PUT to /api/dns/settings, a URL that
    does not depend on the identifier, and then removes the resource
    from the state. *)
Lemma DnsSettingsResource_Delete_sends_PUT :
  let op :=
    DnsSettingsResource.Delete (H := fixture.runtime)
      {| DnsSettingsResource.client := fixture.client |}
      (fixture.decoded fixture.dns_data) in
  let w := fixture.world [fixture.answer 200 "{disabled_management_groups:[]}"] in
  map (fun e => (http.Method (sent e), http.URL (sent e))) (issued w (snd (op w)))
  = [("PUT", "https://api.netbird.io/api/dns/settings")]
  ∧ tfsdk.State_ (fst (op w)) = tfsdk.Removed
  ∧ ¬ (∃ e, e ∈ issued w (snd (op w)) ∧ http.Method (sent e) = "DELETE").
Proof.
  cbn zeta. split; [by vm_compute|]. split; [by vm_compute|].
  intros (e & Hin & Hmethod).
  apply (list_elem_of_fmap_2 (fun e => http.Method (sent e))) in Hin.
  rewrite Hmethod in Hin. vm_compute in Hin.
  apply list_elem_of_singleton in Hin. discriminate.
Qed.

(** ** Unfolding the operations *)

Create HintDb operations discriminated.
Create HintDb reads discriminated.

#[global] Hint Unfold
  NetworkResource.Create NetworkResource.Read NetworkResource.Update
  NetworkResource.Delete
  GroupResource.Create GroupResource.Read GroupResource.Update GroupResource.Delete
  PolicyResource.Create PolicyResource.Read PolicyResource.Update PolicyResource.Delete
  NetworkRouterResource.Create NetworkRouterResource.Read NetworkRouterResource.Update
  NetworkRouterResource.Delete
  NetworkResourceResource.Create NetworkResourceResource.Read
  NetworkResourceResource.Update NetworkResourceResource.Delete
  SetupKeyResource.Delete
  NameserverGroupResource.Create NameserverGroupResource.Read
  NameserverGroupResource.Update NameserverGroupResource.Delete
  DnsSettingsResource.Create DnsSettingsResource.Read DnsSettingsResource.Update
  DnsSettingsResource.Delete
  PeersDataSource.Read PeerDataSource.Read : operations.

#[global] Hint Unfold
  NetworkResource.readIntoModel NetworkRouterResource.readIntoModel
  NetworkResourceResource.readIntoModel
  NameserverGroupResource.readNameserverGroupIntoModel
  DnsSettingsResource.readDnsSettingsIntoModel
  DnsSettingsResource.updateDnsSettings : reads.

(** Unfolds the operation of the goal and the client it runs through. *)
Ltac operation db :=
  autounfold with db;
  cbn [NetworkResource.client GroupResource.client PolicyResource.client
       NetworkRouterResource.client NetworkResourceResource.client
       SetupKeyResource.client NameserverGroupResource.client
       DnsSettingsResource.client PeersDataSource.client PeerDataSource.client].

(** ** Every operation goes through the client *)

Section plan.
Context `{Runtime}.

Lemma plan_ret {A} (c : Client) (methods : list string) (succeeds : A -> Prop) (a : A) :
  (succeeds a -> methods = []) ->
  calls_by_plan c methods succeeds (mret a).
Proof.
  intros Hdone w. exists []. cbn [mret IO_ret fst snd map]. unfold issued.
  rewrite app_nil_r, drop_all.
  split; [done|]. split; [done|]. split; [constructor|].
  split; [apply prefix_nil|]. intros Hs. by rewrite (Hdone Hs).
Qed.

(** A [doRequest] followed by [k]: a request that fails ends the
    operation without success; after one that went well, [k] carries out
    the rest of the plan. *)
Lemma plan_doRequest {A} (c : Client) (req : http.Request)
  (k : slice.t byte * option error -> IO A) (method : string) (methods : list string)
  (succeeds : A -> Prop) :
  http.Method req = method ->
  (∀ body err, ∃ x, k (body, Some err) = mret x ∧ ¬ succeeds x) ->
  (∀ body, calls_by_plan c methods succeeds (k (body, None))) ->
  calls_by_plan c (method :: methods) succeeds (doRequest c req ≫= k).
Proof.
  intros Hmethod Hrefused Hk w. unfold mbind, IO_bind.
  destruct (doRequest_issued c req w) as (e & _ & Hw1 & Hvia & HM & _).
  rewrite Hmethod in HM.
  destruct (doRequest c req w) as [[body [err|]] w1]; cbn [fst snd] in Hw1.
  - destruct (Hrefused body err) as (x & -> & Hnot).
    exists [e]. cbn [mret IO_ret fst snd map]. unfold issued.
    rewrite Hw1, drop_app_length, HM.
    split; [done|]. split; [done|]. split; [by repeat constructor|].
    split; [by exists methods | done].
  - destruct (Hk body w1) as (es2 & Hw2 & _ & Hvia2 & Hprefix & Hall).
    exists (e :: es2). unfold issued.
    rewrite Hw2, Hw1, <- app_assoc, drop_app_length. cbn [app map]. rewrite HM.
    split; [done|]. split; [done|]. split; [by constructor|].
    split; [by apply prefix_cons|]. intros Hs. by rewrite (Hall Hs).
Qed.

(** An operation [m] with a plan of its own, followed by [k]: when [m]
    reports an error, [k] ends the operation without success; otherwise
    [k] carries out the rest of the plan. *)
Lemma plan_bind {A B} (c : Client) (m : IO (A * diag.Diagnostics))
  (k : A * diag.Diagnostics -> IO B) (first rest : list string) (succeeds : B -> Prop) :
  calls_by_plan c first (fun a => diag.HasError (snd a) = false) m ->
  (∀ a, diag.HasError (snd a) = true -> ∃ x, k a = mret x ∧ ¬ succeeds x) ->
  (∀ a, diag.HasError (snd a) = false -> calls_by_plan c rest succeeds (k a)) ->
  calls_by_plan c (first ++ rest) succeeds (m ≫= k).
Proof.
  intros Hm Hrefused Hk w. unfold mbind, IO_bind.
  destruct (Hm w) as (es1 & Hw1 & _ & Hvia1 & Hprefix1 & Hall1).
  destruct (m w) as [a w1]. cbn [fst snd] in Hw1, Hall1.
  destruct (diag.HasError (snd a)) eqn:Herror.
  - destruct (Hrefused a Herror) as (x & -> & Hnot).
    exists es1. cbn [mret IO_ret fst snd]. unfold issued.
    rewrite Hw1, drop_app_length.
    split; [done|]. split; [done|]. split; [done|].
    split; [by apply prefix_app_r | done].
  - destruct (Hk a Herror w1) as (es2 & Hw2 & _ & Hvia2 & Hprefix2 & Hall2).
    exists (es1 ++ es2). unfold issued.
    rewrite Hw2, Hw1, <- app_assoc, drop_app_length, map_app, (Hall1 eq_refl).
    split; [done|]. split; [done|]. split; [by apply Forall_app|].
    split; [by apply prefix_app|]. intros Hs. by rewrite (Hall2 Hs).
Qed.

End plan.

(** The result at hand is no success: it is a panic, or its diagnostics
    carry the error just added or just found. *)
Ltac refuted :=
  let Hs := fresh "Hs" in
  intros Hs;
  repeat match type of Hs with
         | ∃ _, _ => destruct Hs as (? & Hs)
         | _ ∧ _ =>
             let Heq := fresh "Heq" in
             destruct Hs as [Heq Hs];
             first [ discriminate Heq | injection Heq as <- ]
         end;
  unfold succeeded in Hs;
  cbn [tfsdk.stop tfsdk.Diagnostics snd] in Hs;
  first
    [ congruence
    | rewrite HasError_AddError in Hs; discriminate Hs
    | rewrite HasError_Append in Hs;
      match goal with
      | Herror : diag.HasError _ = true |- _ => rewrite Herror in Hs
      end;
      rewrite ?orb_true_r in Hs; discriminate Hs ].

(** Walks an operation along its plan; [sub] settles an operation that
    has a plan of its own. *)
Ltac plan_with c sub :=
  repeat first
    [ apply plan_ret; solve [ intros _; reflexivity | refuted ]
    | match goal with
      | |- context [http_NewRequest ?m ?u ?b] =>
          unfold http_NewRequest; destruct (NewRequest_error m u); cbv beta iota zeta
      | |- calls_by_plan _ (?m :: ?ms) _ (mbind _ (doRequest _ _)) =>
          apply (plan_doRequest c _ _ m ms);
          [ reflexivity
          | intros; eexists; split; [reflexivity | refuted]
          | intros ]
      | |- calls_by_plan _ (?m :: ?ms) _ (mbind _ _) =>
          apply (plan_bind c _ _ [m] ms);
          [ solve [sub]
          | let Herror := fresh "Herror" in
            intros [? ?] Herror; cbn [snd] in Herror; cbv beta iota zeta;
            rewrite ?HasError_Append, Herror, ?orb_true_r;
            eexists; split; [reflexivity | refuted]
          | let Hquiet := fresh "Hquiet" in
            intros [? ?] Hquiet; cbn [snd] in Hquiet; cbv beta iota zeta ]
      | |- calls_by_plan _ _ _ (match ?x with _ => _ end) => destruct x eqn:?
      end ].

Section plans.
Context `{Runtime}.

Lemma reads_call_by_plan (c : Client) :
  (∀ data, calls_by_plan c ["GET"] (fun a => diag.HasError (snd a) = false)
             (NetworkResource.readIntoModel {| NetworkResource.client := c |} data))
  ∧ (∀ data, calls_by_plan c ["GET"] (fun a => diag.HasError (snd a) = false)
               (NetworkRouterResource.readIntoModel
                  {| NetworkRouterResource.client := c |} (Some data)))
  ∧ (∀ data, calls_by_plan c ["GET"] (fun a => diag.HasError (snd a) = false)
               (NetworkResourceResource.readIntoModel
                  {| NetworkResourceResource.client := c |} (Some data)))
  ∧ (∀ data, calls_by_plan c ["GET"] (fun a => diag.HasError (snd a) = false)
               (NameserverGroupResource.readNameserverGroupIntoModel
                  {| NameserverGroupResource.client := c |} (Some data)))
  ∧ (∀ data, calls_by_plan c ["GET"] (fun a => diag.HasError (snd a) = false)
               (DnsSettingsResource.readDnsSettingsIntoModel
                  {| DnsSettingsResource.client := c |} data))
  ∧ (∀ data, calls_by_plan c ["PUT"] (fun a => diag.HasError (snd a) = false)
               (DnsSettingsResource.updateDnsSettings
                  {| DnsSettingsResource.client := c |} data)).
Proof.
  repeat apply conj; intros data; operation reads; plan_with c fail.
Qed.

End plans.

(** C7: the client NewClient builds has an http.Client with a timeout of
    60 seconds (in nanoseconds), and each doRequest on it sends exactly
    one request, through that http.Client.  Every operation of the
    networks, groups, policies, routers, network resources, nameserver
    groups and DNS settings and the Read of both data sources sends all
    its requests through that http.Client, one after the other by its
    plan: one GET for a Read, one DELETE for a Delete (one PUT for the
    DNS settings), one POST or PUT for the Create or Update of a group
    or policy, and for the Create or Update of the other entities the
    POST or PUT followed by the GET that refreshes the model (a PUT then
    a GET for the DNS settings).  An operation that returns without an
    error diagnostic has sent exactly the requests of its plan; one that
    reports an error, and the Create of a network when it panics, has
    sent the first so many of them. *)
Theorem operations_call_through_client `{Runtime}
  (baseURL bearerToken accessToken : string) :
  let c := NewClient baseURL bearerToken accessToken in
  http.Timeout (httpClient c) = (60 * 1000000000)%Z
  ∧ (∀ req w, ∃ e, issued w (snd (doRequest c req w)) = [e] ∧ via e = httpClient c)
  ∧ (∀ req, calls_by_plan c ["POST"; "GET"]
       (fun r => ∃ resp, r = inl resp ∧ succeeded resp)
       (NetworkResource.Create {| NetworkResource.client := c |} req))
  ∧ (∀ req, calls_by_plan c ["GET"] succeeded
       (NetworkResource.Read {| NetworkResource.client := c |} req))
  ∧ (∀ req, calls_by_plan c ["PUT"; "GET"] succeeded
       (NetworkResource.Update {| NetworkResource.client := c |} req))
  ∧ (∀ req, calls_by_plan c ["DELETE"] succeeded
       (NetworkResource.Delete {| NetworkResource.client := c |} req))
  ∧ (∀ req, calls_by_plan c ["POST"] succeeded
       (GroupResource.Create {| GroupResource.client := c |} req))
  ∧ (∀ req, calls_by_plan c ["GET"] succeeded
       (GroupResource.Read {| GroupResource.client := c |} req))
  ∧ (∀ req, calls_by_plan c ["PUT"] succeeded
       (GroupResource.Update {| GroupResource.client := c |} req))
  ∧ (∀ req, calls_by_plan c ["DELETE"] succeeded
       (GroupResource.Delete {| GroupResource.client := c |} req))
  ∧ (∀ req, calls_by_plan c ["POST"] succeeded
       (PolicyResource.Create {| PolicyResource.client := c |} req))
  ∧ (∀ req, calls_by_plan c ["GET"] succeeded
       (PolicyResource.Read {| PolicyResource.client := c |} req))
  ∧ (∀ req, calls_by_plan c ["PUT"] succeeded
       (PolicyResource.Update {| PolicyResource.client := c |} req))
  ∧ (∀ req, calls_by_plan c ["DELETE"] succeeded
       (PolicyResource.Delete {| PolicyResource.client := c |} req))
  ∧ (∀ req, calls_by_plan c ["POST"; "GET"] succeeded
       (NetworkRouterResource.Create {| NetworkRouterResource.client := c |} req))
  ∧ (∀ req, calls_by_plan c ["GET"] succeeded
       (NetworkRouterResource.Read {| NetworkRouterResource.client := c |} req))
  ∧ (∀ req, calls_by_plan c ["PUT"; "GET"] succeeded
       (NetworkRouterResource.Update {| NetworkRouterResource.client := c |} req))
  ∧ (∀ req, calls_by_plan c ["DELETE"] succeeded
       (NetworkRouterResource.Delete {| NetworkRouterResource.client := c |} req))
  ∧ (∀ req, calls_by_plan c ["POST"; "GET"] succeeded
       (NetworkResourceResource.Create {| NetworkResourceResource.client := c |} req))
  ∧ (∀ req, calls_by_plan c ["GET"] succeeded
       (NetworkResourceResource.Read {| NetworkResourceResource.client := c |} req))
  ∧ (∀ req, calls_by_plan c ["PUT"; "GET"] succeeded
       (NetworkResourceResource.Update {| NetworkResourceResource.client := c |} req))
  ∧ (∀ req, calls_by_plan c ["DELETE"] succeeded
       (NetworkResourceResource.Delete {| NetworkResourceResource.client := c |} req))
  ∧ (∀ req, calls_by_plan c ["POST"; "GET"] succeeded
       (NameserverGroupResource.Create {| NameserverGroupResource.client := c |} req))
  ∧ (∀ req, calls_by_plan c ["GET"] succeeded
       (NameserverGroupResource.Read {| NameserverGroupResource.client := c |} req))
  ∧ (∀ req, calls_by_plan c ["PUT"; "GET"] succeeded
       (NameserverGroupResource.Update {| NameserverGroupResource.client := c |} req))
  ∧ (∀ req, calls_by_plan c ["DELETE"] succeeded
       (NameserverGroupResource.Delete {| NameserverGroupResource.client := c |} req))
  ∧ (∀ req, calls_by_plan c ["PUT"; "GET"] succeeded
       (DnsSettingsResource.Create {| DnsSettingsResource.client := c |} req))
  ∧ (∀ req, calls_by_plan c ["GET"] succeeded
       (DnsSettingsResource.Read {| DnsSettingsResource.client := c |} req))
  ∧ (∀ req, calls_by_plan c ["PUT"; "GET"] succeeded
       (DnsSettingsResource.Update {| DnsSettingsResource.client := c |} req))
  ∧ (∀ req, calls_by_plan c ["PUT"] succeeded
       (DnsSettingsResource.Delete {| DnsSettingsResource.client := c |} req))
  ∧ (∀ req, calls_by_plan c ["GET"] succeeded
       (PeersDataSource.Read {| PeersDataSource.client := c |} req))
  ∧ (∀ req, calls_by_plan c ["GET"] succeeded
       (PeerDataSource.Read {| PeerDataSource.client := c |} req)).
Proof.
  cbn zeta. split; [reflexivity|].
  generalize (NewClient baseURL bearerToken accessToken). intros c.
  split.
  { intros req w. destruct (doRequest_issued c req w) as (e & Hissued & _ & Hvia & _).
    by exists e. }
  pose proof (reads_call_by_plan c) as (Hnet & Hrouter & Hres & Hns & Hdns & Hput).
  repeat apply conj; intros req; operation operations;
    plan_with c ltac:(first [ apply Hnet | apply Hrouter | apply Hres
                            | apply Hns | apply Hdns | apply Hput ]).
Qed.

(** C7, on an example: the Update of the network net-1, answered 200
    twice, reports no error, so it has sent its whole plan, the PUT and
    then the GET, both through the client's http.Client. *)
Lemma operations_call_through_client_example :
  let op :=
    NetworkResource.Update (H := fixture.runtime)
      {| NetworkResource.client := fixture.client |}
      (fixture.decoded fixture.network_data) in
  let w := fixture.world [fixture.answer 200 "{}";
                          fixture.answer 200 fixture.network_body] in
  map (fun e => http.Method (sent e)) (issued w (snd (op w))) = ["PUT"; "GET"]
  ∧ Forall (fun e => http.Timeout (via e) = (60 * 1000000000)%Z) (issued w (snd (op w))).
Proof.
  cbn zeta.
  destruct (operations_call_through_client (H := fixture.runtime)
              "https://api.netbird.io" "" "nbp_token")
    as (Htimeout & _ & _ & _ & Hupdate & _).
  destruct (Hupdate (fixture.decoded fixture.network_data)
              (fixture.world [fixture.answer 200 "{}";
                              fixture.answer 200 fixture.network_body]))
    as (es & _ & Hissued & Hvia & _ & Hall).
  unfold fixture.client. rewrite Hissued. split.
  - apply Hall. vm_compute. reflexivity.
  - eapply Forall_impl; [exact Hvia|]. intros e ->. exact Htimeout.
Defined.

(** C7 as stated fails for Update: updating the network net-1 puts two
    requests on the wire, the PUT and then the GET of readIntoModel. *)
Lemma NetworkResource_Update_issues_two_requests :
  let op :=
    NetworkResource.Update (H := fixture.runtime)
      {| NetworkResource.client := fixture.client |}
      (fixture.decoded fixture.network_data) in
  let w := fixture.world [fixture.answer 200 "{}";
                          fixture.answer 200 fixture.network_body] in
  map (fun e => (http.Method (sent e), http.URL (sent e))) (issued w (snd (op w)))
  = [("PUT", "https://api.netbird.io/api/networks/net-1");
     ("GET", "https://api.netbird.io/api/networks/net-1")]
  ∧ ¬ calls_through (H := fixture.runtime) fixture.client 1 op.
Proof.
  cbn zeta. split; [by vm_compute|].
  intros Hsingle.
  destruct (Hsingle (fixture.world [fixture.answer 200 "{}";
                                    fixture.answer 200 fixture.network_body]))
    as (es & _ & Hissued & Hlen & _).
  subst es. vm_compute in Hlen. lia.
Qed.

(** * Further properties of the code *)

(** ** The client: bodies and errors *)

Lemma doRequest_cases `{Runtime} (s : Client) (req : http.Request) (w : World) :
  (∃ err, fst (doRequest s req w) = (slice.Nil, Some err))
  ∨ (∃ body, fst (doRequest s req w) = (slice.Of body, None)).
Proof.
  destruct (doRequest_run s req w) as (e & _ & _ & _ & _ & _ & _ & Hres).
  rewrite Hres.
  destruct (fst (roundTrip (remote w) (via e) (sent e))) as [resp|err]; [|by left; eexists].
  destruct (http.readErr (http.RespBody resp)); [by left; eexists|].
  destruct (400 <=? http.StatusCode resp)%Z; [left | right]; by eexists.
Qed.

(** X1: doRequest returns a nil body exactly when it returns an error;
    a transport error, and an error while reading the body whatever the
    status, come back as that error. *)
Theorem doRequest_nil_body_iff_error `{Runtime}
  (s : Client) (req : http.Request) (w : World) :
  let res := fst (doRequest s req w) in
  (slice.is_nil (fst res) = true ↔ is_Some (snd res))
  ∧ ∃ e, issued w (snd (doRequest s req w)) = [e]
      ∧ (∀ err, fst (roundTrip (remote w) (via e) (sent e)) = inr err ->
           res = (slice.Nil, Some err))
      ∧ (∀ resp err, fst (roundTrip (remote w) (via e) (sent e)) = inl resp ->
           http.readErr (http.RespBody resp) = Some err ->
           res = (slice.Nil, Some err)).
Proof.
  cbn zeta. split.
  - destruct (doRequest_cases s req w) as [[err ->]|[body ->]]; cbn.
    + split; [by eexists | done].
    + split; [done | by intros [? ?]].
  - destruct (doRequest_run s req w) as (e & _ & _ & _ & _ & _ & Hw & Hres).
    exists e. rewrite Hw, issued_app. split; [done|]. rewrite Hres. split.
    + by intros err ->.
    + by intros resp err -> ->.
Qed.

(** ** Reads never clear the identifier *)

(** After unfolding a read function: the request is sent, the two
    possible results of [doRequest] are told apart, and what is left is
    pure branching. *)
Ltac read_cases c w :=
  match goal with
  | |- context [http_NewRequest ?m ?u ?b] => destruct (http_NewRequest m u b) as [?req|?]
  end; [|done];
  unfold mbind, IO_bind;
  match goal with
  | |- context [doRequest c ?req w] =>
      let Hcases := fresh "Hcases" in
      pose proof (doRequest_cases c req w) as Hcases;
      destruct (doRequest c req w) as [?res ?w];
      cbn [fst] in Hcases;
      destruct Hcases as [[? ->]|[? ->]]
  end; [done|];
  cbn [slice.is_nil slice.elems];
  repeat match goal with
         | |- context [match ?x with _ => _ end] => destruct x
         end.

Section keeps.
Context `{Runtime}.

Lemma NetworkRouterResource_readIntoModel_keeps_ID
  (r : NetworkRouterResource.t) (data : NetworkRouterResource.Model) (w : World) :
  NetworkRouterResource.ID
    <$> fst (fst (NetworkRouterResource.readIntoModel r (Some data) w))
  = Some (NetworkRouterResource.ID data).
Proof.
  unfold NetworkRouterResource.readIntoModel.
  read_cases (NetworkRouterResource.client r) w; reflexivity.
Qed.

Lemma NetworkResourceResource_readIntoModel_keeps_ID
  (r : NetworkResourceResource.t) (data : NetworkResourceResource.Model) (w : World) :
  NetworkResourceResource.ID
    <$> fst (fst (NetworkResourceResource.readIntoModel r (Some data) w))
  = Some (NetworkResourceResource.ID data).
Proof.
  unfold NetworkResourceResource.readIntoModel.
  read_cases (NetworkResourceResource.client r) w; reflexivity.
Qed.

Lemma readNameserverGroupIntoModel_keeps_ID
  (r : NameserverGroupResource.t) (data : NameserverGroupResource.Model) (w : World) :
  NameserverGroupResource.ID
    <$> fst (fst (NameserverGroupResource.readNameserverGroupIntoModel r (Some data) w))
  = Some (NameserverGroupResource.ID data).
Proof.
  unfold NameserverGroupResource.readNameserverGroupIntoModel.
  read_cases (NameserverGroupResource.client r) w; reflexivity.
Qed.

Lemma readDnsSettingsIntoModel_keeps_ID
  (r : DnsSettingsResource.t) (data : DnsSettingsResource.Model) (w : World) :
  DnsSettingsResource.ID (fst (fst (DnsSettingsResource.readDnsSettingsIntoModel r data w)))
  = DnsSettingsResource.ID data.
Proof.
  unfold DnsSettingsResource.readDnsSettingsIntoModel.
  read_cases (DnsSettingsResource.client r) w; reflexivity.
Qed.

End keeps.

(** X2: no read function ever changes the identifier of the model it
    refreshes, in any world: the branch that sets the identifier to null
    needs a nil body without an error, which doRequest never returns. *)
Theorem reads_keep_the_identifier `{Runtime} (c : Client) (w : World) :
  (∀ data,
     NetworkResource.ID
       (fst (fst (NetworkResource.readIntoModel {| NetworkResource.client := c |} data w)))
     = NetworkResource.ID data)
  ∧ (∀ data,
     NetworkRouterResource.ID
       <$> fst (fst (NetworkRouterResource.readIntoModel
                       {| NetworkRouterResource.client := c |} (Some data) w))
     = Some (NetworkRouterResource.ID data))
  ∧ (∀ data,
     NetworkResourceResource.ID
       <$> fst (fst (NetworkResourceResource.readIntoModel
                       {| NetworkResourceResource.client := c |} (Some data) w))
     = Some (NetworkResourceResource.ID data))
  ∧ (∀ data,
     NameserverGroupResource.ID
       <$> fst (fst (NameserverGroupResource.readNameserverGroupIntoModel
                       {| NameserverGroupResource.client := c |} (Some data) w))
     = Some (NameserverGroupResource.ID data))
  ∧ (∀ data,
     DnsSettingsResource.ID
       (fst (fst (DnsSettingsResource.readDnsSettingsIntoModel
                    {| DnsSettingsResource.client := c |} data w)))
     = DnsSettingsResource.ID data).
Proof.
  repeat apply conj; intros data.
  - apply NetworkResource_readIntoModel_keeps_ID.
  - apply NetworkRouterResource_readIntoModel_keeps_ID.
  - apply NetworkResourceResource_readIntoModel_keeps_ID.
  - apply readNameserverGroupIntoModel_keeps_ID.
  - apply readDnsSettingsIntoModel_keeps_ID.
Qed.

(** ** Lists of strings, read back *)

Lemma convertListToStringSlice_elements_run (es : list types.Value) (acc : slice.t string) :
  if forallb is_string_value es
  then convertListToStringSlice_elements es acc =
       (match es with
        | [] => acc
        | _ :: _ => slice.Of (slice.elems acc ++ map string_of_value es)
        end, [])
  else ∃ pre v post,
         es = pre ++ v :: post
         ∧ forallb is_string_value pre = true
         ∧ is_string_value v = false
         ∧ convertListToStringSlice_elements es acc =
           (slice.Nil,
            [diag.NewErrorDiagnostic "Unexpected type"
               ("unexpected type: " +:+ GoTypeName v)]).
Proof.
  revert acc. induction es as [|e es IH]; intros acc; [reflexivity|].
  cbn [forallb]. destruct (is_string_value e) eqn:He; cbn [andb].
  - destruct e as [s| | |]; try discriminate He.
    cbn [convertListToStringSlice_elements]. specialize (IH (slice.append acc (types.ValueString s))).
    destruct (forallb is_string_value es).
    + rewrite IH. destruct es as [|e' es]; [reflexivity|].
      cbn [slice.append slice.elems map string_of_value]. by rewrite <- app_assoc.
    + destruct IH as (pre & v & post & -> & Hpre & Hv & ->).
      exists (types.VString s :: pre), v, post. by rewrite <- app_comm_cons.
  - exists [], e, es. repeat split; [done|].
    by destruct e as [s| | |]; try discriminate He.
Qed.

(** X3: convertListToStringSlice gives the strings of the elements in
    order, as a non-nil slice and without diagnostics, when every element
    is a string value (so also for a null, an unknown or an empty list); at
    the first element of another type it gives up with a nil slice and the
    single error diagnostic that names that element's type. *)
Theorem convertListToStringSlice_strings_or_error (l : types.List) :
  if forallb is_string_value (types.Elements l)
  then convertListToStringSlice l =
       (slice.Of (map string_of_value (types.Elements l)), [])
  else ∃ pre v post,
         types.Elements l = pre ++ v :: post
         ∧ forallb is_string_value pre = true
         ∧ is_string_value v = false
         ∧ convertListToStringSlice l =
           (slice.Nil,
            [diag.NewErrorDiagnostic "Unexpected type"
               ("unexpected type: " +:+ GoTypeName v)]).
Proof.
  unfold convertListToStringSlice.
  destruct l as [ty|ty|ty es]; cbn [types.IsNull types.IsUnknown orb types.Elements];
    [reflexivity | reflexivity |].
  pose proof (convertListToStringSlice_elements_run es (slice.Of [])) as Hrun.
  destruct (forallb is_string_value es); [|done].
  rewrite Hrun. by destruct es.
Qed.

Lemma convertStringSliceToListValue_known (s : slice.t string) :
  convertStringSliceToListValue s =
  (match slice.elems s with
   | [] => types.ListNull types.StringType
   | _ :: _ => types.ListKnown types.StringType
                 (map (fun v => types.VString (types.StringValue v)) (slice.elems s))
   end, []).
Proof.
  destruct (slice.elems s) as [|a l] eqn:Hs.
  - by apply convertStringSliceToListValue_empty.
  - by apply convertStringSliceToListValue_cons.
Qed.

Lemma convertListToStringSlice_of_strings (l : list string) :
  convertListToStringSlice
    (match l with
     | [] => types.ListNull types.StringType
     | _ :: _ => types.ListKnown types.StringType
                   (map (fun v => types.VString (types.StringValue v)) l)
     end) = (slice.Of l, []).
Proof.
  destruct l as [|a l]; [reflexivity|].
  unfold convertListToStringSlice.
  cbn [types.IsNull types.IsUnknown orb types.Elements].
  by rewrite convertListToStringSlice_elements_strings.
Qed.

(** X4: convertGroupMinimumToIdList never reports a diagnostic; it gives
    the null list for a nil pointer and for a list without groups, and
    otherwise the known list of the groups' ids in order.  Read back by
    convertListToStringSlice, as the policy handlers do when they write,
    this is again the ids in order. *)
Theorem convertGroupMinimumToIdList_ids
  (groupList : option (slice.t netbirdApi.GroupMinimum)) :
  let groups :=
    match groupList with
    | Some groups => slice.elems groups
    | None => []
    end in
  convertGroupMinimumToIdList groupList =
  (match groups with
   | [] => types.ListNull types.StringType
   | _ :: _ =>
       types.ListKnown types.StringType
         (map (fun g => types.VString (types.StringValue (netbirdApi.GroupMinimum_Id g)))
            groups)
   end, [])
  ∧ convertListToStringSlice (fst (convertGroupMinimumToIdList groupList)) =
    (slice.Of (map netbirdApi.GroupMinimum_Id groups), []).
Proof.
  cbn zeta. destruct groupList as [groups|]; [|by split].
  unfold convertGroupMinimumToIdList.
  rewrite convertStringSliceToListValue_known. cbn [fst].
  destruct (slice.elems groups) as [|g gs] eqn:Hg.
  - by rewrite (collect_empty _ _ Hg).
  - rewrite (collect_cons _ _ _ _ Hg). cbn [slice.elems].
    split.
    + cbn [map]. do 3 f_equal. by rewrite map_map.
    + apply (convertListToStringSlice_of_strings (map netbirdApi.GroupMinimum_Id (g :: gs))).
Qed.

(** ** Policy rules read from the API *)

Lemma convertGroupMinimumToIdList_quiet
  (groupList : option (slice.t netbirdApi.GroupMinimum)) :
  snd (convertGroupMinimumToIdList groupList) = [].
Proof.
  destruct groupList as [groups|]; [|reflexivity].
  apply convertStringSliceToListValue_quiet.
Qed.

Lemma convertRulesFromAPI_rules_run
  (data : list netbirdApi.PolicyRule) (acc : slice.t PolicyRuleModel) :
  ∃ out,
    convertRulesFromAPI_rules data acc =
    (match data with
     | [] => acc
     | _ :: _ => slice.Of (slice.elems acc ++ out)
     end, [])
    ∧ Forall2 converted_rule data out.
Proof.
  revert acc. induction data as [|dataRule rest IH]; intros acc.
  - exists []. by split.
  - cbn [convertRulesFromAPI_rules].
    pose proof (convertStringSliceToListValue_quiet
                  (derefStringSlice (netbirdApi.PolicyRule_Ports dataRule))) as Hports.
    pose proof (convertGroupMinimumToIdList_quiet
                  (netbirdApi.PolicyRule_Sources dataRule)) as Hsources.
    pose proof (convertGroupMinimumToIdList_quiet
                  (netbirdApi.PolicyRule_Destinations dataRule)) as Hdests.
    destruct (convertStringSliceToListValue _) as [ports d1] eqn:Eports.
    destruct (convertGroupMinimumToIdList (netbirdApi.PolicyRule_Sources dataRule))
      as [sources d2] eqn:Esources.
    destruct (convertGroupMinimumToIdList (netbirdApi.PolicyRule_Destinations dataRule))
      as [destinations d3] eqn:Edests.
    cbn [snd] in Hports, Hsources, Hdests. subst d1 d2 d3.
    cbn [diag.HasError existsb].
    match goal with
    | |- context [slice.append acc ?rule] =>
        destruct (IH (slice.append acc rule)) as (out & Hrun & Hall);
        exists (rule :: out)
    end.
    rewrite Hrun. split.
    + destruct rest as [|dataRule' rest].
      * by inversion Hall.
      * cbn [slice.append slice.elems]. by rewrite <- app_assoc.
    + constructor; [|done].
      unfold converted_rule. rewrite Eports, Esources, Edests.
      by repeat split.
Qed.

Lemma convertRulesFromAPI_quiet (data : option (slice.t netbirdApi.PolicyRule)) :
  snd (convertRulesFromAPI data) = [].
Proof.
  destruct data as [rules|]; [|reflexivity].
  cbn [convertRulesFromAPI].
  by destruct (convertRulesFromAPI_rules_run (slice.elems rules) slice.Nil)
    as (out & -> & _).
Qed.

(** X5: convertRulesFromAPI converts every rule of the API's list, in
    order and field by field (the destination resource from the
    destination resource), without ever reporting a diagnostic; the result
    is nil exactly when there is no rule. *)
Theorem convertRulesFromAPI_converts_every_rule
  (data : option (slice.t netbirdApi.PolicyRule)) :
  Forall2 converted_rule
    (slice.elems (default slice.Nil data))
    (slice.elems (fst (convertRulesFromAPI data)))
  ∧ snd (convertRulesFromAPI data) = []
  ∧ (slice.is_nil (fst (convertRulesFromAPI data)) = true
     ↔ slice.elems (default slice.Nil data) = []).
Proof.
  destruct data as [rules|]; [|by repeat split; constructor].
  change (default slice.Nil (Some rules)) with rules.
  cbn [convertRulesFromAPI].
  destruct (convertRulesFromAPI_rules_run (slice.elems rules) slice.Nil)
    as (out & -> & Hall).
  cbn [fst snd].
  destruct (slice.elems rules) as [|dataRule rest].
  - split; [constructor | by split].
  - cbn [slice.elems app slice.is_nil]. split; [exact Hall | by split].
Qed.

(** X6: convertPolicyFromApiModel never reports a diagnostic, so neither
    of its early returns is taken: the model it gives always carries the
    converted rules, and its source posture checks are a known list of
    the checks in order, also when there is none (where a rule's ports
    would be null).  Read back by convertListToStringSlice they are the
    checks again. *)
Theorem convertPolicyFromApiModel_complete (data : netbirdApi.Policy) :
  PolicyResource.convertPolicyFromApiModel data =
  ({| PolicyResource.ID := derefString (netbirdApi.Policy_Id data);
      PolicyResource.Name := types.StringValue (netbirdApi.Policy_Name data);
      PolicyResource.Description := derefString (netbirdApi.Policy_Description data);
      PolicyResource.Enabled := types.BoolValue (netbirdApi.Policy_Enabled data);
      PolicyResource.SourcePostureChecks :=
        types.ListKnown types.StringType
          (map (fun v => types.VString (types.StringValue v))
             (slice.elems (netbirdApi.Policy_SourcePostureChecks data)));
      PolicyResource.Rules :=
        fst (convertRulesFromAPI (Some (netbirdApi.Policy_Rules data))) |}, [])
  ∧ convertListToStringSlice
      (PolicyResource.SourcePostureChecks
         (fst (PolicyResource.convertPolicyFromApiModel data))) =
    (slice.Of (slice.elems (netbirdApi.Policy_SourcePostureChecks data)), []).
Proof.
  match goal with |- ?model ∧ _ => assert (Hmodel : model) end; [|split].
  - unfold PolicyResource.convertPolicyFromApiModel.
    assert (Hchecks :
      types.ListValue types.StringType
        (slice.collect (fun val => types.VString (types.StringValue val))
           (netbirdApi.Policy_SourcePostureChecks data)) =
      (types.ListKnown types.StringType
         (map (fun v => types.VString (types.StringValue v))
            (slice.elems (netbirdApi.Policy_SourcePostureChecks data))), [])).
    { destruct (slice.elems (netbirdApi.Policy_SourcePostureChecks data))
        as [|a l] eqn:Hs.
      - by rewrite (collect_empty _ _ Hs).
      - rewrite (collect_cons _ _ _ _ Hs). apply ListValue_strings. }
    rewrite Hchecks. cbn [diag.HasError existsb].
    pose proof (convertRulesFromAPI_quiet (Some (netbirdApi.Policy_Rules data)))
      as Hquiet.
    destruct (convertRulesFromAPI (Some (netbirdApi.Policy_Rules data))) as [rules ds].
    cbn [snd] in Hquiet. subst ds. reflexivity.
  - exact Hmodel.
  - rewrite Hmodel. cbn [fst PolicyResource.SourcePostureChecks].
    unfold convertListToStringSlice.
    cbn [types.IsNull types.IsUnknown orb types.Elements].
    rewrite convertListToStringSlice_elements_strings.
    by destruct (slice.elems (netbirdApi.Policy_SourcePostureChecks data)).
Qed.

(** ** Resources and port ranges, there and back *)

Lemma int32_small (n : Z) : in_int32 n -> int32 n = n.
Proof.
  unfold in_int32, int32. intros Hn.
  rewrite Z.mod_small; lia.
Qed.

Lemma port_ranges_back (l : list netbirdApi.RulePortRange) :
  Forall (fun p => in_int32 (netbirdApi.Start p) ∧ in_int32 (netbirdApi.End_ p)) l ->
  map (fun portRange =>
         {| netbirdApi.Start := types.ValueInt32 (PortRangeModel_Start portRange);
            netbirdApi.End_ := types.ValueInt32 (PortRangeModel_End portRange) |})
    (map (fun portRange =>
            {| PortRangeModel_Start :=
                 types.Int32Value (int32 (netbirdApi.Start portRange));
               PortRangeModel_End :=
                 types.Int32Value (int32 (netbirdApi.End_ portRange)) |}) l) = l.
Proof.
  induction 1 as [|q qs [Hstart Hend] _ IH]; [done|].
  cbn [map types.ValueInt32 PortRangeModel_Start PortRangeModel_End].
  rewrite (int32_small _ Hstart), (int32_small _ Hend), IH.
  by destruct q.
Qed.

(** X7: a resource reference read from the API by convertResourceModel
    and converted back by convertToRulesResourcesApiModel is the
    reference it was (nil stays nil); port ranges read by
    convertPortRangesToList and converted back by
    convertToRulesPortRangesApiModel are the same ranges in order when
    their bounds fit an int32, as every port does.  Neither reports a
    diagnostic. *)
Theorem resources_and_port_ranges_round_trip
  (resource : option netbirdApi.Resource) (ranges : slice.t netbirdApi.RulePortRange) :
  Forall (fun p => in_int32 (netbirdApi.Start p) ∧ in_int32 (netbirdApi.End_ p))
    (slice.elems ranges) ->
  convertToRulesResourcesApiModel (convertResourceModel resource) = (resource, [])
  ∧ slice.elems
      (fst (convertToRulesPortRangesApiModel
              (Some (convertPortRangesToList (Some ranges)))))
    = slice.elems ranges
  ∧ snd (convertToRulesPortRangesApiModel
           (Some (convertPortRangesToList (Some ranges)))) = [].
Proof.
  intros Hfit. split; [by destruct resource as [[id ty]|] | split; [|done]].
  unfold convertToRulesPortRangesApiModel, convertPortRangesToList. cbn [fst].
  destruct (slice.elems ranges) as [|p ps] eqn:Hs.
  - rewrite (collect_empty _ ranges Hs). reflexivity.
  - rewrite (collect_cons _ ranges _ _ Hs).
    unfold slice.collect. cbn [slice.elems map]. rewrite collect_from.
    exact (port_ranges_back (p :: ps) Hfit).
Qed.

(** X7, on an example: the reference to the host res-1 and the range
    80-443. *)
Lemma resources_and_port_ranges_round_trip_example :
  let resource :=
    Some {| netbirdApi.Resource_Id := "res-1"; netbirdApi.Resource_Type := "host" |} in
  let ranges := slice.Of [{| netbirdApi.Start := 80; netbirdApi.End_ := 443 |}] in
  convertToRulesResourcesApiModel (convertResourceModel resource) = (resource, [])
  ∧ slice.elems
      (fst (convertToRulesPortRangesApiModel
              (Some (convertPortRangesToList (Some ranges)))))
    = slice.elems ranges
  ∧ snd (convertToRulesPortRangesApiModel
           (Some (convertPortRangesToList (Some ranges)))) = [].
Proof.
  apply resources_and_port_ranges_round_trip.
  repeat constructor; unfold in_int32; cbn; lia.
Defined.

(** ** What the operations send *)

Section sends.
Context `{Runtime}.

Lemma sends_ret {A} (P : http.Request -> Prop) (a : A) : sends_only P (mret a).
Proof.
  intros w. exists []. cbn. unfold issued.
  rewrite app_nil_r, drop_all. by repeat split.
Qed.

Lemma sends_bind {A B} (P : http.Request -> Prop) (m : IO A) (f : A -> IO B) :
  sends_only P m ->
  (∀ a, sends_only P (f a)) ->
  sends_only P (m ≫= f).
Proof.
  intros Hm Hf w. unfold mbind, IO_bind.
  destruct (Hm w) as (es1 & Hw1 & _ & HP1).
  destruct (m w) as [a w1]. cbn [snd] in Hw1.
  destruct (Hf a w1) as (es2 & Hw2 & _ & HP2).
  exists (es1 ++ es2). unfold issued.
  rewrite Hw2, Hw1, <- app_assoc, drop_app_length.
  repeat split. by apply Forall_app.
Qed.

Lemma sends_doRequest (P : http.Request -> Prop) (c : Client) (req : http.Request) :
  (∀ r,
     http.Method r = http.Method req ->
     http.URL r = http.URL req ->
     http.Body r = http.Body req ->
     http.Header r =
       (let h :=
          if decide (BearerToken c ≠ "")
          then <["Authorization" := ["Bearer " +:+ BearerToken c]]> (http.Header req)
          else http.Header req in
        if decide (AccessToken c ≠ "")
        then <["Authorization" := ["Token " +:+ AccessToken c]]> h
        else h) ->
     P r) ->
  sends_only P (doRequest c req).
Proof.
  intros HP w.
  destruct (doRequest_run c req w) as (e & _ & HM & HU & HB & HH & Hw & _).
  exists [e]. rewrite Hw, issued_app. cbn [wire].
  repeat split. repeat constructor. by apply HP.
Qed.

(** A request built by a handler, with no header or with the JSON
    content type and a body, goes out of [doRequest] as a request to the
    API. *)
Lemma api_request_doRequest (c : Client) (req : http.Request) :
  (∃ path, http.URL req = BaseUrl c +:+ "/api/" +:+ path) ->
  http.Header req =
    (if slice.is_nil (http.Body req) then ∅
     else <["Content-Type" := ["application/json"]]> ∅) ->
  sends_only (api_request c) (doRequest c req).
Proof.
  intros Hurl Hheader. apply sends_doRequest.
  intros r _ HU HB HH. unfold api_request, credentials.
  rewrite HU, HB, HH, Hheader. cbn zeta.
  split; [done|].
  destruct (slice.is_nil (http.Body req));
    repeat case_decide; simplify_map_eq; (split; [done|]); (split; [done|]);
    intros key [v Hv];
    repeat match goal with
           | Hv : <[_ := _]> _ !! _ = Some _ |- _ =>
               apply lookup_insert_Some in Hv; destruct Hv as [[<- _]|[_ Hv]]
           end; try (by left); try (by right); by simplify_map_eq.
Qed.

Lemma is_get_doRequest (c : Client) (req : http.Request) :
  http.Method req = "GET" ->
  http.Body req = slice.Nil ->
  sends_only is_get (doRequest c req).
Proof.
  intros HM HB. apply sends_doRequest.
  intros r HM' _ HB' _. split; congruence.
Qed.

End sends.

(** Walks an operation for what it sends: [leaf] settles a [doRequest],
    [sub] an operation that has a lemma of its own. *)
Ltac sends_with sub leaf :=
  repeat first
    [ apply sends_ret
    | match goal with
      | |- context [http_NewRequest ?m ?u ?b] =>
          unfold http_NewRequest; destruct (NewRequest_error m u); cbv beta iota zeta
      | |- sends_only _ (mbind _ (doRequest _ _)) =>
          apply sends_bind; [solve [leaf] | intros]
      | |- sends_only _ (doRequest _ _) => solve [leaf]
      | |- sends_only _ (mbind _ _) => apply sends_bind; [solve [sub] | intros]
      | |- sends_only _ (match ?x with _ => _ end) => destruct x
      end ].

Ltac api_leaf :=
  apply api_request_doRequest; [cbn; eexists; reflexivity | reflexivity].

Ltac get_leaf := apply is_get_doRequest; reflexivity.

Section sends_reads.
Context `{Runtime}.

Lemma reads_are_api_requests (c : Client) :
  (∀ data, sends_only (api_request c)
             (NetworkResource.readIntoModel {| NetworkResource.client := c |} data))
  ∧ (∀ data, sends_only (api_request c)
               (NetworkRouterResource.readIntoModel
                  {| NetworkRouterResource.client := c |} data))
  ∧ (∀ data, sends_only (api_request c)
               (NetworkResourceResource.readIntoModel
                  {| NetworkResourceResource.client := c |} data))
  ∧ (∀ data, sends_only (api_request c)
               (NameserverGroupResource.readNameserverGroupIntoModel
                  {| NameserverGroupResource.client := c |} data))
  ∧ (∀ data, sends_only (api_request c)
               (DnsSettingsResource.readDnsSettingsIntoModel
                  {| DnsSettingsResource.client := c |} data))
  ∧ (∀ data, sends_only (api_request c)
               (DnsSettingsResource.updateDnsSettings
                  {| DnsSettingsResource.client := c |} data)).
Proof.
  repeat apply conj; intros data; operation reads; sends_with fail api_leaf.
Qed.

Lemma reads_are_gets (c : Client) :
  (∀ data, sends_only is_get
             (NetworkResource.readIntoModel {| NetworkResource.client := c |} data))
  ∧ (∀ data, sends_only is_get
               (NetworkRouterResource.readIntoModel
                  {| NetworkRouterResource.client := c |} data))
  ∧ (∀ data, sends_only is_get
               (NetworkResourceResource.readIntoModel
                  {| NetworkResourceResource.client := c |} data))
  ∧ (∀ data, sends_only is_get
               (NameserverGroupResource.readNameserverGroupIntoModel
                  {| NameserverGroupResource.client := c |} data))
  ∧ (∀ data, sends_only is_get
               (DnsSettingsResource.readDnsSettingsIntoModel
                  {| DnsSettingsResource.client := c |} data)).
Proof.
  repeat apply conj; intros data; operation reads; sends_with fail get_leaf.
Qed.

End sends_reads.

(** X8: every request that any operation of the provider sends goes to
    a URL under the [/api/] of the client's base URL, carries the
    client's credentials in its Authorization header (the access token,
    else the bearer token, else none), declares the content type
    application/json exactly when it has a body, and has no other
    header. *)
Theorem operations_send_api_requests `{Runtime} (c : Client) :
  every_operation c (fun _ op => sends_only (api_request c) op).
Proof.
  pose proof (reads_are_api_requests c) as (Hnet & Hrouter & Hres & Hns & Hdns & Hput).
  unfold every_operation.
  repeat apply conj; intros req; operation operations;
    sends_with ltac:(first [ apply Hnet | apply Hrouter | apply Hres
                           | apply Hns | apply Hdns | apply Hput ]) api_leaf.
Qed.

(** X9: refreshing never writes to the API: the read functions of the
    resources, the Read handlers and the data sources send nothing but
    GET requests without a body. *)
Theorem reads_send_only_gets `{Runtime} (c : Client) :
  every_read c (fun _ op => sends_only is_get op).
Proof.
  pose proof (reads_are_gets c) as (Hnet & Hrouter & Hres & Hns & Hdns).
  unfold every_read.
  repeat apply conj; [exact Hnet | exact Hrouter | exact Hres | exact Hns | exact Hdns | ..];
    intros req; operation operations;
    sends_with ltac:(first [ apply Hnet | apply Hrouter | apply Hres
                           | apply Hns | apply Hdns ]) get_leaf.
Qed.

(** ** Errors and the state *)

Section clean.
Context `{Runtime}.

Lemma clean_stop {M} (diags : diag.Diagnostics) :
  keeps_state_on_error (M := M) (mret (tfsdk.stop diags)).
Proof. by intros w _. Qed.

Lemma clean_write {M} (diags : diag.Diagnostics) (state : tfsdk.State M) :
  diag.HasError diags = false ->
  keeps_state_on_error (mret {| tfsdk.Diagnostics := diags; tfsdk.State_ := state |}).
Proof.
  intros Hquiet w Herr.
  cbn [mret IO_ret fst tfsdk.Diagnostics] in Herr. congruence.
Qed.

Lemma clean_bind {A M} (m : IO A) (f : A -> IO (tfsdk.Response M)) :
  (∀ a, keeps_state_on_error (f a)) ->
  keeps_state_on_error (m ≫= f).
Proof.
  intros Hf w. unfold mbind, IO_bind.
  destruct (m w) as [a w1]. apply Hf.
Qed.

End clean.

(** The diagnostics at hand carry no error, by the tests passed on the
    way. *)
Ltac quiet :=
  first
    [ assumption
    | rewrite HasError_Append;
      repeat match goal with
             | Hquiet : diag.HasError _ = false |- _ => rewrite Hquiet; clear Hquiet
             end;
      reflexivity ].

Ltac clean_walk :=
  repeat first
    [ apply clean_stop
    | apply clean_bind; intros
    | match goal with
      | |- keeps_state_on_error (match ?x with _ => _ end) => destruct x eqn:?
      end
    | apply clean_write; quiet ].

(** X10: an operation that reports an error diagnostic leaves the state
    as it was: the Create, Read, Update and Delete of networks, routers,
    network resources, nameserver groups and DNS settings, the Create,
    Read, Update and Delete of policies, the Delete of groups and setup
    keys and the Read of the peers data source never write or remove the
    state together with an error.  (The Create, Read and Update of groups
    and the Read of the peer data source write the state without testing
    the diagnostics they appended last.) *)
Theorem operations_keep_state_on_error `{Runtime} (c : Client) :
  (∀ req w resp,
     fst (NetworkResource.Create {| NetworkResource.client := c |} req w) = inl resp ->
     diag.HasError (tfsdk.Diagnostics resp) = true ->
     tfsdk.State_ resp = tfsdk.Untouched)
  ∧ (∀ req, keeps_state_on_error
       (NetworkResource.Read {| NetworkResource.client := c |} req))
  ∧ (∀ req, keeps_state_on_error
       (NetworkResource.Update {| NetworkResource.client := c |} req))
  ∧ (∀ req, keeps_state_on_error
       (NetworkResource.Delete {| NetworkResource.client := c |} req))
  ∧ (∀ req, keeps_state_on_error
       (GroupResource.Delete {| GroupResource.client := c |} req))
  ∧ (∀ req, keeps_state_on_error
       (PolicyResource.Create {| PolicyResource.client := c |} req))
  ∧ (∀ req, keeps_state_on_error
       (PolicyResource.Read {| PolicyResource.client := c |} req))
  ∧ (∀ req, keeps_state_on_error
       (PolicyResource.Update {| PolicyResource.client := c |} req))
  ∧ (∀ req, keeps_state_on_error
       (PolicyResource.Delete {| PolicyResource.client := c |} req))
  ∧ (∀ req, keeps_state_on_error
       (NetworkRouterResource.Create {| NetworkRouterResource.client := c |} req))
  ∧ (∀ req, keeps_state_on_error
       (NetworkRouterResource.Read {| NetworkRouterResource.client := c |} req))
  ∧ (∀ req, keeps_state_on_error
       (NetworkRouterResource.Update {| NetworkRouterResource.client := c |} req))
  ∧ (∀ req, keeps_state_on_error
       (NetworkRouterResource.Delete {| NetworkRouterResource.client := c |} req))
  ∧ (∀ req, keeps_state_on_error
       (NetworkResourceResource.Create {| NetworkResourceResource.client := c |} req))
  ∧ (∀ req, keeps_state_on_error
       (NetworkResourceResource.Read {| NetworkResourceResource.client := c |} req))
  ∧ (∀ req, keeps_state_on_error
       (NetworkResourceResource.Update {| NetworkResourceResource.client := c |} req))
  ∧ (∀ req, keeps_state_on_error
       (NetworkResourceResource.Delete {| NetworkResourceResource.client := c |} req))
  ∧ (∀ req, keeps_state_on_error
       (SetupKeyResource.Delete {| SetupKeyResource.client := c |} req))
  ∧ (∀ req, keeps_state_on_error
       (NameserverGroupResource.Create {| NameserverGroupResource.client := c |} req))
  ∧ (∀ req, keeps_state_on_error
       (NameserverGroupResource.Read {| NameserverGroupResource.client := c |} req))
  ∧ (∀ req, keeps_state_on_error
       (NameserverGroupResource.Update {| NameserverGroupResource.client := c |} req))
  ∧ (∀ req, keeps_state_on_error
       (NameserverGroupResource.Delete {| NameserverGroupResource.client := c |} req))
  ∧ (∀ req, keeps_state_on_error
       (DnsSettingsResource.Create {| DnsSettingsResource.client := c |} req))
  ∧ (∀ req, keeps_state_on_error
       (DnsSettingsResource.Read {| DnsSettingsResource.client := c |} req))
  ∧ (∀ req, keeps_state_on_error
       (DnsSettingsResource.Update {| DnsSettingsResource.client := c |} req))
  ∧ (∀ req, keeps_state_on_error
       (DnsSettingsResource.Delete {| DnsSettingsResource.client := c |} req))
  ∧ (∀ req, keeps_state_on_error
       (PeersDataSource.Read {| PeersDataSource.client := c |} req)).
Proof.
  split.
  - intros req w resp. operation operations. unfold mbind, IO_bind.
    repeat match goal with
           | |- context [match ?x with _ => _ end] => destruct x eqn:?
           end;
      cbn [fst mret IO_ret]; intros [= <-];
      cbn [tfsdk.Diagnostics tfsdk.State_ tfsdk.stop]; try done.
    intros Herr. congruence.
  - repeat apply conj; intros req; operation operations; clean_walk.
Qed.

(** ** The identifier in the state *)

(** Runs an operation to its ends, keeping for every read what it does
    to the identifier. *)
Ltac run_keeping_ids :=
  unfold mbind, IO_bind;
  repeat match goal with
         | |- context [NetworkResource.readIntoModel ?r ?d ?w] =>
             pose proof (NetworkResource_readIntoModel_keeps_ID r d w);
             destruct (NetworkResource.readIntoModel r d w) as [[? ?] ?]
         | |- context [NetworkRouterResource.readIntoModel ?r (Some ?d) ?w] =>
             pose proof (NetworkRouterResource_readIntoModel_keeps_ID r d w);
             destruct (NetworkRouterResource.readIntoModel r (Some d) w) as [[[?|] ?] ?]
         | |- context [NetworkResourceResource.readIntoModel ?r (Some ?d) ?w] =>
             pose proof (NetworkResourceResource_readIntoModel_keeps_ID r d w);
             destruct (NetworkResourceResource.readIntoModel r (Some d) w) as [[[?|] ?] ?]
         | |- context [NameserverGroupResource.readNameserverGroupIntoModel
                         ?r (Some ?d) ?w] =>
             pose proof (readNameserverGroupIntoModel_keeps_ID r d w);
             destruct (NameserverGroupResource.readNameserverGroupIntoModel r (Some d) w)
               as [[[?|] ?] ?]
         | |- context [DnsSettingsResource.readDnsSettingsIntoModel ?r ?d ?w] =>
             pose proof (readDnsSettingsIntoModel_keeps_ID r d w);
             destruct (DnsSettingsResource.readDnsSettingsIntoModel r d w) as [[? ?] ?]
         | |- context [match ?x with _ => _ end] => destruct x
         end.

(** X11: Read and Update never change the identifier in the state: when
    the Read or the Update of a network, a router, a network resource, a
    nameserver group or the DNS settings, or the Read of a group, writes
    the state, the model it writes has the identifier of the model the
    operation was given. *)
Theorem Read_and_Update_keep_the_identifier `{Runtime} (c : Client) :
  (∀ data ds,
     writes_id NetworkResource.ID (NetworkResource.ID data)
       (NetworkResource.Read {| NetworkResource.client := c |}
          {| tfsdk.Get := (data, ds) |})
     ∧ writes_id NetworkResource.ID (NetworkResource.ID data)
         (NetworkResource.Update {| NetworkResource.client := c |}
            {| tfsdk.Get := (data, ds) |}))
  ∧ (∀ data ds,
     writes_id NetworkRouterResource.ID (NetworkRouterResource.ID data)
       (NetworkRouterResource.Read {| NetworkRouterResource.client := c |}
          {| tfsdk.Get := (data, ds) |})
     ∧ writes_id NetworkRouterResource.ID (NetworkRouterResource.ID data)
         (NetworkRouterResource.Update {| NetworkRouterResource.client := c |}
            {| tfsdk.Get := (data, ds) |}))
  ∧ (∀ data ds,
     writes_id NetworkResourceResource.ID (NetworkResourceResource.ID data)
       (NetworkResourceResource.Read {| NetworkResourceResource.client := c |}
          {| tfsdk.Get := (data, ds) |})
     ∧ writes_id NetworkResourceResource.ID (NetworkResourceResource.ID data)
         (NetworkResourceResource.Update {| NetworkResourceResource.client := c |}
            {| tfsdk.Get := (data, ds) |}))
  ∧ (∀ data ds,
     writes_id NameserverGroupResource.ID (NameserverGroupResource.ID data)
       (NameserverGroupResource.Read {| NameserverGroupResource.client := c |}
          {| tfsdk.Get := (data, ds) |})
     ∧ writes_id NameserverGroupResource.ID (NameserverGroupResource.ID data)
         (NameserverGroupResource.Update {| NameserverGroupResource.client := c |}
            {| tfsdk.Get := (data, ds) |}))
  ∧ (∀ data ds,
     writes_id DnsSettingsResource.ID (DnsSettingsResource.ID data)
       (DnsSettingsResource.Read {| DnsSettingsResource.client := c |}
          {| tfsdk.Get := (data, ds) |})
     ∧ writes_id DnsSettingsResource.ID (DnsSettingsResource.ID data)
         (DnsSettingsResource.Update {| DnsSettingsResource.client := c |}
            {| tfsdk.Get := (data, ds) |}))
  ∧ (∀ data ds,
     writes_id GroupResource.ID (GroupResource.ID data)
       (GroupResource.Read {| GroupResource.client := c |}
          {| tfsdk.Get := (data, ds) |})).
Proof.
  repeat apply conj; intros data ds; try apply conj; intros w data';
    operation operations; cbn [tfsdk.Get]; run_keeping_ids;
    cbn [fst mret IO_ret tfsdk.State_ tfsdk.stop default from_option id];
    first [ discriminate | intros [= <-] ];
    repeat match goal with
           | Hkept : _ <$> fst (fst _) = Some _ |- _ =>
               cbn [fst fmap option_fmap option_map] in Hkept;
               first [ discriminate Hkept | injection Hkept as Hkept ]
           | Hkept : _ (fst (fst _)) = _ |- _ => cbn [fst] in Hkept
           end;
    first [ reflexivity | congruence ].
Qed.

(** ** Refused requests *)

Section stops.
Context `{Runtime}.

Lemma stops_ret {A} (fails : A -> Prop) (a : A) :
  fails a -> stops_at_refusal fails (mret a).
Proof.
  intros Hfails w. exists []. cbn. unfold issued.
  by rewrite app_nil_r, drop_all.
Qed.

(** A continuation that returns at once leaves the wire alone. *)
Lemma returns_at_once {A B} (c : Client) (n : nat) (k : A -> IO B) (a : A) (x : B)
  (w : World) (es : list Exchange) :
  k a = mret x ->
  wire (snd (k a w)) = wire w ++ es ->
  es = [] ∧ k a w = (x, w).
Proof.
  intros -> Hw. cbn in Hw. split; [|done].
  apply (app_inv_head (wire w)). by rewrite app_nil_r.
Qed.

Lemma stops_doRequest {A} (fails : A -> Prop) (c : Client) (req : http.Request)
  (k : slice.t byte * option error -> IO A) (n : nat) :
  (∀ body err, ∃ x, k (body, Some err) = mret x ∧ fails x) ->
  (∀ a, calls_through c n (k a)) ->
  stops_at_refusal fails (doRequest c req ≫= k).
Proof.
  intros Hrefused Hk w. unfold mbind, IO_bind.
  destruct (doRequest_issued c req w) as (e & _ & Hw1 & _ & _ & _ & _ & Hok).
  destruct (doRequest c req w) as [[body err] w1]. cbn [fst snd] in Hw1, Hok.
  destruct (Hk (body, err) w1) as (es2 & Hw2 & _).
  exists (e :: es2). unfold issued.
  rewrite Hw2, Hw1, <- app_assoc, drop_app_length. cbn [app].
  split; [done|]. split; [done|]. intros Hno.
  destruct err as [err|]; [|destruct Hno; by apply Hok].
  destruct (Hrefused body err) as (x & Hx & Hfails).
  destruct (returns_at_once c n k _ x w1 es2 Hx Hw2) as [-> ->]. by split.
Qed.

Lemma stops_bind {A B} (survives : A -> Prop) (fails : B -> Prop) (c : Client)
  (m : IO A) (k : A -> IO B) (n : nat) :
  stops_at_refusal survives m ->
  (∀ a, survives a -> ∃ x, k a = mret x ∧ fails x) ->
  (∀ a, calls_through c n (k a)) ->
  stops_at_refusal fails (m ≫= k).
Proof.
  intros Hm Hrefused Hk w. unfold mbind, IO_bind.
  destruct (Hm w) as (es1 & Hw1 & _ & Hes1).
  destruct (m w) as [a w1]. cbn [fst snd] in Hw1, Hes1.
  destruct (Hk a w1) as (es2 & Hw2 & _).
  exists (es1 ++ es2). unfold issued.
  rewrite Hw2, Hw1, <- app_assoc, drop_app_length.
  split; [done|]. split; [done|].
  destruct es1 as [|e rest]; cbn [app].
  - destruct (Hrefused a Hes1) as (x & Hx & Hfails).
    by destruct (returns_at_once c n k _ x w1 es2 Hx Hw2) as [-> ->].
  - intros Hno. destruct (Hes1 Hno) as [-> Hsurvives].
    destruct (Hrefused a Hsurvives) as (x & Hx & Hfails).
    by destruct (returns_at_once c n k _ x w1 es2 Hx Hw2) as [-> ->].
Qed.

End stops.

(** The result at hand is a failure: an error was just added, or the
    test for errors just succeeded. *)
Ltac failure :=
  lazymatch goal with
  | |- ∃ resp, inl _ = inl resp ∧ failed resp => eexists; split; [reflexivity|]
  | |- _ => idtac
  end;
  unfold failed;
  cbn [snd tfsdk.stop tfsdk.Diagnostics tfsdk.State_];
  first
    [ split; [|reflexivity] | idtac ];
  first
    [ assumption
    | apply HasError_AddError
    | rewrite HasError_Append;
      match goal with
      | Herror : diag.HasError _ = true |- _ => rewrite Herror
      end;
      by rewrite ?orb_true_r ].

(** Walks an operation up to its first request; [sub] settles an
    operation that has a lemma of its own, and [through] what the rest of
    the operation puts on the wire. *)
Ltac stops_with c sub through :=
  repeat first
    [ apply stops_ret; solve [failure]
    | match goal with
      | |- stops_at_refusal _ (mbind _ (doRequest _ _)) =>
          apply (stops_doRequest _ c _ _ 1);
          [ intros; eexists; split; [reflexivity | failure]
          | intros; through_with through ]
      | |- stops_at_refusal _ (mbind _ _) =>
          eapply (stops_bind (fun a => diag.HasError (snd a) = true) _ c _ _ 1);
          [ solve [sub]
          | let Herror := fresh "Herror" in
            intros [? ?] Herror; cbn [snd] in Herror; cbv beta iota zeta;
            rewrite ?HasError_Append, Herror, ?orb_true_r;
            eexists; split; [reflexivity | failure]
          | intros; through_with through ]
      | |- stops_at_refusal _ (match ?x with _ => _ end) => destruct x eqn:?
      end ].

Section stops_reads.
Context `{Runtime}.

Lemma reads_stop_at_refusal (c : Client) :
  (∀ data, stops_at_refusal (fun a => diag.HasError (snd a) = true)
             (NetworkResource.readIntoModel {| NetworkResource.client := c |} data))
  ∧ (∀ data, stops_at_refusal (fun a => diag.HasError (snd a) = true)
               (NetworkRouterResource.readIntoModel
                  {| NetworkRouterResource.client := c |} (Some data)))
  ∧ (∀ data, stops_at_refusal (fun a => diag.HasError (snd a) = true)
               (NetworkResourceResource.readIntoModel
                  {| NetworkResourceResource.client := c |} (Some data)))
  ∧ (∀ data, stops_at_refusal (fun a => diag.HasError (snd a) = true)
               (NameserverGroupResource.readNameserverGroupIntoModel
                  {| NameserverGroupResource.client := c |} (Some data)))
  ∧ (∀ data, stops_at_refusal (fun a => diag.HasError (snd a) = true)
               (DnsSettingsResource.readDnsSettingsIntoModel
                  {| DnsSettingsResource.client := c |} data))
  ∧ (∀ data, stops_at_refusal (fun a => diag.HasError (snd a) = true)
               (DnsSettingsResource.updateDnsSettings
                  {| DnsSettingsResource.client := c |} data)).
Proof.
  repeat apply conj; intros data; operation reads; stops_with c fail fail.
Qed.

End stops_reads.

(** X12: every operation stops at a refusal.  When an operation sends
    no request at all (its input did not decode, a conversion or the
    encoding failed, the request could not be built), or when its first
    request is not answered below 400 with a readable body, it sends
    nothing more, reports an error diagnostic and leaves the state as it
    was; in particular a Create or Update whose POST or PUT is refused
    sends no GET. *)
Theorem operations_stop_at_refusal `{Runtime} (c : Client) :
  (∀ req, stops_at_refusal (fun r => ∃ resp, r = inl resp ∧ failed resp)
            (NetworkResource.Create {| NetworkResource.client := c |} req))
  ∧ (∀ req, stops_at_refusal failed
              (NetworkResource.Read {| NetworkResource.client := c |} req))
  ∧ (∀ req, stops_at_refusal failed
              (NetworkResource.Update {| NetworkResource.client := c |} req))
  ∧ (∀ req, stops_at_refusal failed
              (NetworkResource.Delete {| NetworkResource.client := c |} req))
  ∧ (∀ req, stops_at_refusal failed
              (GroupResource.Create {| GroupResource.client := c |} req))
  ∧ (∀ req, stops_at_refusal failed
              (GroupResource.Read {| GroupResource.client := c |} req))
  ∧ (∀ req, stops_at_refusal failed
              (GroupResource.Update {| GroupResource.client := c |} req))
  ∧ (∀ req, stops_at_refusal failed
              (GroupResource.Delete {| GroupResource.client := c |} req))
  ∧ (∀ req, stops_at_refusal failed
              (PolicyResource.Create {| PolicyResource.client := c |} req))
  ∧ (∀ req, stops_at_refusal failed
              (PolicyResource.Read {| PolicyResource.client := c |} req))
  ∧ (∀ req, stops_at_refusal failed
              (PolicyResource.Update {| PolicyResource.client := c |} req))
  ∧ (∀ req, stops_at_refusal failed
              (PolicyResource.Delete {| PolicyResource.client := c |} req))
  ∧ (∀ req, stops_at_refusal failed
              (NetworkRouterResource.Create {| NetworkRouterResource.client := c |} req))
  ∧ (∀ req, stops_at_refusal failed
              (NetworkRouterResource.Read {| NetworkRouterResource.client := c |} req))
  ∧ (∀ req, stops_at_refusal failed
              (NetworkRouterResource.Update {| NetworkRouterResource.client := c |} req))
  ∧ (∀ req, stops_at_refusal failed
              (NetworkRouterResource.Delete {| NetworkRouterResource.client := c |} req))
  ∧ (∀ req, stops_at_refusal failed
              (NetworkResourceResource.Create
                 {| NetworkResourceResource.client := c |} req))
  ∧ (∀ req, stops_at_refusal failed
              (NetworkResourceResource.Read
                 {| NetworkResourceResource.client := c |} req))
  ∧ (∀ req, stops_at_refusal failed
              (NetworkResourceResource.Update
                 {| NetworkResourceResource.client := c |} req))
  ∧ (∀ req, stops_at_refusal failed
              (NetworkResourceResource.Delete
                 {| NetworkResourceResource.client := c |} req))
  ∧ (∀ req, stops_at_refusal failed
              (SetupKeyResource.Delete {| SetupKeyResource.client := c |} req))
  ∧ (∀ req, stops_at_refusal failed
              (NameserverGroupResource.Create
                 {| NameserverGroupResource.client := c |} req))
  ∧ (∀ req, stops_at_refusal failed
              (NameserverGroupResource.Read
                 {| NameserverGroupResource.client := c |} req))
  ∧ (∀ req, stops_at_refusal failed
              (NameserverGroupResource.Update
                 {| NameserverGroupResource.client := c |} req))
  ∧ (∀ req, stops_at_refusal failed
              (NameserverGroupResource.Delete
                 {| NameserverGroupResource.client := c |} req))
  ∧ (∀ req, stops_at_refusal failed
              (DnsSettingsResource.Create {| DnsSettingsResource.client := c |} req))
  ∧ (∀ req, stops_at_refusal failed
              (DnsSettingsResource.Read {| DnsSettingsResource.client := c |} req))
  ∧ (∀ req, stops_at_refusal failed
              (DnsSettingsResource.Update {| DnsSettingsResource.client := c |} req))
  ∧ (∀ req, stops_at_refusal failed
              (DnsSettingsResource.Delete {| DnsSettingsResource.client := c |} req))
  ∧ (∀ req, stops_at_refusal failed
              (PeersDataSource.Read {| PeersDataSource.client := c |} req))
  ∧ (∀ req, stops_at_refusal failed
              (PeerDataSource.Read {| PeerDataSource.client := c |} req)).
Proof.
  pose proof (reads_stop_at_refusal c) as (Hnet & Hrouter & Hres & Hns & Hdns & Hput).
  repeat apply conj; intros req; operation operations;
    stops_with c
      ltac:(first [ apply Hnet | apply Hrouter | apply Hres
                  | apply Hns | apply Hdns | apply Hput ])
      ltac:(first [ apply NetworkResource_readIntoModel_through
                  | apply NetworkRouterResource_readIntoModel_through
                  | apply NetworkResourceResource_readIntoModel_through
                  | apply readNameserverGroupIntoModel_through
                  | apply readDnsSettingsIntoModel_through
                  | apply updateDnsSettings_through ]).
Qed.

(** ** The identifier a Create stores *)

Section stores.
Context `{Runtime}.

(** What a [doRequest] that returns without error has seen. *)
Lemma doRequest_answered (c : Client) (req : http.Request) (w : World) :
  ∃ e,
    wire (snd (doRequest c req w)) = wire w ++ [e]
    ∧ (snd (fst (doRequest c req w)) = None ->
       ∃ resp,
         fst (roundTrip (remote w) (via e) (sent e)) = inl resp
         ∧ fst (fst (doRequest c req w)) = slice.Of (http.content (http.RespBody resp))).
Proof.
  destruct (doRequest_run c req w) as (e & _ & _ & _ & _ & _ & Hw & Hres).
  exists e. rewrite Hw, Hres. split; [done|].
  destruct (fst (roundTrip (remote w) (via e) (sent e))) as [resp|err]; [|done].
  destruct (http.readErr (http.RespBody resp)); [done|].
  destruct (400 <=? http.StatusCode resp)%Z; [done|].
  intros _. by exists resp.
Qed.

Lemma stores_ret {A M R} (view : A -> option M) (ID : M -> types.String)
  (decode : list byte -> R + error) (id_of : R -> option types.String) (a : A) :
  view a = None -> stores_id view ID decode id_of (mret a).
Proof. intros Hnone w data'. cbn. by rewrite Hnone. Qed.

Lemma stores_doRequest {A M R} (view : A -> option M) (ID : M -> types.String)
  (decode : list byte -> R + error) (id_of : R -> option types.String)
  (c : Client) (req : http.Request) (k : slice.t byte * option error -> IO A) (n : nat) :
  (∀ a, calls_through c n (k a)) ->
  (∀ body err w1 data',
     view (fst (k (body, err) w1)) = Some data' ->
     err = None
     ∧ ∃ responseData,
         decode (slice.elems body) = inl responseData
         ∧ id_of responseData = Some (ID data')) ->
  stores_id view ID decode id_of (doRequest c req ≫= k).
Proof.
  intros Hk Htail w data'. unfold first_answer, mbind, IO_bind.
  destruct (doRequest_answered c req w) as (e & Hw1 & Hanswered).
  destruct (doRequest c req w) as [[body err] w1]. cbn [fst snd] in Hw1, Hanswered.
  destruct (Hk (body, err) w1) as (es2 & Hw2 & _).
  intros Hwritten.
  destruct (Htail body err w1 data' Hwritten) as (-> & responseData & Hdecode & Hid).
  destruct (Hanswered eq_refl) as (resp & Hresp & ->).
  exists resp, responseData. unfold issued.
  rewrite Hw2, Hw1, <- app_assoc, drop_app_length. cbn [app].
  by rewrite Hresp.
Qed.

Lemma convertPolicyFromApiModel_ID (data : netbirdApi.Policy) :
  PolicyResource.ID (fst (PolicyResource.convertPolicyFromApiModel data))
  = derefString (netbirdApi.Policy_Id data).
Proof.
  unfold PolicyResource.convertPolicyFromApiModel.
  by repeat match goal with
            | |- context [match ?x with _ => _ end] => destruct x
            end.
Qed.

End stores.

(** Runs what follows the first request to its ends, keeping what the
    reads and the conversion do to the identifier, and settles every
    end: nothing is written, or the identifier is the decoded one. *)
Ltac stored :=
  let Hwritten := fresh "Hwritten" in
  intros ? ? ? ?; cbv beta iota zeta; unfold mbind, IO_bind;
  repeat match goal with
         | |- context [NetworkResource.readIntoModel ?r ?d ?w] =>
             pose proof (NetworkResource_readIntoModel_keeps_ID r d w);
             destruct (NetworkResource.readIntoModel r d w) as [[? ?] ?]
         | |- context [NetworkRouterResource.readIntoModel ?r (Some ?d) ?w] =>
             pose proof (NetworkRouterResource_readIntoModel_keeps_ID r d w);
             destruct (NetworkRouterResource.readIntoModel r (Some d) w) as [[[?|] ?] ?]
         | |- context [NetworkResourceResource.readIntoModel ?r (Some ?d) ?w] =>
             pose proof (NetworkResourceResource_readIntoModel_keeps_ID r d w);
             destruct (NetworkResourceResource.readIntoModel r (Some d) w) as [[[?|] ?] ?]
         | |- context [NameserverGroupResource.readNameserverGroupIntoModel
                         ?r (Some ?d) ?w] =>
             pose proof (readNameserverGroupIntoModel_keeps_ID r d w);
             destruct (NameserverGroupResource.readNameserverGroupIntoModel r (Some d) w)
               as [[[?|] ?] ?]
         | |- context [PolicyResource.convertPolicyFromApiModel ?p] =>
             pose proof (convertPolicyFromApiModel_ID p);
             destruct (PolicyResource.convertPolicyFromApiModel p) as [? ?]
         | |- _ => progress cbn [fst snd mret IO_ret written tfsdk.State_ tfsdk.stop]
         | |- context [match ?x with _ => _ end] =>
             lazymatch x with
             | context [match _ with _ => _ end] => fail
             | _ => destruct x eqn:?
             end
         end;
  cbn [fst snd mret IO_ret written tfsdk.State_ tfsdk.stop default from_option id];
  intros Hwritten; first [ discriminate Hwritten | injection Hwritten as <- ];
  (split; [reflexivity|]); eexists; (split; [first [ reflexivity | eassumption ]|]);
  repeat match goal with
         | Hkept : _ <$> fst (fst _) = Some _ |- _ =>
             cbn [fst fmap option_fmap option_map] in Hkept;
             first [ discriminate Hkept | injection Hkept as Hkept ]
         | Hkept : _ (fst (fst _)) = _ |- _ => cbn [fst] in Hkept
         | Hkept : _ (fst _) = _ |- _ => cbn [fst] in Hkept
         | Hid : ?obj !! "id" = _ |- context [?obj !! "id"] => rewrite Hid
         end;
  first [ reflexivity | by f_equal | congruence ].

Ltac stores_with c through :=
  repeat first
    [ apply stores_ret; reflexivity
    | match goal with
      | |- stores_id _ _ _ _ (mbind _ (doRequest _ _)) =>
          apply (stores_doRequest _ _ _ _ c _ _ 1);
          [ intros; through_with through | stored ]
      | |- stores_id _ _ _ _ (match ?x with _ => _ end) => destruct x
      end ].

(** X13: the identifier in the state is the one the API gave.  When the
    Create of a network, group, policy, router, network resource or
    nameserver group writes the state, its POST was answered with a body
    that decodes, and the model written carries the identifier found in
    that decoded answer; the same holds for the Update of a group and the
    Read and Update of a policy, which take the identifier from the
    answer to their PUT or GET.  The Create of the DNS settings always
    writes the fixed identifier dns-settings. *)
Theorem Create_stores_the_identifier_of_the_answer `{Runtime} (c : Client) :
  (∀ req,
     stores_id
       (fun r => match r with inl resp => written resp | inr _ => None end)
       NetworkResource.ID Unmarshal_Object
       (fun obj =>
          match obj !! "id" with
          | Some (netbirdApi.AnyString id) => Some (types.StringValue id)
          | _ => None
          end)
       (NetworkResource.Create {| NetworkResource.client := c |} req))
  ∧ (∀ req,
     stores_id written GroupResource.ID Unmarshal_Group
       (fun g => Some (types.StringValue (netbirdApi.Group_Id g)))
       (GroupResource.Create {| GroupResource.client := c |} req))
  ∧ (∀ req,
     stores_id written GroupResource.ID Unmarshal_Group
       (fun g => Some (types.StringValue (netbirdApi.Group_Id g)))
       (GroupResource.Update {| GroupResource.client := c |} req))
  ∧ (∀ req,
     stores_id written PolicyResource.ID Unmarshal_Policy
       (fun p => Some (derefString (netbirdApi.Policy_Id p)))
       (PolicyResource.Create {| PolicyResource.client := c |} req))
  ∧ (∀ req,
     stores_id written PolicyResource.ID Unmarshal_Policy
       (fun p => Some (derefString (netbirdApi.Policy_Id p)))
       (PolicyResource.Read {| PolicyResource.client := c |} req))
  ∧ (∀ req,
     stores_id written PolicyResource.ID Unmarshal_Policy
       (fun p => Some (derefString (netbirdApi.Policy_Id p)))
       (PolicyResource.Update {| PolicyResource.client := c |} req))
  ∧ (∀ req,
     stores_id written NetworkRouterResource.ID Unmarshal_NetworkRouter
       (fun r => Some (types.StringValue (netbirdApi.NetworkRouter_Id r)))
       (NetworkRouterResource.Create {| NetworkRouterResource.client := c |} req))
  ∧ (∀ req,
     stores_id written NetworkResourceResource.ID Unmarshal_NetworkResource
       (fun r => Some (types.StringValue (netbirdApi.NetworkResource_Id r)))
       (NetworkResourceResource.Create {| NetworkResourceResource.client := c |} req))
  ∧ (∀ req,
     stores_id written NameserverGroupResource.ID Unmarshal_NameserverGroup
       (fun g => Some (types.StringValue (netbirdApi.NameserverGroup_Id g)))
       (NameserverGroupResource.Create {| NameserverGroupResource.client := c |} req))
  ∧ (∀ req,
     writes_id DnsSettingsResource.ID (types.StringValue "dns-settings")
       (DnsSettingsResource.Create {| DnsSettingsResource.client := c |} req)).
Proof.
  repeat apply conj; intros req; operation operations.
  1-9: stores_with c
         ltac:(first [ apply NetworkResource_readIntoModel_through
                     | apply NetworkRouterResource_readIntoModel_through
                     | apply NetworkResourceResource_readIntoModel_through
                     | apply readNameserverGroupIntoModel_through ]).
  intros w data'. run_keeping_ids.
  all: cbn [fst mret IO_ret tfsdk.State_ tfsdk.stop];
    first [ discriminate | intros [= <-] ];
    match goal with
    | Hkept : _ (fst (fst _)) = _ |- _ => cbn [fst] in Hkept; exact Hkept
    end.
Qed.

(** ** Worked examples *)

(** X11, on an example: the Read of the nameserver group ns-1, answered
    with the group, writes a model with the identifier ns-1. *)
Lemma Read_and_Update_keep_the_identifier_example :
  let op :=
    NameserverGroupResource.Read (H := fixture.runtime)
      {| NameserverGroupResource.client := fixture.client |}
      (fixture.decoded fixture.nsgroup_data) in
  let w := fixture.world [fixture.answer 200 fixture.nsgroup_body] in
  ∃ data',
    tfsdk.State_ (fst (op w)) = tfsdk.Written data'
    ∧ NameserverGroupResource.ID data' = types.StringValue "ns-1".
Proof.
  cbn zeta. eexists. split; [by vm_compute|].
  refine (proj1 (proj1 (proj2 (proj2 (proj2
    (Read_and_Update_keep_the_identifier (H := fixture.runtime) fixture.client))))
    fixture.nsgroup_data [])
    (fixture.world [fixture.answer 200 fixture.nsgroup_body]) _ _).
  by vm_compute.
Defined.

(** X12, on an example: the Update of the network net-1 whose PUT is
    answered 500 sends that one request, reports an error and leaves the
    state alone, although the API would have answered the GET. *)
Lemma operations_stop_at_refusal_example :
  let op :=
    NetworkResource.Update (H := fixture.runtime)
      {| NetworkResource.client := fixture.client |}
      (fixture.decoded fixture.network_data) in
  let w :=
    fixture.world [fixture.answer 500 "boom"; fixture.answer 200 fixture.network_body] in
  map (fun e => http.Method (sent e)) (issued w (snd (op w))) = ["PUT"]
  ∧ failed (fst (op w)).
Proof.
  cbn zeta.
  destruct (proj1 (proj2 (proj2
              (operations_stop_at_refusal (H := fixture.runtime) fixture.client)))
              (fixture.decoded fixture.network_data)
              (fixture.world
                 [fixture.answer 500 "boom"; fixture.answer 200 fixture.network_body]))
    as (es & _ & Hissued & Hstops).
  rewrite Hissued.
  destruct es as [|e rest]; [by vm_compute in Hissued|].
  destruct Hstops as [-> Hfailed].
  - vm_compute in Hissued. injection Hissued as <-.
    vm_compute. intros [_ Hstatus]. discriminate Hstatus.
  - split; [|exact Hfailed].
    vm_compute in Hissued. by injection Hissued as <-.
Defined.

(** X13, on an example: the Create of a network whose POST is answered
    with the object of identifier net-1, and whose GET is answered with
    the network, writes a model with the identifier net-1. *)
Lemma Create_stores_the_identifier_of_the_answer_example :
  let op :=
    NetworkResource.Create (H := fixture.runtime)
      {| NetworkResource.client := fixture.client |}
      (fixture.decoded fixture.network_data) in
  let w :=
    fixture.world [fixture.answer 201 "{id:net-1}";
                   fixture.answer 200 fixture.network_body] in
  ∃ resp data',
    fst (op w) = inl resp
    ∧ tfsdk.State_ resp = tfsdk.Written data'
    ∧ NetworkResource.ID data' = types.StringValue "net-1".
Proof.
  cbn zeta. eexists. eexists. split; [by vm_compute|]. split; [reflexivity|].
  match goal with
  | |- NetworkResource.ID ?data' = _ =>
      destruct (proj1 (Create_stores_the_identifier_of_the_answer
                         (H := fixture.runtime) fixture.client)
                  (fixture.decoded fixture.network_data)
                  (fixture.world [fixture.answer 201 "{id:net-1}";
                                  fixture.answer 200 fixture.network_body])
                  data')
        as (resp & responseData & Hanswer & Hdecode & Hid)
  end.
  - by vm_compute.
  - vm_compute in Hanswer. injection Hanswer as <-.
    vm_compute in Hdecode. injection Hdecode as <-.
    apply (inj Some). rewrite <- Hid. by vm_compute.
Defined.

(** ** A nameserver group, read and sent back *)

Lemma collect_elems {A B} (f : A -> B) (s : slice.t A) :
  slice.elems (slice.collect f s) = map f (slice.elems s).
Proof.
  destruct (slice.elems s) as [|a l] eqn:Hs.
  - by rewrite (collect_empty _ _ Hs).
  - by rewrite (collect_cons _ _ _ _ Hs).
Qed.

Lemma nameservers_back (l : list netbirdApi.Nameserver) :
  Forall (fun n => in_int32 (netbirdApi.Nameserver_Port n)) l ->
  map (fun nameserverConfig =>
         {| netbirdApi.Nameserver_Ip :=
              types.ValueString (NameserverGroupResource.Ip nameserverConfig);
            netbirdApi.Nameserver_NsType :=
              types.ValueString (NameserverGroupResource.NsType nameserverConfig);
            netbirdApi.Nameserver_Port :=
              types.ValueInt32 (NameserverGroupResource.Port nameserverConfig) |})
    (map (fun nameserver =>
            {| NameserverGroupResource.Ip :=
                 types.StringValue (netbirdApi.Nameserver_Ip nameserver);
               NameserverGroupResource.NsType :=
                 types.StringValue (netbirdApi.Nameserver_NsType nameserver);
               NameserverGroupResource.Port :=
                 types.Int32Value (int32 (netbirdApi.Nameserver_Port nameserver)) |}) l)
  = l.
Proof.
  induction 1 as [|n ns Hport _ IH]; [done|].
  cbn [map types.ValueInt32 types.ValueString NameserverGroupResource.Ip
       NameserverGroupResource.NsType NameserverGroupResource.Port].
  rewrite (int32_small _ Hport), IH. by destruct n.
Qed.

(** X14: a nameserver group that was just read is sent back as it is.
    When the group is fetched and decoded and the ports of its
    nameservers fit an int32, readNameserverGroupIntoModel gives a model
    without diagnostics, and nameserverGroupModelToApiRequest turns that
    model into a request with the name, description, nameservers, groups,
    domains and flags of the fetched group (a nil list of groups or
    domains is sent as an empty one). *)
Theorem nameserver_group_read_then_sent `{Runtime}
  (r : NameserverGroupResource.t) (data : NameserverGroupResource.Model)
  (w w' : World) (httpReq : http.Request) (body : list byte)
  (responseData : netbirdApi.NameserverGroup) :
  http_NewRequest "GET"
    (BaseUrl (NameserverGroupResource.client r) +:+ "/api/dns/nameservers/"
     +:+ types.ValueString (NameserverGroupResource.ID data)) slice.Nil
  = inl httpReq ->
  doRequest (NameserverGroupResource.client r) httpReq w = ((slice.Of body, None), w') ->
  Unmarshal_NameserverGroup body = inl responseData ->
  Forall (fun n => in_int32 (netbirdApi.Nameserver_Port n))
    (slice.elems (netbirdApi.NameserverGroup_Nameservers responseData)) ->
  ∃ data' request,
    fst (NameserverGroupResource.readNameserverGroupIntoModel r (Some data) w)
    = (Some data', [])
    ∧ NameserverGroupResource.nameserverGroupModelToApiRequest data' = (Some request, [])
    ∧ netbirdApi.NameserverGroupRequest_Name request
      = netbirdApi.NameserverGroup_Name responseData
    ∧ netbirdApi.NameserverGroupRequest_Description request
      = netbirdApi.NameserverGroup_Description responseData
    ∧ slice.elems (netbirdApi.NameserverGroupRequest_Nameservers request)
      = slice.elems (netbirdApi.NameserverGroup_Nameservers responseData)
    ∧ netbirdApi.NameserverGroupRequest_Groups request
      = slice.Of (slice.elems (netbirdApi.NameserverGroup_Groups responseData))
    ∧ netbirdApi.NameserverGroupRequest_Primary request
      = netbirdApi.NameserverGroup_Primary responseData
    ∧ netbirdApi.NameserverGroupRequest_Domains request
      = slice.Of (slice.elems (netbirdApi.NameserverGroup_Domains responseData))
    ∧ netbirdApi.NameserverGroupRequest_SearchDomainsEnabled request
      = netbirdApi.NameserverGroup_SearchDomainsEnabled responseData
    ∧ netbirdApi.NameserverGroupRequest_Enabled request
      = netbirdApi.NameserverGroup_Enabled responseData.
Proof.
  intros Hnew Hdo Hjson Hports.
  unfold NameserverGroupResource.readNameserverGroupIntoModel. rewrite Hnew.
  unfold mbind, IO_bind. rewrite Hdo.
  cbn [slice.is_nil slice.elems]. rewrite Hjson.
  rewrite !convertStringSliceToListValue_known.
  cbn [diag.HasError existsb fst mret IO_ret].
  eexists. eexists. split; [reflexivity|].
  unfold NameserverGroupResource.nameserverGroupModelToApiRequest.
  cbn [NameserverGroupResource.PeerGroups NameserverGroupResource.Domains].
  rewrite !convertListToStringSlice_of_strings.
  cbn [diag.HasError existsb].
  split; [reflexivity|].
  cbn [netbirdApi.NameserverGroupRequest_Name
       netbirdApi.NameserverGroupRequest_Description
       netbirdApi.NameserverGroupRequest_Nameservers
       netbirdApi.NameserverGroupRequest_Groups
       netbirdApi.NameserverGroupRequest_Primary
       netbirdApi.NameserverGroupRequest_Domains
       netbirdApi.NameserverGroupRequest_SearchDomainsEnabled
       netbirdApi.NameserverGroupRequest_Enabled
       NameserverGroupResource.Name NameserverGroupResource.Description
       NameserverGroupResource.Nameservers NameserverGroupResource.Primary
       NameserverGroupResource.SearchDomainsEnabled NameserverGroupResource.Enabled
       types.ValueString types.ValueBool types.BoolPointerValue derefString].
  repeat apply conj; try reflexivity.
  - unfold nullStringToEmptyString. by case_decide.
  - rewrite !collect_elems. by apply nameservers_back.
Qed.

(** X14, on an example: the nameserver group ns-1 as the API answers
    it. *)
Lemma nameserver_group_read_then_sent_example :
  ∃ data' request,
    fst (NameserverGroupResource.readNameserverGroupIntoModel (H := fixture.runtime)
           {| NameserverGroupResource.client := fixture.client |}
           (Some fixture.nsgroup_data)
           (fixture.world [fixture.answer 200 fixture.nsgroup_body]))
    = (Some data', [])
    ∧ NameserverGroupResource.nameserverGroupModelToApiRequest data' = (Some request, [])
    ∧ netbirdApi.NameserverGroupRequest_Name request = "dns"
    ∧ netbirdApi.NameserverGroupRequest_Description request = ""
    ∧ netbirdApi.NameserverGroupRequest_Groups request = slice.Of ["g-1"]
    ∧ netbirdApi.NameserverGroupRequest_Domains request = slice.Of [].
Proof.
  destruct (nameserver_group_read_then_sent (H := fixture.runtime)
              {| NameserverGroupResource.client := fixture.client |} fixture.nsgroup_data
              (fixture.world [fixture.answer 200 fixture.nsgroup_body]) _ _
              (fixture.bytes fixture.nsgroup_body) fixture.nsgroup
              eq_refl eq_refl)
    as (data' & request & Hread & Hsent & Hname & Hdesc & _ & Hgroups & _ & Hdomains & _).
  - by vm_compute.
  - constructor.
  - exists data', request. by repeat split.
Defined.

(** ** The type assertion in the Create of a network *)

(** X15: the Create of a network panics exactly when its POST was
    answered below 400 with a readable body that decodes into a JSON
    object without a string under the key id; it has then sent that one
    request, and written nothing. *)
Theorem NetworkResource_Create_panics_without_id `{Runtime}
  (c : Client) (req : tfsdk.Source NetworkResource.Model) (w : World) :
  let op := NetworkResource.Create {| NetworkResource.client := c |} req in
  (∃ p, fst (op w) = inr p)
  ↔ ∃ e resp responseData,
      issued w (snd (op w)) = [e]
      ∧ answered_ok w e
      ∧ fst (roundTrip (remote w) (via e) (sent e)) = inl resp
      ∧ Unmarshal_Object (http.content (http.RespBody resp)) = inl responseData
      ∧ ∀ id, responseData !! "id" ≠ Some (netbirdApi.AnyString id).
Proof.
  cbn zeta. operation operations.
  assert (Hnothing : ∀ e, issued w w ≠ [e]).
  { intros e. unfold issued. by rewrite drop_all. }
  destruct (tfsdk.Get req) as [data ds].
  destruct (diag.HasError (diag.Append [] ds)).
  { split; [by intros [p Hp] | by intros (e & ? & ? & He & _); destruct (Hnothing e)]. }
  destruct (Marshal_StringMap _) as [requestBody|err].
  2: { split; [by intros [p Hp] | by intros (e & ? & ? & He & _); destruct (Hnothing e)]. }
  destruct (http_NewRequest _ _ _) as [httpReq|err].
  2: { split; [by intros [p Hp] | by intros (e & ? & ? & He & _); destruct (Hnothing e)]. }
  unfold mbind, IO_bind.
  match goal with
  | |- context [doRequest c ?request w] =>
      destruct (doRequest_run c request w) as (e0 & _ & _ & _ & _ & _ & Hw1 & Hres);
      destruct (doRequest c request w) as [res w1]
  end.
  cbn [fst snd] in Hw1, Hres. subst res w1.
  unfold answered_ok.
  destruct (fst (roundTrip (remote w) (via e0) (sent e0))) as [resp0|err] eqn:Hanswer.
  2: { cbn [fst snd mret IO_ret]. rewrite issued_app. split; [by intros [p Hp]|].
       intros (e & resp & ? & [= <-] & _ & Hresp & _). congruence. }
  destruct (http.readErr (http.RespBody resp0)) as [readError|] eqn:Hread.
  { cbn [fst snd mret IO_ret]. rewrite issued_app. split; [by intros [p Hp]|].
    intros (e & resp & ? & [= <-] & Hok & _). rewrite Hanswer in Hok.
    destruct Hok as [Hok _]. congruence. }
  destruct (Z.leb_spec 400 (http.StatusCode resp0)) as [Hstatus|Hstatus].
  { cbn [fst snd mret IO_ret]. rewrite issued_app. split; [by intros [p Hp]|].
    intros (e & resp & ? & [= <-] & Hok & _). rewrite Hanswer in Hok.
    destruct Hok as [_ Hok]. lia. }
  cbn [slice.elems].
  destruct (Unmarshal_Object (http.content (http.RespBody resp0)))
    as [responseData0|err] eqn:Hdecode.
  2: { cbn [fst snd mret IO_ret]. rewrite issued_app. split; [by intros [p Hp]|].
       intros (e & resp & ? & [= <-] & _ & Hresp & Hjson & _).
       rewrite Hanswer in Hresp. injection Hresp as <-. congruence. }
  assert (Hpanics :
    (∀ id, responseData0 !! "id" ≠ Some (netbirdApi.AnyString id)) ->
    ∃ e resp responseData,
      issued w {| remote := snd (roundTrip (remote w) (via e0) (sent e0));
                  wire := wire w ++ [e0] |} = [e]
      ∧ match fst (roundTrip (remote w) (via e) (sent e)) with
        | inl resp =>
            http.readErr (http.RespBody resp) = None ∧ (http.StatusCode resp < 400)%Z
        | inr _ => False
        end
      ∧ fst (roundTrip (remote w) (via e) (sent e)) = inl resp
      ∧ Unmarshal_Object (http.content (http.RespBody resp)) = inl responseData
      ∧ ∀ id, responseData !! "id" ≠ Some (netbirdApi.AnyString id)).
  { intros Hnone. exists e0, resp0, responseData0. rewrite issued_app, Hanswer.
    by repeat split. }
  destruct (responseData0 !! "id") as [[id|]|] eqn:Hid.
  - split.
    + intros [p Hp]. revert Hp.
      match goal with
      | |- context [NetworkResource.readIntoModel ?r ?d ?w1] =>
          destruct (NetworkResource.readIntoModel r d w1) as [[data' diags] w2]
      end.
      by destruct (diag.HasError _).
    + intros (e & resp & responseData & Hissued & _ & Hresp & Hjson & Hnone).
      revert Hissued.
      match goal with
      | |- context [NetworkResource.readIntoModel ?r ?d ?w1] =>
          destruct (NetworkResource_readIntoModel_through c d w1)
            as (es2 & Hw2 & _);
          destruct (NetworkResource.readIntoModel r d w1) as [[data' diags] w2]
      end.
      cbn [snd wire] in Hw2.
      assert (Hall : ∀ w3 : World, wire w3 = wire w2 -> issued w w3 = e0 :: es2).
      { intros w3 Hw3. unfold issued.
        by rewrite Hw3, Hw2, <- app_assoc, drop_app_length. }
      destruct (diag.HasError _); cbn [fst snd mret IO_ret];
        rewrite (Hall w2 eq_refl); intros [= <- _];
        rewrite Hanswer in Hresp; injection Hresp as <-;
        rewrite Hdecode in Hjson; injection Hjson as <-;
        by destruct (Hnone id).
  - cbn [fst snd mret IO_ret]. split; [intros _ | by eexists].
    apply Hpanics. by intros id.
  - cbn [fst snd mret IO_ret]. split; [intros _ | by eexists].
    apply Hpanics. by intros id.
Qed.

(** X15, on an example: the POST is answered 201 with the empty
    object. *)
Lemma NetworkResource_Create_panics_without_id_example :
  ∃ p,
    fst (NetworkResource.Create (H := second.runtime)
           {| NetworkResource.client := fixture.client |}
           (fixture.decoded fixture.network_data)
           (second.world [fixture.answer 201 "{}"]))
    = inr p.
Proof.
  apply (proj2 (NetworkResource_Create_panics_without_id (H := second.runtime)
                  fixture.client (fixture.decoded fixture.network_data)
                  (second.world [fixture.answer 201 "{}"]))).
  eexists. eexists. exists ∅.
  split; [by vm_compute|]. split; [by vm_compute|].
  split; [by vm_compute|]. split; [by vm_compute|].
  intros id. by rewrite lookup_empty.
Defined.

(** ** The identifier of the peer data source *)

(** X16: the Read of the peer data source never rejects an identifier.
    With a quoting that never gives the empty string, as strconv.Quote,
    the test of the identifier's printed form against the empty string
    never succeeds, so the diagnostic ID is invalid is never reported:
    whatever the identifier, null and empty included, and when
    http.NewRequest accepts the URL, one GET goes out to
    /api/peers/ followed by the identifier's string. *)
Theorem PeerDataSource_Read_never_rejects_the_id `{Runtime}
  (c : Client) (data : PeerDataSourceModel) (w : World) :
  (∀ s, Quote s ≠ "") ->
  let op :=
    PeerDataSource.Read {| PeerDataSource.client := c |} {| tfsdk.Get := (data, []) |} in
  let endpoint := BaseUrl c +:+ "/api/peers/" +:+ types.ValueString (Peer_ID data) in
  (diag.NewAttributeErrorDiagnostic "id" "ID is invalid" "ID must be set to a valid string"
     ∉ tfsdk.Diagnostics (fst (op w)))
  ∧ (NewRequest_error "GET" endpoint = None ->
     ∃ e, issued w (snd (op w)) = [e]
          ∧ http.Method (sent e) = "GET"
          ∧ http.URL (sent e) = endpoint).
Proof.
  intros Hquote. cbn zeta. operation operations. cbn [tfsdk.Get].
  replace (diag.HasError (diag.Append [] [])) with false by reflexivity.
  assert (Hprinted : types.String_String Quote (Peer_ID data) ≠ "").
  { destruct (Peer_ID data) as [| |s]; cbn; [done | done | apply Hquote]. }
  case_decide; [done|].
  change (diag.Append [] []) with (@nil diag.Diagnostic).
  unfold http_NewRequest.
  destruct (NewRequest_error _ _) as [err|].
  { split; [|done]. cbn [fst mret IO_ret tfsdk.stop tfsdk.Diagnostics].
    rewrite (AddError_fresh [] _ _ eq_refl). by intros [=]%list_elem_of_singleton. }
  unfold mbind, IO_bind.
  match goal with
  | |- context [doRequest c ?request w] =>
      destruct (doRequest_issued c request w) as (e & Hissued & Hw1 & _ & HM & HU & _);
      destruct (doRequest c request w) as [[body [err|]] w1]
  end; cbn [fst snd] in Hissued, Hw1.
  - cbn [fst snd mret IO_ret tfsdk.stop tfsdk.Diagnostics].
    rewrite (AddError_fresh [] _ _ eq_refl).
    split; [by intros [=]%list_elem_of_singleton | intros _; by exists e].
  - destruct (Unmarshal_PeerBatch _) as [peerBatch|err];
      cbn [fst snd mret IO_ret tfsdk.stop tfsdk.Diagnostics].
    + split; [by intros ?%elem_of_nil | intros _; by exists e].
    + rewrite (AddError_fresh [] _ _ eq_refl).
      split; [by intros [=]%list_elem_of_singleton | intros _; by exists e].
Qed.

(** X16, on an example: a null identifier. *)
Lemma PeerDataSource_Read_never_rejects_the_id_example :
  let op :=
    PeerDataSource.Read (H := second.runtime) {| PeerDataSource.client := fixture.client |}
      (fixture.decoded (second.peer_data types.StringNull)) in
  let w := second.world [fixture.answer 404 "not found"] in
  (diag.NewAttributeErrorDiagnostic "id" "ID is invalid" "ID must be set to a valid string"
     ∉ tfsdk.Diagnostics (fst (op w)))
  ∧ ∃ e, issued w (snd (op w)) = [e]
         ∧ http.Method (sent e) = "GET"
         ∧ http.URL (sent e) = "https://api.netbird.io/api/peers/".
Proof.
  cbn zeta.
  destruct (PeerDataSource_Read_never_rejects_the_id (H := second.runtime)
              fixture.client (second.peer_data types.StringNull)
              (second.world [fixture.answer 404 "not found"]))
    as [Hnever Hsent].
  - intros s. unfold Quote, second.runtime, second.quotation_mark. discriminate.
  - split; [exact Hnever|]. by apply Hsent.
Defined.

(** ** A router and a network resource, read and sent back *)

(** X17: a router or a network resource that was just read is sent back
    as it is.  When the router is fetched and decoded and its metric
    fits an int32, readIntoModel gives a model without diagnostics that
    modelToApiRequest turns into a request with the peer, peer groups,
    metric and flags of the fetched router (no peer groups are sent as an
    empty list); and a fetched network resource comes back from
    resourceModelToApiRequest with its name, description, address and
    flag, and with the identifiers of its groups in order. *)
Theorem router_and_resource_read_then_sent `{Runtime} (c : Client) (w : World)
  (httpReq : http.Request) (body : list byte) :
  fst (doRequest c httpReq w) = (slice.Of body, None) ->
  (∀ data responseData,
     http_NewRequest "GET"
       (BaseUrl c +:+ "/api/networks/"
        +:+ types.ValueString (NetworkRouterResource.NetworkId data)
        +:+ "/routers/" +:+ types.ValueString (NetworkRouterResource.ID data)) slice.Nil
     = inl httpReq ->
     Unmarshal_NetworkRouter body = inl responseData ->
     in_int32 (netbirdApi.NetworkRouter_Metric responseData) ->
     ∃ data',
       fst (NetworkRouterResource.readIntoModel
              {| NetworkRouterResource.client := c |} (Some data) w)
       = (Some data', [])
       ∧ NetworkRouterResource.modelToApiRequest data' =
         (Some
            {| netbirdApi.NetworkRouterRequest_Peer :=
                 netbirdApi.NetworkRouter_Peer responseData;
               netbirdApi.NetworkRouterRequest_PeerGroups :=
                 Some (slice.Of
                         (slice.elems
                            (derefStringSlice
                               (netbirdApi.NetworkRouter_PeerGroups responseData))));
               netbirdApi.NetworkRouterRequest_Metric :=
                 netbirdApi.NetworkRouter_Metric responseData;
               netbirdApi.NetworkRouterRequest_Masquerade :=
                 netbirdApi.NetworkRouter_Masquerade responseData;
               netbirdApi.NetworkRouterRequest_Enabled :=
                 netbirdApi.NetworkRouter_Enabled responseData |}, []))
  ∧ (∀ data responseData,
     http_NewRequest "GET"
       (BaseUrl c +:+ "/api/networks/"
        +:+ types.ValueString (NetworkResourceResource.NetworkId data)
        +:+ "/resources/" +:+ types.ValueString (NetworkResourceResource.ID data))
       slice.Nil
     = inl httpReq ->
     Unmarshal_NetworkResource body = inl responseData ->
     ∃ data',
       fst (NetworkResourceResource.readIntoModel
              {| NetworkResourceResource.client := c |} (Some data) w)
       = (Some data', [])
       ∧ NetworkResourceResource.resourceModelToApiRequest data' =
         (Some
            {| netbirdApi.NetworkResourceRequest_Name :=
                 netbirdApi.NetworkResource_Name responseData;
               netbirdApi.NetworkResourceRequest_Description :=
                 netbirdApi.NetworkResource_Description responseData;
               netbirdApi.NetworkResourceRequest_Groups :=
                 slice.Of
                   (map netbirdApi.GroupMinimum_Id
                      (slice.elems (netbirdApi.NetworkResource_Groups responseData)));
               netbirdApi.NetworkResourceRequest_Address :=
                 netbirdApi.NetworkResource_Address responseData;
               netbirdApi.NetworkResourceRequest_Enabled :=
                 netbirdApi.NetworkResource_Enabled responseData |}, [])).
Proof.
  intros Hdo. destruct (doRequest c httpReq w) as [res w'] eqn:Hrun.
  cbn [fst] in Hdo. subst res.
  split; intros data responseData Hnew Hjson.
  - intros Hmetric.
    unfold NetworkRouterResource.readIntoModel. cbn [NetworkRouterResource.client].
    rewrite Hnew. unfold mbind, IO_bind. rewrite Hrun.
    cbn [slice.is_nil slice.elems]. rewrite Hjson.
    rewrite convertStringSliceToListValue_known.
    cbn [diag.HasError existsb fst mret IO_ret].
    eexists. split; [reflexivity|].
    unfold NetworkRouterResource.modelToApiRequest.
    cbn [NetworkRouterResource.PeerGroups].
    rewrite convertListToStringSlice_of_strings.
    cbn [diag.HasError existsb NetworkRouterResource.Peer NetworkRouterResource.Metric
         NetworkRouterResource.Masquerade NetworkRouterResource.Enabled
         types.ValueInt32 types.ValueBool].
    rewrite (int32_small _ Hmetric).
    by destruct (netbirdApi.NetworkRouter_Peer responseData).
  - unfold NetworkResourceResource.readIntoModel. cbn [NetworkResourceResource.client].
    rewrite Hnew. unfold mbind, IO_bind. rewrite Hrun.
    cbn [slice.is_nil slice.elems]. rewrite Hjson.
    unfold convertGroupMinimumToIdList.
    rewrite convertStringSliceToListValue_known.
    cbn [diag.HasError existsb fst mret IO_ret].
    eexists. split; [reflexivity|].
    unfold NetworkResourceResource.resourceModelToApiRequest.
    cbn [NetworkResourceResource.PeerGroups].
    rewrite convertListToStringSlice_of_strings, collect_elems.
    cbn [diag.HasError existsb NetworkResourceResource.Name
         NetworkResourceResource.Description NetworkResourceResource.Address
         NetworkResourceResource.Enabled types.ValueString types.ValueBool].
    by destruct (netbirdApi.NetworkResource_Description responseData).
Qed.

(** X17, on an example: the router rt-1 of the network net-1. *)
Lemma router_and_resource_read_then_sent_example :
  ∃ data',
    fst (NetworkRouterResource.readIntoModel (H := second.runtime)
           {| NetworkRouterResource.client := fixture.client |}
           (Some fixture.router_data)
           (second.world [fixture.answer 200 second.router_body]))
    = (Some data', [])
    ∧ NetworkRouterResource.modelToApiRequest data' =
      (Some
         {| netbirdApi.NetworkRouterRequest_Peer := Some "peer-1";
            netbirdApi.NetworkRouterRequest_PeerGroups := Some (slice.Of []);
            netbirdApi.NetworkRouterRequest_Metric := 9999;
            netbirdApi.NetworkRouterRequest_Masquerade := true;
            netbirdApi.NetworkRouterRequest_Enabled := true |}, []).
Proof.
  refine (proj1 (router_and_resource_read_then_sent (H := second.runtime)
                   fixture.client
                   (second.world [fixture.answer 200 second.router_body])
                   (fixture.get "https://api.netbird.io/api/networks/net-1/routers/rt-1")
                   (fixture.bytes second.router_body) _)
            fixture.router_data second.router _ _ _).
  - vm_compute. reflexivity.
  - reflexivity.
  - vm_compute. reflexivity.
  - unfold in_int32. cbn. lia.
Defined.

(** ** The rules a policy sends *)

Lemma convertListToStringSlice_strings (l : types.List) :
  forallb is_string_value (types.Elements l) = true ->
  convertListToStringSlice l = (slice.Of (map string_of_value (types.Elements l)), []).
Proof.
  intros Hstrings. unfold convertListToStringSlice.
  destruct l as [ty|ty|ty es]; cbn [types.IsNull types.IsUnknown orb types.Elements] in *;
    [reflexivity | reflexivity |].
  pose proof (convertListToStringSlice_elements_run es (slice.Of [])) as Hrun.
  rewrite Hstrings in Hrun. rewrite Hrun. by destruct es.
Qed.

(** X18: what convertToRulesUpdateApiModel sends for a policy with
    rules whose ports, sources and destinations are lists of strings:
    exactly one API rule, built from the first rule alone, whatever rules
    follow it; its lists are the strings of the first rule's lists, and
    both its source resource and its destination resource are converted
    from the first rule's source resource. *)
Theorem convertToRulesUpdateApiModel_first_rule
  (modelRule : PolicyRuleModel) (rest : list PolicyRuleModel) :
  forallb is_string_value (types.Elements (PolicyRuleModel_Ports modelRule)) = true ->
  forallb is_string_value (types.Elements (PolicyRuleModel_Sources modelRule)) = true ->
  forallb is_string_value (types.Elements (PolicyRuleModel_Destinations modelRule)) = true ->
  convertToRulesUpdateApiModel (Some (slice.Of (modelRule :: rest))) =
  (slice.Of
     [{| netbirdApi.Rule_Name := types.ValueString (PolicyRuleModel_Name modelRule);
         netbirdApi.Rule_Description :=
           types.ValueStringPointer (PolicyRuleModel_Description modelRule);
         netbirdApi.Rule_Enabled := types.ValueBool (PolicyRuleModel_Enabled modelRule);
         netbirdApi.Rule_Action := types.ValueString (PolicyRuleModel_Action modelRule);
         netbirdApi.Rule_Bidirectional :=
           types.ValueBool (PolicyRuleModel_Bidirectional modelRule);
         netbirdApi.Rule_Protocol := types.ValueString (PolicyRuleModel_Protocol modelRule);
         netbirdApi.Rule_Ports :=
           Some (slice.Of (map string_of_value
                             (types.Elements (PolicyRuleModel_Ports modelRule))));
         netbirdApi.Rule_PortRanges :=
           Some (fst (convertToRulesPortRangesApiModel
                        (Some (PolicyRuleModel_PortRanges modelRule))));
         netbirdApi.Rule_Sources :=
           Some (slice.Of (map string_of_value
                             (types.Elements (PolicyRuleModel_Sources modelRule))));
         netbirdApi.Rule_SourceResource :=
           fst (convertToRulesResourcesApiModel
                  (PolicyRuleModel_SourceResource modelRule));
         netbirdApi.Rule_Destinations :=
           Some (slice.Of (map string_of_value
                             (types.Elements (PolicyRuleModel_Destinations modelRule))));
         netbirdApi.Rule_DestinationResource :=
           fst (convertToRulesResourcesApiModel
                  (PolicyRuleModel_SourceResource modelRule)) |}],
   []).
Proof.
  intros Hports Hsources Hdestinations.
  unfold convertToRulesUpdateApiModel, convertToRulesUpdateApiModel_body.
  cbn [slice.elems].
  rewrite (convertListToStringSlice_strings _ Hports),
    (convertListToStringSlice_strings _ Hsources),
    (convertListToStringSlice_strings _ Hdestinations).
  cbn [convertToRulesPortRangesApiModel diag.Append fold_left diag.HasError existsb
       fst snd].
  by destruct (PolicyRuleModel_SourceResource modelRule).
Qed.

(** X18, on an example: the rule web, with a destination resource and
    no source resource, followed by the rule ssh. *)
Lemma convertToRulesUpdateApiModel_first_rule_example :
  ∃ apiRule,
    convertToRulesUpdateApiModel (Some fixture.two_rules) = (slice.Of [apiRule], [])
    ∧ netbirdApi.Rule_Name apiRule = "web"
    ∧ netbirdApi.Rule_Sources apiRule = Some (slice.Of ["g-1"])
    ∧ netbirdApi.Rule_SourceResource apiRule = None
    ∧ netbirdApi.Rule_DestinationResource apiRule = None.
Proof.
  eexists. split.
  - by apply (convertToRulesUpdateApiModel_first_rule
                (fixture.rule "web" None (Some fixture.host))
                [fixture.rule "ssh" None None]).
  - by repeat split.
Defined.

(** ** The methods of the operations *)

Section methods.
Context `{Runtime}.

Lemma sends_only_impl {A} (P Q : http.Request -> Prop) (op : IO A) :
  (∀ r, P r -> Q r) -> sends_only P op -> sends_only Q op.
Proof.
  intros HPQ Hop w. destruct (Hop w) as (es & Hw & Hissued & HP).
  exists es. repeat split; [done | done |].
  eapply Forall_impl; [exact HP|]. intros e. apply HPQ.
Qed.

Lemma uses_doRequest (methods : list string) (c : Client) (req : http.Request) :
  http.Method req ∈ methods -> sends_only (uses methods) (doRequest c req).
Proof.
  intros Hin. apply sends_doRequest. intros r HM _ _ _. unfold uses. by rewrite HM.
Qed.

Lemma is_get_uses (methods : list string) (r : http.Request) :
  "GET" ∈ methods -> is_get r -> uses methods r.
Proof. intros Hin [HM _]. unfold uses. by rewrite HM. Qed.

Lemma updateDnsSettings_puts (c : Client) (data : DnsSettingsResource.Model) :
  sends_only (uses ["PUT"; "GET"])
    (DnsSettingsResource.updateDnsSettings {| DnsSettingsResource.client := c |} data).
Proof.
  operation reads.
  sends_with fail ltac:(apply uses_doRequest; cbn; set_solver).
Qed.

End methods.

Ltac method_leaf := apply uses_doRequest; cbn; set_solver.

(** X19: each kind of operation keeps to its methods.  A Create sends
    nothing but POST and GET requests and an Update nothing but PUT and
    GET requests (the Create of the DNS settings, which has no POST,
    sends PUT and GET); a Delete sends nothing but DELETE requests, and
    the Delete of the DNS settings nothing but PUT requests.  So no
    Create or Update ever deletes, and no Delete ever creates. *)
Theorem operations_keep_to_their_methods `{Runtime} (c : Client) :
  ((∀ req, sends_only (uses ["POST"; "GET"])
             (NetworkResource.Create {| NetworkResource.client := c |} req))
   ∧ (∀ req, sends_only (uses ["POST"; "GET"])
               (GroupResource.Create {| GroupResource.client := c |} req))
   ∧ (∀ req, sends_only (uses ["POST"; "GET"])
               (PolicyResource.Create {| PolicyResource.client := c |} req))
   ∧ (∀ req, sends_only (uses ["POST"; "GET"])
               (NetworkRouterResource.Create {| NetworkRouterResource.client := c |} req))
   ∧ (∀ req, sends_only (uses ["POST"; "GET"])
               (NetworkResourceResource.Create
                  {| NetworkResourceResource.client := c |} req))
   ∧ (∀ req, sends_only (uses ["POST"; "GET"])
               (NameserverGroupResource.Create
                  {| NameserverGroupResource.client := c |} req))
   ∧ (∀ req, sends_only (uses ["PUT"; "GET"])
               (DnsSettingsResource.Create {| DnsSettingsResource.client := c |} req)))
  ∧ ((∀ req, sends_only (uses ["PUT"; "GET"])
               (NetworkResource.Update {| NetworkResource.client := c |} req))
     ∧ (∀ req, sends_only (uses ["PUT"; "GET"])
                 (GroupResource.Update {| GroupResource.client := c |} req))
     ∧ (∀ req, sends_only (uses ["PUT"; "GET"])
                 (PolicyResource.Update {| PolicyResource.client := c |} req))
     ∧ (∀ req, sends_only (uses ["PUT"; "GET"])
                 (NetworkRouterResource.Update
                    {| NetworkRouterResource.client := c |} req))
     ∧ (∀ req, sends_only (uses ["PUT"; "GET"])
                 (NetworkResourceResource.Update
                    {| NetworkResourceResource.client := c |} req))
     ∧ (∀ req, sends_only (uses ["PUT"; "GET"])
                 (NameserverGroupResource.Update
                    {| NameserverGroupResource.client := c |} req))
     ∧ (∀ req, sends_only (uses ["PUT"; "GET"])
                 (DnsSettingsResource.Update {| DnsSettingsResource.client := c |} req)))
  ∧ ((∀ req, sends_only (uses ["DELETE"])
               (NetworkResource.Delete {| NetworkResource.client := c |} req))
     ∧ (∀ req, sends_only (uses ["DELETE"])
                 (GroupResource.Delete {| GroupResource.client := c |} req))
     ∧ (∀ req, sends_only (uses ["DELETE"])
                 (PolicyResource.Delete {| PolicyResource.client := c |} req))
     ∧ (∀ req, sends_only (uses ["DELETE"])
                 (NetworkRouterResource.Delete
                    {| NetworkRouterResource.client := c |} req))
     ∧ (∀ req, sends_only (uses ["DELETE"])
                 (NetworkResourceResource.Delete
                    {| NetworkResourceResource.client := c |} req))
     ∧ (∀ req, sends_only (uses ["DELETE"])
                 (SetupKeyResource.Delete {| SetupKeyResource.client := c |} req))
     ∧ (∀ req, sends_only (uses ["DELETE"])
                 (NameserverGroupResource.Delete
                    {| NameserverGroupResource.client := c |} req))
     ∧ (∀ req, sends_only (uses ["PUT"])
                 (DnsSettingsResource.Delete {| DnsSettingsResource.client := c |} req))).
Proof.
  pose proof (reads_are_gets c) as (Hnet & Hrouter & Hres & Hns & Hdns).
  assert (Hget : ∀ methods A (op : IO A),
             "GET" ∈ methods -> sends_only is_get op -> sends_only (uses methods) op).
  { intros methods A op Hin. apply sends_only_impl. intros r. by apply is_get_uses. }
  repeat apply conj; intros req; operation operations;
    sends_with
      ltac:(first [ apply updateDnsSettings_puts
                  | apply Hget; [set_solver|];
                    first [ apply Hnet | apply Hrouter | apply Hres
                          | apply Hns | apply Hdns ] ])
      method_leaf.
Qed.

(** ** The peers data source *)


